(** * Quizzie: join codes, join requests and the login flow

    A shallow embedding of the route handlers of [src/routes/api/classApi.js]
    (join-code issue and validation, join requests and their resolution) and
    of [src/routes/authRoutes.js] (signup, login, password reset).

    The handlers talk to MongoDB through Mongoose models.  A collection is a
    list of documents in insertion order, a handler is a computation in a
    state-and-exception monad over the database, and [Date.now()] is an input
    of the handler.  Each handler runs to completion before the next one
    starts: the interleaving of two requests at their [await] points is not
    part of this model. *)

From Stdlib Require Import List ZArith String Ascii Bool Arith Lia Permutation.
Import ListNotations.

Local Open Scope string_scope.
Local Open Scope Z_scope.

(** ** JavaScript strings

    A string is held as the bytes of its UTF-8 encoding.  [toUpperCase],
    [toLowerCase] and [trim] are the JavaScript built-ins restricted to
    ASCII text: bytes above 127 are left alone.  [JS.length] is the
    [length] of the JavaScript string, its number of UTF-16 code units. *)

Definition upper_ascii (c : ascii) : ascii :=
  let n := nat_of_ascii c in
  if ((97 <=? n) && (n <=? 122))%nat then ascii_of_nat (n - 32) else c.

Definition lower_ascii (c : ascii) : ascii :=
  let n := nat_of_ascii c in
  if ((65 <=? n) && (n <=? 90))%nat then ascii_of_nat (n + 32) else c.

Fixpoint map_string (f : ascii -> ascii) (s : string) : string :=
  match s with
  | EmptyString => EmptyString
  | String c r => String (f c) (map_string f r)
  end.

Definition toUpperCase : string -> string := map_string upper_ascii.
Definition toLowerCase : string -> string := map_string lower_ascii.

Definition is_space (c : ascii) : bool :=
  let n := nat_of_ascii c in
  ((n =? 32) || ((9 <=? n) && (n <=? 13)))%nat.

Fixpoint trimStart (s : string) : string :=
  match s with
  | EmptyString => EmptyString
  | String c r => if is_space c then trimStart r else s
  end.

Fixpoint trimEnd (s : string) : string :=
  match s with
  | EmptyString => EmptyString
  | String c r =>
      match trimEnd r with
      | EmptyString => if is_space c then EmptyString else String c EmptyString
      | r' => String c r'
      end
  end.

Definition trim (s : string) : string := trimEnd (trimStart s).

Module JS.
(** A byte [10xxxxxx], which continues a character. *)
Definition continues (c : ascii) : bool :=
  let n := nat_of_ascii c in ((128 <=? n) && (n <? 192))%nat.

(** A byte [11110xxx] and above, which starts a character of four bytes:
    one beyond the basic plane, a surrogate pair in UTF-16. *)
Definition startsPair (c : ascii) : bool := (240 <=? nat_of_ascii c)%nat.

(** [s.length]: one code unit for a character of one, two or three bytes,
    two for a character of four bytes. *)
Fixpoint length (s : string) : nat :=
  match s with
  | EmptyString => 0%nat
  | String c r =>
      if continues c then length r
      else if startsPair c then
        match r with
        | String c' r' =>
            if continues c' then S (S (length r')) else S (length r)
        | EmptyString => 1%nat
        end
      else S (length r)
  end.
End JS.

(** [s.split(' ')[0]] and [s.split(' ').slice(1).join(' ')]: the text before
    and after the first blank. *)
Fixpoint beforeSpace (s : string) : string :=
  match s with
  | EmptyString => EmptyString
  | String c r => if Ascii.eqb c " " then EmptyString else String c (beforeSpace r)
  end.

Fixpoint afterSpace (s : string) : string :=
  match s with
  | EmptyString => EmptyString
  | String c r => if Ascii.eqb c " " then r else afterSpace r
  end.

(** ** Documents

    A document keeps the fields the handlers below read or write.  Left
    out: what only the page templates and the other routes use (a class's
    description and quiz counters, a user's verification fields) and the
    request metadata stored with a join request ([ipAddress], [userAgent]).
    An [_id] is a natural number; the status of a join request is the
    enumeration of the spec's data model. *)

Definition ObjectId := nat.
Definition Date := Z.   (* milliseconds since the epoch *)

Inductive RequestStatus := pending | approved | rejected.

Definition status_eqb (a b : RequestStatus) : bool :=
  match a, b with
  | pending, pending | approved, approved | rejected, rejected => true
  | _, _ => false
  end.

Module Student.
Record t := mk {
  _id : ObjectId;
  name : string;
  firstName : string;
  lastName : string;
  enrollment : string;
  email : option string;
  password : string;
  resetPasswordToken : option string;
  resetPasswordTokenExpires : option Date
}.
End Student.

Module Teacher.
Record t := mk {
  _id : ObjectId;
  name : string;
  firstName : string;
  lastName : string;
  email : string;
  password : string;
  resetPasswordToken : option string;
  resetPasswordTokenExpires : option Date
}.
End Teacher.

Module ClassDoc.
Record t := mk {
  _id : ObjectId;
  name : string;
  subject : string;
  teacherId : ObjectId;
  isActive : bool;
  studentCount : nat;
  updatedAt : Date
}.
End ClassDoc.

Module ClassStudent.
Record t := mk {
  _id : ObjectId;
  classId : ObjectId;
  studentId : ObjectId;
  studentName : string;
  studentEnrollment : string;
  enrolledAt : Date;
  isActive : bool
}.
End ClassStudent.

Module ClassJoinCode.
Record t := mk {
  _id : ObjectId;
  classId : ObjectId;
  teacherId : ObjectId;
  className : string;
  classSubject : string;
  teacherName : string;
  joinCode : string;
  expiresAt : Date;
  isActive : bool;
  usageCount : nat;
  maxUsage : nat
}.

Definition set_isActive (b : bool) (d : t) : t :=
  mk (_id d) (classId d) (teacherId d) (className d) (classSubject d)
     (teacherName d) (joinCode d) (expiresAt d) b (usageCount d) (maxUsage d).

(** [{ $inc: { usageCount: 1 } }] *)
Definition inc_usageCount (d : t) : t :=
  mk (_id d) (classId d) (teacherId d) (className d) (classSubject d)
     (teacherName d) (joinCode d) (expiresAt d) (isActive d)
     (S (usageCount d)) (maxUsage d).
End ClassJoinCode.

Module ClassJoinRequest.
Record t := mk {
  _id : ObjectId;
  classId : ObjectId;
  studentId : ObjectId;
  studentName : string;
  studentEnrollment : string;
  joinCode : string;
  className : string;
  classSubject : string;
  teacherId : ObjectId;
  teacherName : string;
  status : RequestStatus;
  processedAt : option Date;
  processedBy : option ObjectId;
  rejectionReason : option string
}.

Definition set_status (s : RequestStatus) (at_ : option Date)
    (by_ : option ObjectId) (why : option string) (d : t) : t :=
  mk (_id d) (classId d) (studentId d) (studentName d) (studentEnrollment d)
     (joinCode d) (className d) (classSubject d) (teacherId d)
     (teacherName d) s at_ by_ why.
End ClassJoinRequest.

(** ** The database *)

Record DB := mkDB {
  studentCollection : list Student.t;
  teacherCollection : list Teacher.t;
  classCollection : list ClassDoc.t;
  classStudentCollection : list ClassStudent.t;
  classJoinCodeCollection : list ClassJoinCode.t;
  classJoinRequestCollection : list ClassJoinRequest.t
}.

Definition emptyDB : DB := mkDB [] [] [] [] [] [].

(** ** Mongoose models over the database

    A handler is a function of the database that returns a value or throws,
    together with the database it leaves behind.  A write that happened
    before a [throw] stays: MongoDB has no rollback here. *)

Record MongoError := mkError { code : Z; errmsg : string }.

Definition M (A : Type) : Type := DB -> (MongoError + A) * DB.

Definition ret {A} (a : A) : M A := fun db => (inr a, db).

Definition bind {A B} (m : M A) (k : A -> M B) : M B :=
  fun db =>
    match m db with
    | (inl e, db') => (inl e, db')
    | (inr a, db') => k a db'
    end.

Definition throw {A} (e : MongoError) : M A := fun db => (inl e, db).

(** [try { body } catch (error) { handler }] *)
Definition tryCatch {A} (body : M A) (handler : MongoError -> A) : DB -> A * DB :=
  fun db =>
    match body db with
    | (inl e, db') => (handler e, db')
    | (inr a, db') => (a, db')
    end.

Declare Scope mongo_scope.
Delimit Scope mongo_scope with mongo.
Notation "x <- c1 ;; c2" := (bind c1 (fun x => c2))
  (at level 100, c1 at next level, right associativity) : mongo_scope.
Notation "c1 ;; c2" := (bind c1 (fun _ => c2))
  (at level 100, right associativity) : mongo_scope.

(** The part of a Mongoose model the handlers use: where its collection
    lives in the database and how a document is identified. *)
Record Model (A : Type) := mkModel {
  docs : DB -> list A;
  put : list A -> DB -> DB;
  idOf : A -> ObjectId
}.
Arguments mkModel {A} _ _ _.
Arguments docs {A} _ _.
Arguments put {A} _ _ _.
Arguments idOf {A} _ _.

Definition students : Model Student.t :=
  mkModel studentCollection
    (fun l db => mkDB l (teacherCollection db) (classCollection db)
       (classStudentCollection db) (classJoinCodeCollection db)
       (classJoinRequestCollection db))
    Student._id.

Definition teachers : Model Teacher.t :=
  mkModel teacherCollection
    (fun l db => mkDB (studentCollection db) l (classCollection db)
       (classStudentCollection db) (classJoinCodeCollection db)
       (classJoinRequestCollection db))
    Teacher._id.

Definition classes : Model ClassDoc.t :=
  mkModel classCollection
    (fun l db => mkDB (studentCollection db) (teacherCollection db) l
       (classStudentCollection db) (classJoinCodeCollection db)
       (classJoinRequestCollection db))
    ClassDoc._id.

Definition classStudents : Model ClassStudent.t :=
  mkModel classStudentCollection
    (fun l db => mkDB (studentCollection db) (teacherCollection db)
       (classCollection db) l (classJoinCodeCollection db)
       (classJoinRequestCollection db))
    ClassStudent._id.

Definition joinCodes : Model ClassJoinCode.t :=
  mkModel classJoinCodeCollection
    (fun l db => mkDB (studentCollection db) (teacherCollection db)
       (classCollection db) (classStudentCollection db) l
       (classJoinRequestCollection db))
    ClassJoinCode._id.

Definition joinRequests : Model ClassJoinRequest.t :=
  mkModel classJoinRequestCollection
    (fun l db => mkDB (studentCollection db) (teacherCollection db)
       (classCollection db) (classStudentCollection db)
       (classJoinCodeCollection db) l)
    ClassJoinRequest._id.

(** List-level meaning of the single-document writes. *)
Fixpoint update_first {A} (p : A -> bool) (f : A -> A) (l : list A) : list A :=
  match l with
  | [] => []
  | x :: r => if p x then f x :: r else x :: update_first p f r
  end.

Fixpoint remove_first {A} (p : A -> bool) (l : list A) : list A :=
  match l with
  | [] => []
  | x :: r => if p x then r else x :: remove_first p r
  end.

Definition update_all {A} (p : A -> bool) (f : A -> A) (l : list A) : list A :=
  map (fun x => if p x then f x else x) l.

(** A new [_id]: above every [_id] of the collection. *)
Definition newObjectId (ids : list ObjectId) : ObjectId :=
  S (fold_right Nat.max 0%nat ids).

Section Queries.
Context {A : Type} (m : Model A).

Definition hasId (i : ObjectId) (d : A) : bool := (idOf m d =? i)%nat.

Definition findOne (q : A -> bool) : M (option A) :=
  fun db => (inr (find q (docs m db)), db).

Definition findById (i : ObjectId) : M (option A) := findOne (hasId i).

Definition countDocuments (q : A -> bool) : M nat :=
  fun db => (inr (List.length (filter q (docs m db))), db).

Definition updateMany (q : A -> bool) (f : A -> A) : M unit :=
  fun db => (inr tt, put m (update_all q f (docs m db)) db).

Definition findByIdAndUpdate (i : ObjectId) (f : A -> A) : M unit :=
  fun db => (inr tt, put m (update_first (hasId i) f (docs m db)) db).

Definition deleteOne (q : A -> bool) : M unit :=
  fun db => (inr tt, put m (remove_first q (docs m db)) db).

(** [doc.save()] of a document read earlier: the stored document with
    that [_id] is replaced. *)
Definition save (d : A) : M unit :=
  findByIdAndUpdate (idOf m d) (fun _ => d).

(** [Model.create(fields)]: the schema ([schema], from the absent
    [mongodb.js]: validators and unique indexes) may refuse the document
    with an error; otherwise it is appended under a new [_id]. *)
Definition create (schema : A -> list A -> option MongoError)
    (fields : ObjectId -> A) : M A :=
  fun db =>
    let d := fields (newObjectId (map (idOf m) (docs m db))) in
    match schema d (docs m db) with
    | Some e => (inl e, db)
    | None => (inr d, put m (docs m db ++ [d]) db)
    end.
End Queries.

(** ** Responses of the JSON API *)

Inductive Payload :=
| GeneratedCode (joinCode : string) (expiresAt : Date) (expiresInMinutes : nat)
    (className classSubject : string) (usageCount maxUsage : nat)
| ValidCode (classId : ObjectId) (className classSubject teacherName : string)
    (expiresAt : Date) (remainingTime : Z)
| Rejoined (className classSubject teacherName : string)
| RequestSent (requestId : ObjectId) (className classSubject teacherName : string)
| RequestApproved (studentName studentEnrollment : string)
| RequestRejected (studentName rejectionReason : string).

(** [Err s m] is [res.status(s).json({ success: false, message: m })];
    [Ok m p] is [res.json({ success: true, message: m, ...p })]. *)
Inductive Response :=
| Err (status : nat) (message : string)
| Ok (message : option string) (payload : Payload).

(** ** Schema methods of [mongodb.js] *)

(** Modelled from the spec: [isExpired()] is a method of the join-code schema
    in [mongodb.js], which is not among the sources.  The spec's
    ValidateJoinCode "fails with Expired if past expiry". *)
Definition isExpired (c : ClassJoinCode.t) (now : Date) : bool :=
  ClassJoinCode.expiresAt c <? now.

(** Modelled from the spec: [canBeUsed()] is a method of the join-code schema
    in [mongodb.js], which is not among the sources.  The spec's
    ValidateJoinCode "fails with UsageExceeded if usage counter >= cap". *)
Definition canBeUsed (c : ClassJoinCode.t) : bool :=
  (ClassJoinCode.usageCount c <? ClassJoinCode.maxUsage c)%nat.

(** Modelled from the spec: [approve(teacherId)] is a method of the
    join-request schema in [mongodb.js], which is not among the sources.  The
    spec's ResolveJoinRequest "marks the request approved"; the data model
    gives a request a "processing timestamp/actor".  The method sets these
    fields on the document and saves it. *)
Definition approvedBy (teacherId : ObjectId) (now : Date)
    (r : ClassJoinRequest.t) : ClassJoinRequest.t :=
  ClassJoinRequest.set_status approved (Some now) (Some teacherId)
    (ClassJoinRequest.rejectionReason r) r.

Definition approve (r : ClassJoinRequest.t) (teacherId : ObjectId) (now : Date) : M unit :=
  findByIdAndUpdate joinRequests (ClassJoinRequest._id r) (approvedBy teacherId now).

(** Modelled from the spec: [reject(teacherId, reason)] is a method of the
    join-request schema in [mongodb.js], which is not among the sources.  The
    spec's ResolveJoinRequest "marks the request rejected with a reason". *)
Definition reject (r : ClassJoinRequest.t) (teacherId : ObjectId)
    (reason : string) (now : Date) : M unit :=
  findByIdAndUpdate joinRequests (ClassJoinRequest._id r)
    (ClassJoinRequest.set_status rejected (Some now) (Some teacherId) (Some reason)).

(** ** [routes/api/classApi.js] *)

Definition dquote : string := String (ascii_of_nat 34) EmptyString.

Local Open Scope mongo_scope.

Section ClassApi.
(** What the handlers take from the absent [mongodb.js]: the static
    [generateUniqueCode()] of the join-code model, which draws a code at
    random, and the schemas that [create] checks a new document against. *)
Variable generateUniqueCode : list ClassJoinCode.t -> string.
Variable joinCodeSchema :
  ClassJoinCode.t -> list ClassJoinCode.t -> option MongoError.
Variable classStudentSchema :
  ClassStudent.t -> list ClassStudent.t -> option MongoError.
Variable joinRequestSchema :
  ClassJoinRequest.t -> list ClassJoinRequest.t -> option MongoError.

(** [{ _id: classId, teacherId: teacherId, isActive: true }] *)
Definition ownedClass (classId teacherId : ObjectId) (c : ClassDoc.t) : bool :=
  (ClassDoc._id c =? classId)%nat && (ClassDoc.teacherId c =? teacherId)%nat
  && ClassDoc.isActive c.

(** [{ classId: classId, isActive: true }] on join codes *)
Definition activeCodeOf (classId : ObjectId) (c : ClassJoinCode.t) : bool :=
  (ClassJoinCode.classId c =? classId)%nat && ClassJoinCode.isActive c.

(** [{ joinCode: joinCode, isActive: true }] *)
Definition activeCode (joinCode : string) (c : ClassJoinCode.t) : bool :=
  String.eqb (ClassJoinCode.joinCode c) joinCode && ClassJoinCode.isActive c.

(** [{ classId, studentId }] on enrollments *)
Definition enrollmentOf (classId studentId : ObjectId) (e : ClassStudent.t) : bool :=
  (ClassStudent.classId e =? classId)%nat && (ClassStudent.studentId e =? studentId)%nat.

(** [{ classId, studentId, isActive: true }] *)
Definition activeEnrollmentOf (classId studentId : ObjectId) (e : ClassStudent.t) : bool :=
  enrollmentOf classId studentId e && ClassStudent.isActive e.

(** [{ classId: classId, isActive: true }] on enrollments *)
Definition activeStudentOf (classId : ObjectId) (e : ClassStudent.t) : bool :=
  (ClassStudent.classId e =? classId)%nat && ClassStudent.isActive e.

(** [{ classId, studentId }] on join requests *)
Definition requestOf (classId studentId : ObjectId) (r : ClassJoinRequest.t) : bool :=
  (ClassJoinRequest.classId r =? classId)%nat
  && (ClassJoinRequest.studentId r =? studentId)%nat.

(** [{ classId, studentId, status: 'pending' }] *)
Definition pendingRequestOf (classId studentId : ObjectId) (r : ClassJoinRequest.t) : bool :=
  requestOf classId studentId r && status_eqb (ClassJoinRequest.status r) pending.

(** [{ classId, studentId, status: { $in: ['pending', 'rejected'] } }] *)
Definition openRequestOf (classId studentId : ObjectId) (r : ClassJoinRequest.t) : bool :=
  requestOf classId studentId r
  && (status_eqb (ClassJoinRequest.status r) pending
      || status_eqb (ClassJoinRequest.status r) rejected).

(** [{ _id: requestId, classId: classId, status: 'pending' }] *)
Definition pendingRequest (requestId classId : ObjectId) (r : ClassJoinRequest.t) : bool :=
  (ClassJoinRequest._id r =? requestId)%nat
  && (ClassJoinRequest.classId r =? classId)%nat
  && status_eqb (ClassJoinRequest.status r) pending.

(** [{ isActive: true, enrolledAt: new Date(), studentName, studentEnrollment }] *)
Definition reactivate (now : Date) (studentName studentEnrollment : string)
    (e : ClassStudent.t) : ClassStudent.t :=
  ClassStudent.mk (ClassStudent._id e) (ClassStudent.classId e)
    (ClassStudent.studentId e) studentName studentEnrollment now true.

(** [{ studentCount: totalActiveStudents, updatedAt: new Date() }] *)
Definition set_studentCount (n : nat) (now : Date) (c : ClassDoc.t) : ClassDoc.t :=
  ClassDoc.mk (ClassDoc._id c) (ClassDoc.name c) (ClassDoc.subject c)
    (ClassDoc.teacherId c) (ClassDoc.isActive c) n now.

(** [POST /:classId/generate-join-code] *)
Definition generateJoinCode (classId teacherId : ObjectId) (userName : string)
    (now : Date) : DB -> Response * DB :=
  tryCatch
    (classDoc <- findOne classes (ownedClass classId teacherId) ;;
     match classDoc with
     | None => ret (Err 404 "Class not found or access denied.")
     | Some classDoc =>
         updateMany joinCodes (activeCodeOf classId)
           (ClassJoinCode.set_isActive false) ;;
         joinCode <- (fun db => (inr (generateUniqueCode (docs joinCodes db)), db)) ;;
         let expiresAt := now + 10 * 60 * 1000 in
         newJoinCode <- create joinCodes joinCodeSchema (fun i =>
           ClassJoinCode.mk i classId teacherId (ClassDoc.name classDoc)
             (ClassDoc.subject classDoc) userName joinCode expiresAt true 0 50) ;;
         ret (Ok (Some "Join code generated successfully!")
                (GeneratedCode joinCode expiresAt 10 (ClassDoc.name classDoc)
                   (ClassDoc.subject classDoc) 0 50))
     end)
    (fun error => Err 500 ("Failed to generate join code: " ++ errmsg error)).

(** [GET /validate-join-code/:code] *)
Definition validateJoinCode (code : string) (studentId : ObjectId)
    (now : Date) : DB -> Response * DB :=
  tryCatch
    (let joinCode := toUpperCase code in
     codeDoc <- findOne joinCodes (activeCode joinCode) ;;
     match codeDoc with
     | None => ret (Err 404 "Invalid or expired join code.")
     | Some codeDoc =>
         if isExpired codeDoc now then
           findByIdAndUpdate joinCodes (ClassJoinCode._id codeDoc)
             (ClassJoinCode.set_isActive false) ;;
           ret (Err 400 "This join code has expired.")
         else if negb (canBeUsed codeDoc) then
           ret (Err 400 "This join code has reached its usage limit.")
         else
           existingEnrollment <- findOne classStudents
             (activeEnrollmentOf (ClassJoinCode.classId codeDoc) studentId) ;;
           match existingEnrollment with
           | Some _ => ret (Err 400 "You are already enrolled in this class.")
           | None =>
               existingRequest <- findOne joinRequests
                 (pendingRequestOf (ClassJoinCode.classId codeDoc) studentId) ;;
               match existingRequest with
               | Some _ =>
                   ret (Err 400 "You already have a pending request for this class.")
               | None =>
                   ret (Ok None
                          (ValidCode (ClassJoinCode.classId codeDoc)
                             (ClassJoinCode.className codeDoc)
                             (ClassJoinCode.classSubject codeDoc)
                             (ClassJoinCode.teacherName codeDoc)
                             (ClassJoinCode.expiresAt codeDoc)
                             (Z.max 0 ((ClassJoinCode.expiresAt codeDoc - now) / 1000))))
               end
           end
     end)
    (fun error => Err 500 ("Failed to validate join code: " ++ errmsg error)).

(** [POST /join-request], from "Create new join request" on.  The status
    of the new request is the schema's default.

    Modelled from the spec: the default lives in [mongodb.js], which is not
    among the sources; the spec's SubmitJoinRequest creates "a JoinRequest
    in pending state". *)
Definition createJoinRequest (joinCode : string) (studentId : ObjectId)
    (studentName : string) (student : Student.t) (codeDoc : ClassJoinCode.t)
    : M Response :=
  joinRequest <- create joinRequests joinRequestSchema (fun i =>
    ClassJoinRequest.mk i (ClassJoinCode.classId codeDoc) studentId studentName
      (Student.enrollment student) (toUpperCase joinCode)
      (ClassJoinCode.className codeDoc) (ClassJoinCode.classSubject codeDoc)
      (ClassJoinCode.teacherId codeDoc) (ClassJoinCode.teacherName codeDoc)
      pending None None None) ;;
  findByIdAndUpdate joinCodes (ClassJoinCode._id codeDoc)
    ClassJoinCode.inc_usageCount ;;
  ret (Ok (Some ("Join request sent successfully! Waiting for "
                 ++ ClassJoinCode.teacherName codeDoc
                 ++ " to approve your request."))
         (RequestSent (ClassJoinRequest._id joinRequest)
            (ClassJoinCode.className codeDoc)
            (ClassJoinCode.classSubject codeDoc)
            (ClassJoinCode.teacherName codeDoc))).

(** [POST /join-request]; [joinCode] is [None] when the body has no such
    field, and the empty string is the other falsy value it can have. *)
Definition submitJoinRequest (joinCode : option string) (studentId : ObjectId)
    (studentName : string) (now : Date) : DB -> Response * DB :=
  tryCatch
    (match joinCode with
     | None => ret (Err 400 "Join code is required.")
     | Some joinCode =>
     if String.eqb joinCode "" then ret (Err 400 "Join code is required.") else
     student <- findById students studentId ;;
     match student with
     | None => ret (Err 404 "Student record not found.")
     | Some student =>
     codeDoc <- findOne joinCodes (activeCode (toUpperCase joinCode)) ;;
     match codeDoc with
     | None => ret (Err 400 "Invalid, expired, or overused join code.")
     | Some codeDoc =>
     if isExpired codeDoc now || negb (canBeUsed codeDoc) then
       ret (Err 400 "Invalid, expired, or overused join code.")
     else
     existingClassStudentEntry <- findOne classStudents
       (enrollmentOf (ClassJoinCode.classId codeDoc) studentId) ;;
     match existingClassStudentEntry with
     | Some existingClassStudentEntry =>
         if ClassStudent.isActive existingClassStudentEntry then
           ret (Err 400 "You are already enrolled in this class.")
         else
           findByIdAndUpdate classStudents
             (ClassStudent._id existingClassStudentEntry)
             (reactivate now studentName (Student.enrollment student)) ;;
           updateMany joinRequests
             (openRequestOf (ClassJoinCode.classId codeDoc) studentId)
             (fun r => ClassJoinRequest.set_status approved (Some now)
                         (ClassJoinRequest.processedBy r)
                         (ClassJoinRequest.rejectionReason r) r) ;;
           findByIdAndUpdate joinCodes (ClassJoinCode._id codeDoc)
             ClassJoinCode.inc_usageCount ;;
           totalActiveStudents <- countDocuments classStudents
             (activeStudentOf (ClassJoinCode.classId codeDoc)) ;;
           findByIdAndUpdate classes (ClassJoinCode.classId codeDoc)
             (set_studentCount totalActiveStudents now) ;;
           ret (Ok (Some ("You have successfully rejoined "
                          ++ ClassJoinCode.className codeDoc ++ "!"))
                  (Rejoined (ClassJoinCode.className codeDoc)
                     (ClassJoinCode.classSubject codeDoc)
                     (ClassJoinCode.teacherName codeDoc)))
     | None =>
         existingJoinRequest <- findOne joinRequests
           (requestOf (ClassJoinCode.classId codeDoc) studentId) ;;
         match existingJoinRequest with
         | None => createJoinRequest joinCode studentId studentName student codeDoc
         | Some existingJoinRequest =>
             match ClassJoinRequest.status existingJoinRequest with
             | pending =>
                 ret (Err 400 "You already have a pending request for this class. Please wait for the teacher's approval.")
             | rejected =>
                 deleteOne joinRequests
                   (hasId joinRequests (ClassJoinRequest._id existingJoinRequest)) ;;
                 createJoinRequest joinCode studentId studentName student codeDoc
             | approved =>
                 createJoinRequest joinCode studentId studentName student codeDoc
             end
         end
     end end end end)
    (fun error =>
       if code error =? 11000 then
         Err 400 "A request for this class already exists or you are already enrolled."
       else Err 500 ("Failed to submit join request: " ++ errmsg error)).

(** [POST /:classId/join-requests/:requestId/:action], action [approve],
    from [await joinRequest.approve(teacherId)] after the enrollment was
    created or reactivated. *)
Definition finishApproval (classId teacherId : ObjectId) (now : Date)
    (joinRequest : ClassJoinRequest.t) : M Response :=
  approve joinRequest teacherId now ;;
  totalActiveStudents <- countDocuments classStudents (activeStudentOf classId) ;;
  findByIdAndUpdate classes classId (set_studentCount totalActiveStudents now) ;;
  ret (Ok (Some (ClassJoinRequest.studentName joinRequest
                 ++ " has been added to the class successfully!"))
         (RequestApproved (ClassJoinRequest.studentName joinRequest)
            (ClassJoinRequest.studentEnrollment joinRequest))).

(** [POST /:classId/join-requests/:requestId/:action] *)
Definition resolveJoinRequest (classId requestId : ObjectId) (action : string)
    (teacherId : ObjectId) (now : Date) : DB -> Response * DB :=
  tryCatch
    (if negb (String.eqb action "approve" || String.eqb action "reject") then
       ret (Err 400 ("Invalid action. Must be " ++ dquote ++ "approve" ++ dquote
                     ++ " or " ++ dquote ++ "reject" ++ dquote ++ "."))
     else
     classDoc <- findOne classes (ownedClass classId teacherId) ;;
     match classDoc with
     | None => ret (Err 404 "Class not found or access denied.")
     | Some classDoc =>
     joinRequest <- findOne joinRequests (pendingRequest requestId classId) ;;
     match joinRequest with
     | None => ret (Err 404 "Join request not found or already processed.")
     | Some joinRequest =>
     if String.eqb action "approve" then
       existingEnrollment <- findOne classStudents
         (enrollmentOf classId (ClassJoinRequest.studentId joinRequest)) ;;
       match existingEnrollment with
       | Some existingEnrollment =>
           if ClassStudent.isActive existingEnrollment then
             approve joinRequest teacherId now ;;
             ret (Err 400 "Student is already enrolled in this class.")
           else
             findByIdAndUpdate classStudents (ClassStudent._id existingEnrollment)
               (reactivate now (ClassJoinRequest.studentName joinRequest)
                  (ClassJoinRequest.studentEnrollment joinRequest)) ;;
             finishApproval classId teacherId now joinRequest
       | None =>
           create classStudents classStudentSchema (fun i =>
             ClassStudent.mk i classId (ClassJoinRequest.studentId joinRequest)
               (ClassJoinRequest.studentName joinRequest)
               (ClassJoinRequest.studentEnrollment joinRequest) now true) ;;
           finishApproval classId teacherId now joinRequest
       end
     else
       reject joinRequest teacherId "Request rejected by teacher" now ;;
       ret (Ok (Some ("Join request from "
                      ++ ClassJoinRequest.studentName joinRequest
                      ++ " has been rejected."))
              (RequestRejected (ClassJoinRequest.studentName joinRequest)
                 "Request rejected by teacher"))
     end end)
    (fun error => Err 500 ("Failed to process join request: " ++ errmsg error)).
End ClassApi.

(** ** [routes/authRoutes.js]

    The handlers run behind the validation middleware ([validateLogin],
    [validateRegistration]), which is not among the sources: the fields of
    the request body are strings here.  A page is what the handler sends:
    a rendered view with its locals, or a redirect. *)

Inductive Local :=
| LStr (s : string)
| LBool (b : bool)
| LErrors (errors : list (string * string))
| LObject (fields : list (string * string)).

Inductive Page :=
| Render (view : string) (locals : list (string * Local))
| Redirect (url : string).

(** [req.session] after the handler assigned to it. *)
Record Session := mkSession {
  userId : ObjectId;
  userName : string;
  userType : string
}.

(** A user document of either collection. *)
Inductive User :=
| AStudent (s : Student.t)
| ATeacher (t : Teacher.t).

Definition user_id (u : User) : ObjectId :=
  match u with AStudent s => Student._id s | ATeacher t => Teacher._id t end.

Definition user_name (u : User) : string :=
  match u with AStudent s => Student.name s | ATeacher t => Teacher.name t end.

Definition user_password (u : User) : string :=
  match u with AStudent s => Student.password s | ATeacher t => Teacher.password t end.

Definition opt_string_eqb (o : option string) (s : string) : bool :=
  match o with Some x => String.eqb x s | None => false end.

(** [{ $gt: now }] on an optional date *)
Definition opt_date_gt (o : option Date) (now : Date) : bool :=
  match o with Some d => now <? d | None => false end.

Section AuthRoutes.
(** [encodeURIComponent] of JavaScript, and the schemas of the two user
    models in the absent [mongodb.js]. *)
Variable encodeURIComponent : string -> string.
Variable studentSchema : Student.t -> list Student.t -> option MongoError.
Variable teacherSchema : Teacher.t -> list Teacher.t -> option MongoError.

(** [req.session.userId = ...; req.session.save(cb)]: [saveFails] is the
    [err] the session store hands to the callback. *)
Definition startSession (saveFails : bool) (view : string)
    (failure : list (string * Local)) (u : User) (userType target : string)
    : Page * option Session :=
  let session := mkSession (user_id u) (user_name u) userType in
  if saveFails then (Render view failure, Some session)
  else (Redirect (target ++ "?userName=" ++ encodeURIComponent (user_name u)),
        Some session).

(** A [TypeError] on reading a field of [null]. *)
Definition typeError {A} : M A := throw (mkError 0 "TypeError").

(** [POST /signup] *)
Definition signup (userType name email enrollment password : string)
    (saveFails : bool) : DB -> (Page * option Session) * DB :=
  tryCatch
    (if String.eqb userType "teacher" then
       existingTeacher <- findOne teachers
         (fun t => String.eqb (Teacher.email t) email) ;;
       match existingTeacher with
       | Some _ =>
           ret (Render "signup"
                  [("errors", LErrors [("email", "User with this email already exists.")]);
                   ("userType", LStr userType); ("name", LStr name);
                   ("email", LStr email); ("enrollment", LStr enrollment)],
                None)
       | None =>
           create teachers teacherSchema (fun i =>
             Teacher.mk i (trim name) (beforeSpace (trim name))
               (afterSpace (trim name)) (trim (toLowerCase email)) password
               None None) ;;
           newTeacher <- findOne teachers
             (fun t => String.eqb (Teacher.email t) (trim (toLowerCase email))) ;;
           match newTeacher with
           | None => typeError
           | Some newTeacher =>
               ret (startSession saveFails "signup"
                      [("errors", LErrors [("general", "Error during registration.")])]
                      (ATeacher newTeacher) userType "/homeTeacher")
           end
       end
     else
       let upperCaseEnrollment := toUpperCase enrollment in
       existingStudent <- findOne students
         (fun s => String.eqb (Student.enrollment s) upperCaseEnrollment) ;;
       match existingStudent with
       | Some _ =>
           ret (Render "signup"
                  [("errors", LErrors [("enrollment",
                      "User with this enrollment number already exists.")]);
                   ("userType", LStr userType); ("name", LStr name);
                   ("email", LStr email); ("enrollment", LStr enrollment)],
                None)
       | None =>
           create students studentSchema (fun i =>
             Student.mk i (trim name) (beforeSpace (trim name))
               (afterSpace (trim name)) upperCaseEnrollment
               (match trim email with
                | EmptyString => None
                | _ => Some (trim (toLowerCase email))
                end)
               password None None) ;;
           newStudent <- findOne students
             (fun s => String.eqb (Student.enrollment s) upperCaseEnrollment) ;;
           match newStudent with
           | None => typeError
           | Some newStudent =>
               ret (startSession saveFails "signup"
                      [("errors", LErrors [("general", "Error during registration.")])]
                      (AStudent newStudent) userType "/homeStudent")
           end
       end)
    (fun _ =>
       (Render "signup"
          [("errors", LErrors [("general",
              "An unexpected error occurred during registration. Please try again.")])],
        None)).

(** The lookup of [POST /login]: by e-mail for a teacher, by enrollment
    number for a student ([null] for an empty enrollment field, which no
    stored enrollment string equals). *)
Definition findLoginUser (userType email enrollment : string) : M (option User) :=
  if String.eqb userType "teacher" then
    user <- findOne teachers
      (fun t => String.eqb (Teacher.email t) (trim (toLowerCase email))) ;;
    ret (option_map ATeacher user)
  else
    match enrollment with
    | EmptyString => ret None
    | _ =>
        user <- findOne students
          (fun s => String.eqb (Student.enrollment s) (toUpperCase enrollment)) ;;
        ret (option_map AStudent user)
    end.

(** [POST /login] *)
Definition login (password userType email enrollment : string)
    (saveFails : bool) : DB -> (Page * option Session) * DB :=
  let oldInput :=
    LObject [("userType", userType); ("email", email);
             ("enrollment", enrollment)] in
  tryCatch
    (user <- findLoginUser userType email enrollment ;;
     match user with
     | None =>
         ret (Render "login"
                [("errors", LErrors
                    [if String.eqb userType "teacher"
                     then ("email", "No user found with this email.")
                     else ("enrollment", "No user found with this enrollment number.")]);
                 ("oldInput", oldInput)],
              None)
     | Some user =>
         if String.eqb (user_password user) password then
           ret (startSession saveFails "login"
                  [("errors", LErrors
                      [("general", "Login failed due to an internal error.")]);
                   ("oldInput", oldInput)]
                  user userType
                  (if String.eqb userType "teacher" then "/homeTeacher"
                   else "/homeStudent"))
         else
           ret (Render "login"
                  [("errors", LErrors [("password", "Wrong password.")]);
                   ("oldInput", oldInput)],
                None)
     end)
    (fun _ =>
       (Render "login"
          [("errors", LErrors [("general",
              "An unexpected error occurred during login. Please try again.")])],
        None)).

(** [{ resetPasswordToken: token, resetPasswordTokenExpires: { $gt: Date.now() } }],
    in the student collection first, then in the teacher collection. *)
Definition findByResetToken (token : string) (now : Date) : M (option User) :=
  user <- findOne students (fun s =>
    opt_string_eqb (Student.resetPasswordToken s) token
    && opt_date_gt (Student.resetPasswordTokenExpires s) now) ;;
  match user with
  | Some s => ret (Some (AStudent s))
  | None =>
      user <- findOne teachers (fun t =>
        opt_string_eqb (Teacher.resetPasswordToken t) token
        && opt_date_gt (Teacher.resetPasswordTokenExpires t) now) ;;
      ret (option_map ATeacher user)
  end.

(** [user.password = newPassword; user.resetPasswordToken = undefined;
    user.resetPasswordTokenExpires = undefined; await user.save()] *)
Definition savePassword (u : User) (newPassword : string) : M unit :=
  match u with
  | AStudent s =>
      save students
        (Student.mk (Student._id s) (Student.name s) (Student.firstName s)
           (Student.lastName s) (Student.enrollment s) (Student.email s)
           newPassword None None)
  | ATeacher t =>
      save teachers
        (Teacher.mk (Teacher._id t) (Teacher.name t) (Teacher.firstName t)
           (Teacher.lastName t) (Teacher.email t) newPassword None None)
  end.

(** [POST /reset-password/:token] *)
Definition resetPassword (token newPassword confirmNewPassword : string)
    (now : Date) : DB -> Page * DB :=
  tryCatch
    (user <- findByResetToken token now ;;
     match user with
     | None =>
         ret (Render "resetPassword"
                [("success", LBool false);
                 ("error", LStr "The password reset link is invalid or has expired. Please request a new one.");
                 ("token", LStr "")])
     | Some user =>
         if negb (String.eqb newPassword confirmNewPassword) then
           ret (Render "resetPassword"
                  [("success", LBool false);
                   ("error", LStr "Passwords do not match.");
                   ("token", LStr token)])
         else if (JS.length newPassword <? 6)%nat then
           ret (Render "resetPassword"
                  [("success", LBool false);
                   ("error", LStr "Password must be at least 6 characters long.");
                   ("token", LStr token)])
         else
           savePassword user newPassword ;;
           ret (Render "resetPassword"
                  [("success", LBool true);
                   ("message", LStr "Your password has been successfully reset! You can now log in with your new password.")])
     end)
    (fun _ =>
       Render "resetPassword"
         [("success", LBool false);
          ("error", LStr "An unexpected error occurred while resetting password. Please try again.");
          ("token", LStr token)]).
End AuthRoutes.

(** ** Observations on the database *)

(** The usage counter of every stored join code, by [_id]. *)
Definition usageCounters (db : DB) : list (ObjectId * nat) :=
  map (fun c => (ClassJoinCode._id c, ClassJoinCode.usageCount c))
      (classJoinCodeCollection db).

(** The active join codes of a class. *)
Definition activeCodes (classId : ObjectId) (db : DB) : list ClassJoinCode.t :=
  filter (activeCodeOf classId) (classJoinCodeCollection db).

Definition AtMostOneActiveCode (db : DB) : Prop :=
  forall classId, (List.length (activeCodes classId db) <= 1)%nat.

(** The join code [c] was used once between [db] and [db']: the stored
    document under its [_id] is [c] with the counter one higher, and no other
    join-code document differs. *)
Definition usedOnce (c : ClassJoinCode.t) (db db' : DB) : Prop :=
  classJoinCodeCollection db' =
    update_first (hasId joinCodes (ClassJoinCode._id c))
      ClassJoinCode.inc_usageCount (classJoinCodeCollection db) /\
  find (hasId joinCodes (ClassJoinCode._id c)) (classJoinCodeCollection db') =
    Some (ClassJoinCode.inc_usageCount c).

(** The document [POST /join-request] hands to [create]. *)
Definition newJoinRequest (joinCode : string) (studentId : ObjectId)
    (studentName : string) (student : Student.t) (codeDoc : ClassJoinCode.t)
    (requests : list ClassJoinRequest.t) : ClassJoinRequest.t :=
  ClassJoinRequest.mk (newObjectId (map ClassJoinRequest._id requests))
    (ClassJoinCode.classId codeDoc) studentId studentName
    (Student.enrollment student) (toUpperCase joinCode)
    (ClassJoinCode.className codeDoc) (ClassJoinCode.classSubject codeDoc)
    (ClassJoinCode.teacherId codeDoc) (ClassJoinCode.teacherName codeDoc)
    pending None None None.

(** The request collection that the [create] of [POST /join-request] sees:
    the stored one, without the student's request for the class when the
    lookup found one and it was rejected. *)
Definition requestsBeforeCreate (classId studentId : ObjectId)
    (requests : list ClassJoinRequest.t) : list ClassJoinRequest.t :=
  match find (requestOf classId studentId) requests with
  | Some r =>
      match ClassJoinRequest.status r with
      | rejected =>
          remove_first (hasId joinRequests (ClassJoinRequest._id r)) requests
      | _ => requests
      end
  | None => requests
  end.

(** What identifies an enrollment row: its [_id], its class and its student. *)
Definition enrollmentKey (e : ClassStudent.t) : ObjectId * ObjectId * ObjectId :=
  (ClassStudent._id e, ClassStudent.classId e, ClassStudent.studentId e).

(** The number of active enrollment rows of a class. *)
Definition activeStudents (classId : ObjectId) (db : DB) : nat :=
  List.length (filter (activeStudentOf classId) (classStudentCollection db)).

(** The answer to an approval that enrolled the student. *)
Definition requestApproved (r : ClassJoinRequest.t) : Response :=
  Ok (Some (ClassJoinRequest.studentName r
            ++ " has been added to the class successfully!"))
     (RequestApproved (ClassJoinRequest.studentName r)
        (ClassJoinRequest.studentEnrollment r)).

(** The body of the answer to a join request that was filed. *)
Definition requestSent (r : ClassJoinRequest.t) (codeDoc : ClassJoinCode.t) : Response :=
  Ok (Some ("Join request sent successfully! Waiting for "
            ++ ClassJoinCode.teacherName codeDoc ++ " to approve your request."))
     (RequestSent (ClassJoinRequest._id r) (ClassJoinCode.className codeDoc)
        (ClassJoinCode.classSubject codeDoc) (ClassJoinCode.teacherName codeDoc)).

(** The answer took the reactivation path of [POST /join-request]. *)
Definition isRejoined (r : Response) : bool :=
  match r with
  | Ok _ (Rejoined _ _ _) => true
  | _ => false
  end.

(** The password stored for the account [u]: that of the document under
    its [_id] in its collection. *)
Definition storedPassword (u : User) (db : DB) : option string :=
  match u with
  | AStudent s =>
      option_map Student.password
        (find (hasId students (Student._id s)) (studentCollection db))
  | ATeacher t =>
      option_map Teacher.password
        (find (hasId teachers (Teacher._id t)) (teacherCollection db))
  end.

(** MongoDB keeps the [_id]s of a collection distinct. *)
Definition DistinctIds (db : DB) : Prop :=
  NoDup (map Student._id (studentCollection db)) /\
  NoDup (map Teacher._id (teacherCollection db)) /\
  NoDup (map ClassDoc._id (classCollection db)) /\
  NoDup (map ClassStudent._id (classStudentCollection db)) /\
  NoDup (map ClassJoinCode._id (classJoinCodeCollection db)) /\
  NoDup (map ClassJoinRequest._id (classJoinRequestCollection db)).

(** The operations of the enrollment manager, as requests. *)
Inductive Operation :=
| IssueJoinCode (classId teacherId : ObjectId) (userName : string) (now : Date)
| ValidateJoinCode (code : string) (studentId : ObjectId) (now : Date)
| SubmitJoinRequest (joinCode : option string) (studentId : ObjectId)
    (studentName : string) (now : Date)
| ResolveJoinRequest (classId requestId : ObjectId) (action : string)
    (teacherId : ObjectId) (now : Date).

Section Operations.
Variable generateUniqueCode : list ClassJoinCode.t -> string.
Variable joinCodeSchema :
  ClassJoinCode.t -> list ClassJoinCode.t -> option MongoError.
Variable classStudentSchema :
  ClassStudent.t -> list ClassStudent.t -> option MongoError.
Variable joinRequestSchema :
  ClassJoinRequest.t -> list ClassJoinRequest.t -> option MongoError.

(** The join codes once [generate-join-code] has deactivated those of
    [classId], and the document it then hands to [create]. *)
Definition deactivated (classId : ObjectId) (db : DB) : list ClassJoinCode.t :=
  update_all (activeCodeOf classId) (ClassJoinCode.set_isActive false)
    (classJoinCodeCollection db).

Definition issuedCode (classDoc : ClassDoc.t) (classId teacherId : ObjectId)
    (userName : string) (now : Date) (db : DB) : ClassJoinCode.t :=
  ClassJoinCode.mk
    (newObjectId (map ClassJoinCode._id (deactivated classId db)))
    classId teacherId (ClassDoc.name classDoc) (ClassDoc.subject classDoc)
    userName (generateUniqueCode (deactivated classId db))
    (now + 10 * 60 * 1000) true 0 50.

Definition perform (op : Operation) : DB -> Response * DB :=
  match op with
  | IssueJoinCode classId teacherId userName now =>
      generateJoinCode generateUniqueCode joinCodeSchema
        classId teacherId userName now
  | ValidateJoinCode code studentId now =>
      validateJoinCode code studentId now
  | SubmitJoinRequest joinCode studentId studentName now =>
      submitJoinRequest joinRequestSchema joinCode studentId studentName now
  | ResolveJoinRequest classId requestId action teacherId now =>
      resolveJoinRequest classStudentSchema classId requestId action teacherId now
  end.
End Operations.

(** ** A small school

    One teacher, one class, two students and the join code [ABC123] of the
    class, which expires at 600000 ms.  The databases below differ in the
    code's counter and cap, in Ann's enrollment row and in Ann's request. *)

Module Sample.
Local Open Scope nat_scope.
(** A schema that takes every document, and a draw of the code. *)
Definition accept {A : Type} (d : A) (l : list A) : option MongoError := None.
Definition draw (l : list ClassJoinCode.t) : string := "ABC123".
Definition encode (s : string) : string := s.

Definition annId : ObjectId := 7.
Definition bobId : ObjectId := 8.
Definition teacherId : ObjectId := 5.
Definition classId : ObjectId := 1.
Definition requestId : ObjectId := 1.

Definition ann : Student.t :=
  Student.mk 7 "Ann" "Ann" "" "E7" None "tulip-42" (Some "tok") (Some 5000%Z).
Definition bob : Student.t :=
  Student.mk 8 "Bob" "Bob" "" "E8" None "hunter2" None None.
Definition ms_t : Teacher.t :=
  Teacher.mk 5 "Ms T" "Ms" "T" "t@school.org" "chalk" None None.

Definition algebra : ClassDoc.t := ClassDoc.mk 1 "Algebra" "Math" 5 true 0 0%Z.

Definition code (usageCount maxUsage : nat) : ClassJoinCode.t :=
  ClassJoinCode.mk 1 1 5 "Algebra" "Math" "Ms T" "ABC123" 600000%Z true
    usageCount maxUsage.

Definition row (isActive : bool) : ClassStudent.t :=
  ClassStudent.mk 1 1 7 "Ann" "E7" 0%Z isActive.

Definition request (status : RequestStatus) : ClassJoinRequest.t :=
  ClassJoinRequest.mk 1 1 7 "Ann" "E7" "ABC123" "Algebra" "Math" 5 "Ms T"
    status None None None.

Definition school (codes : list ClassJoinCode.t) (rows : list ClassStudent.t)
    (requests : list ClassJoinRequest.t) : DB :=
  mkDB [ann; bob] [ms_t] [algebra] rows codes requests.

(** A fresh code, nobody enrolled, no request. *)
Definition fresh : DB := school [code 0 50] [] [].
(** The code has one use left. *)
Definition lastUse : DB := school [code 0 1] [] [].
(** The code is used up. *)
Definition usedUp : DB := school [code 1 1] [] [].
(** Ann left the class: her enrollment row is inactive, and an old
    request of hers was rejected. *)
Definition annLeft : DB := school [code 0 50] [row false] [request rejected].
(** Ann is enrolled. *)
Definition annEnrolled : DB := school [code 0 50] [row true] [].
(** Ann's request is pending. *)
Definition annPending : DB := school [code 0 50] [] [request pending].
(** Ann's request was rejected. *)
Definition annRejected : DB := school [code 0 50] [] [request rejected].
End Sample.

(** ** More of [routes/api/classApi.js]: creating and reading a class *)

(** [Refused s m] is [res.status(s).json({ success: false, message: m })];
    [Sent m b] is [res.json({ success: true, message: m, ...b })]. *)
Inductive Answer (A : Type) :=
| Refused (status : nat) (message : string)
| Sent (message : option string) (body : A).
Arguments Refused {A} _ _.
Arguments Sent {A} _ _.

(** The fields of a class in an answer that the document model keeps. *)
Record ClassView := mkClassView {
  view_id : ObjectId;
  view_name : string;
  view_subject : string;
  view_studentCount : nat
}.

(** The body of [GET /:classId/active-join-code]. *)
Inductive ActiveCodeView :=
| NoActiveCode
| ActiveCode (joinCode : string) (expiresAt : Date) (usageCount maxUsage : nat)
    (remainingTime : Z).

Section ClassViews.
(** From the absent [mongodb.js]: the class schema that [create] checks a
    document against, and the values it gives the fields [create] does not
    pass ([isActive], and [updatedAt] at the time of the call). *)
Variable classSchema : ClassDoc.t -> list ClassDoc.t -> option MongoError.
Variable defaultIsActive : bool.
Variable defaultUpdatedAt : Date -> Date.

(** [{ teacherId: teacherId, name: name.trim(), isActive: true }] *)
Definition activeClassNamed (teacherId : ObjectId) (name : string) (c : ClassDoc.t) : bool :=
  (ClassDoc.teacherId c =? teacherId)%nat && String.eqb (ClassDoc.name c) name
  && ClassDoc.isActive c.

(** [{ _id: classId, isActive: true }] *)
Definition activeClass (classId : ObjectId) (c : ClassDoc.t) : bool :=
  (ClassDoc._id c =? classId)%nat && ClassDoc.isActive c.

(** [{ classId: classId, isActive: true, expiresAt: { $gt: new Date() } }] *)
Definition liveCodeOf (classId : ObjectId) (now : Date) (c : ClassJoinCode.t) : bool :=
  activeCodeOf classId c && (now <? ClassJoinCode.expiresAt c).

(** [POST /]; a field of the body is [None] when the body does not have it. *)
Definition createClass (name subject : option string) (teacherId : ObjectId)
    (now : Date) : DB -> Answer ClassView * DB :=
  tryCatch
    (match name, subject with
     | Some name, Some subject =>
         if String.eqb name "" || String.eqb subject "" then
           ret (Refused 400 "Class name and subject are required.")
         else
           existingClass <- findOne classes (activeClassNamed teacherId (trim name)) ;;
           match existingClass with
           | Some _ => ret (Refused 400 "You already have a class with this name.")
           | None =>
               newClass <- create classes classSchema (fun i =>
                 ClassDoc.mk i (trim name) (trim subject) teacherId
                   defaultIsActive 0 (defaultUpdatedAt now)) ;;
               ret (Sent (Some "Class created successfully!")
                      (mkClassView (ClassDoc._id newClass) (ClassDoc.name newClass)
                         (ClassDoc.subject newClass) 0))
           end
     | _, _ => ret (Refused 400 "Class name and subject are required.")
     end)
    (fun error => Refused 500 ("Failed to create class: " ++ errmsg error)).

(** [GET /:classId] *)
Definition getClass (classId userId : ObjectId) (userType : string)
    : DB -> Answer ClassView * DB :=
  tryCatch
    (classDoc <- findOne classes (activeClass classId) ;;
     match classDoc with
     | None => ret (Refused 404 "Class not found.")
     | Some classDoc =>
         let answer :=
           Sent None (mkClassView (ClassDoc._id classDoc) (ClassDoc.name classDoc)
                        (ClassDoc.subject classDoc) (ClassDoc.studentCount classDoc)) in
         if String.eqb userType "teacher" then
           if negb (ClassDoc.teacherId classDoc =? userId)%nat then
             ret (Refused 403 "Access denied. You do not own this class.")
           else ret answer
         else if String.eqb userType "student" then
           enrollment <- findOne classStudents (activeEnrollmentOf classId userId) ;;
           match enrollment with
           | None =>
               ret (Refused 403 "Access denied. You are not enrolled in this class.")
           | Some _ => ret answer
           end
         else ret answer
     end)
    (fun error => Refused 500 ("Failed to fetch class: " ++ errmsg error)).

(** [GET /:classId/active-join-code] *)
Definition getActiveJoinCode (classId teacherId : ObjectId) (now : Date)
    : DB -> Answer ActiveCodeView * DB :=
  tryCatch
    (classDoc <- findOne classes (ownedClass classId teacherId) ;;
     match classDoc with
     | None => ret (Refused 404 "Class not found or access denied.")
     | Some _ =>
         activeCode <- findOne joinCodes (liveCodeOf classId now) ;;
         match activeCode with
         | None => ret (Sent (Some "No active join code found.") NoActiveCode)
         | Some activeCode =>
             ret (Sent None
                    (ActiveCode (ClassJoinCode.joinCode activeCode)
                       (ClassJoinCode.expiresAt activeCode)
                       (ClassJoinCode.usageCount activeCode)
                       (ClassJoinCode.maxUsage activeCode)
                       (Z.max 0 ((ClassJoinCode.expiresAt activeCode - now) / 1000))))
         end
     end)
    (fun error => Refused 500 ("Failed to fetch join code: " ++ errmsg error)).
End ClassViews.

(** ** More of [routes/authRoutes.js]: asking for a password reset *)

(** The mail handed to [sendEmail]: the addressee, the subject, the name in
    the greeting and the reset link.  The rendering of its HTML and text is
    the absent template renderer's. *)
Record Mail := mkMail {
  mail_to : option string;
  mail_subject : string;
  mail_username : string;
  mail_resetLink : string
}.

Definition user_email (u : User) : option string :=
  match u with AStudent s => Student.email s | ATeacher t => Some (Teacher.email t) end.

Definition user_firstName (u : User) : string :=
  match u with AStudent s => Student.firstName s | ATeacher t => Teacher.firstName t end.

(** [PASSWORD_RESET_TOKEN_EXPIRY] *)
Definition PASSWORD_RESET_TOKEN_EXPIRY : Z := 60 * 60 * 1000.

Section ForgotPassword.
(** [encodeURIComponent], [process.env.BASE_URL]; the token that
    [crypto.randomBytes(32).toString('hex')] draws and the [success] flag of
    the mail service's result are inputs of the handler. *)
Variable encodeURIComponent : string -> string.
Variable BASE_URL : string.

(** [{ email: email.toLowerCase().trim() }] in the student collection
    first, then in the teacher collection. *)
Definition findByEmail (email : string) : M (option User) :=
  user <- findOne students
    (fun s => opt_string_eqb (Student.email s) (trim (toLowerCase email))) ;;
  match user with
  | Some s => ret (Some (AStudent s))
  | None =>
      user <- findOne teachers
        (fun t => String.eqb (Teacher.email t) (trim (toLowerCase email))) ;;
      ret (option_map ATeacher user)
  end.

(** [user.resetPasswordToken = ...; user.resetPasswordTokenExpires = ...;
    await user.save()] *)
Definition saveResetToken (u : User) (token : string) (expires : Date) : M unit :=
  match u with
  | AStudent s =>
      save students
        (Student.mk (Student._id s) (Student.name s) (Student.firstName s)
           (Student.lastName s) (Student.enrollment s) (Student.email s)
           (Student.password s) (Some token) (Some expires))
  | ATeacher t =>
      save teachers
        (Teacher.mk (Teacher._id t) (Teacher.name t) (Teacher.firstName t)
           (Teacher.lastName t) (Teacher.email t) (Teacher.password t)
           (Some token) (Some expires))
  end.

(** [POST /forgot-password]; the answer is the redirect and the mail that
    was handed to the mail service, if any. *)
Definition forgotPassword (email : option string) (now : Date)
    (randomToken : string) (mailSent : bool) : DB -> (Page * option Mail) * DB :=
  tryCatch
    (match email with
     | None =>
         ret (Redirect ("/forgot-password?error="
                        ++ encodeURIComponent "Please enter your email address."), None)
     | Some email =>
     if String.eqb email "" then
       ret (Redirect ("/forgot-password?error="
                      ++ encodeURIComponent "Please enter your email address."), None)
     else
     user <- findByEmail email ;;
     match user with
     | None =>
         ret (Redirect ("/forgot-password?message="
                        ++ encodeURIComponent "If an account with that email exists, a password reset link has been sent."),
              None)
     | Some user =>
         saveResetToken user randomToken (now + PASSWORD_RESET_TOKEN_EXPIRY) ;;
         let resetLink := BASE_URL ++ "/reset-password/" ++ randomToken in
         let mail :=
           mkMail (user_email user) "Quizzie: Password Reset Request"
             (match user_firstName user with
              | EmptyString => user_name user
              | firstName => firstName
              end)
             resetLink in
         if mailSent then
           ret (Redirect ("/forgot-password?message="
                          ++ encodeURIComponent "If an account with that email exists, a password reset link has been sent to your inbox."),
                Some mail)
         else
           ret (Redirect ("/forgot-password?error="
                          ++ encodeURIComponent "Failed to send password reset email. Please try again later."),
                Some mail)
     end
     end)
    (fun _ =>
       (Redirect ("/forgot-password?error="
                  ++ encodeURIComponent "An unexpected error occurred. Please try again."),
        None)).
End ForgotPassword.

(** ** Runs of the enrollment manager and what they keep *)

Section Runs.
Variable generateUniqueCode : list ClassJoinCode.t -> string.
Variable joinCodeSchema :
  ClassJoinCode.t -> list ClassJoinCode.t -> option MongoError.
Variable classStudentSchema :
  ClassStudent.t -> list ClassStudent.t -> option MongoError.
Variable joinRequestSchema :
  ClassJoinRequest.t -> list ClassJoinRequest.t -> option MongoError.

(** The database after a sequence of requests, one after the other. *)
Definition run (ops : list Operation) (db : DB) : DB :=
  fold_left
    (fun db op =>
       snd (perform generateUniqueCode joinCodeSchema classStudentSchema
              joinRequestSchema op db))
    ops db.
End Runs.

(** No join code was used more often than its cap allows. *)
Definition WithinCap (db : DB) : Prop :=
  forall c, In c (classJoinCodeCollection db) ->
    (ClassJoinCode.usageCount c <= ClassJoinCode.maxUsage c)%nat.

(** Every class document counts the active enrollment rows of its class. *)
Definition CountsInSync (db : DB) : Prop :=
  forall c, In c (classCollection db) ->
    ClassDoc.studentCount c = activeStudents (ClassDoc._id c) db.

(** A class and a student share at most one enrollment row. *)
Definition OneRowPerPair (db : DB) : Prop :=
  forall classId studentId,
    (List.length (filter (enrollmentOf classId studentId)
                    (classStudentCollection db)) <= 1)%nat.

(** The student has an active enrollment row in the class. *)
Definition enrolled (classId studentId : ObjectId) (db : DB) : bool :=
  existsb (activeEnrollmentOf classId studentId) (classStudentCollection db).

(** ** Who holds a reset token *)

(** Every account, students first. *)
Definition allUsers (db : DB) : list User :=
  (map AStudent (studentCollection db) ++ map ATeacher (teacherCollection db))%list.

Definition user_resetToken (u : User) : option string :=
  match u with
  | AStudent s => Student.resetPasswordToken s
  | ATeacher t => Teacher.resetPasswordToken t
  end.

(** The same document: the same collection and the same [_id]. *)
Definition sameAccount (u v : User) : Prop :=
  match u, v with
  | AStudent a, AStudent b => Student._id a = Student._id b
  | ATeacher a, ATeacher b => Teacher._id a = Teacher._id b
  | _, _ => False
  end.

(** No account but [u] has [token] as its reset token. *)
Definition NoOtherHolder (token : string) (u : User) (db : DB) : Prop :=
  forall v, In v (allUsers db) ->
    opt_string_eqb (user_resetToken v) token = true -> sameAccount u v.

(** ** More of [routes/authRoutes.js]: verifying an e-mail address

    [GET /verify-email/:token] reads and writes fields of the user documents
    that the handlers above do not touch.  Here a user document is seen
    through those fields only, for both collections alike. *)

Module Verification.
Record t := mk {
  _id : ObjectId;
  email : option string;
  pendingEmail : option string;
  isVerified : bool;
  verificationToken : option string;
  verificationTokenExpires : option Date
}.

(** The two user collections. *)
Record Accounts := mkAccounts {
  studentCollection : list t;
  teacherCollection : list t
}.

(** A string field is truthy when it is there and not empty. *)
Definition truthy (o : option string) : bool :=
  match o with
  | Some EmptyString | None => false
  | Some _ => true
  end.

(** [{ verificationToken: token, verificationTokenExpires: { $gt: Date.now() } }] *)
Definition holdsToken (token : string) (now : Date) (u : t) : bool :=
  opt_string_eqb (verificationToken u) token
  && opt_date_gt (verificationTokenExpires u) now.

(** [user.email = user.pendingEmail; user.pendingEmail = undefined;
    user.isVerified = true; user.verificationToken = undefined;
    user.verificationTokenExpires = undefined] *)
Definition applyPendingEmail (u : t) : t :=
  mk (_id u) (pendingEmail u) None true None None.

(** [user.isVerified = true; user.verificationToken = undefined;
    user.verificationTokenExpires = undefined] *)
Definition markVerified (u : t) : t :=
  mk (_id u) (email u) (pendingEmail u) true None None.

(** [res.render('emailVerificationSuccess', { success, message | error })] *)
Definition verified (message : string) : Page :=
  Render "emailVerificationSuccess" [("success", LBool true); ("message", LStr message)].

Definition notVerified (error : string) : Page :=
  Render "emailVerificationSuccess" [("success", LBool false); ("error", LStr error)].

(** The branches of the handler on the user it found; the result is the
    page and, when the user is saved, the document to save. *)
Definition verifyUser (token : string) (user : t) : Page * option t :=
  if truthy (pendingEmail user) && opt_string_eqb (verificationToken user) token then
    (verified "Your email address has been successfully updated and verified!",
     Some (applyPendingEmail user))
  else if negb (isVerified user) && negb (truthy (pendingEmail user))
          && opt_string_eqb (verificationToken user) token then
    (verified "Your email has been successfully verified! You can now log in.",
     Some (markVerified user))
  else if isVerified user then
    (notVerified "Your email address is already verified. No action needed.", None)
  else
    (notVerified "An unexpected error occurred during verification. Please try again.",
     None).

(** [await user.save()] in one collection. *)
Definition saveIn (l : list t) (d : t) : list t :=
  update_first (fun x => (_id x =? _id d)%nat) (fun _ => d) l.

(** [GET /verify-email/:token]: the student collection is searched first,
    then the teacher collection. *)
Definition verifyEmail (token : string) (now : Date) (db : Accounts)
    : Page * Accounts :=
  match find (holdsToken token now) (studentCollection db) with
  | Some user =>
      match verifyUser token user with
      | (page, Some d) =>
          (page, mkAccounts (saveIn (studentCollection db) d) (teacherCollection db))
      | (page, None) => (page, db)
      end
  | None =>
      match find (holdsToken token now) (teacherCollection db) with
      | Some user =>
          match verifyUser token user with
          | (page, Some d) =>
              (page, mkAccounts (studentCollection db) (saveIn (teacherCollection db) d))
          | (page, None) => (page, db)
          end
      | None =>
          (notVerified "The verification link is invalid or has expired. Please try resending the verification email.",
           db)
      end
  end.

(** Every account, students first. *)
Definition accounts (db : Accounts) : list t :=
  (studentCollection db ++ teacherCollection db)%list.

(** The user the handler finds for a token, if any. *)
Definition lookup (token : string) (now : Date) (db : Accounts) : option t :=
  match find (holdsToken token now) (studentCollection db) with
  | Some user => Some user
  | None => find (holdsToken token now) (teacherCollection db)
  end.

(** The token as a stored verification token, whatever its expiry. *)
Definition hasToken (token : string) (u : t) : bool :=
  opt_string_eqb (verificationToken u) token.

(** A sample: Ann's address is unverified, Ms T asked to change hers. *)
Definition sample : Accounts :=
  mkAccounts
    [mk 7%nat (Some "ann@school.org") None false (Some "t-ann") (Some 5000)]
    [mk 5%nat (Some "t@school.org") (Some "ms.t@school.org") true (Some "t-ms")
       (Some 5000)].
End Verification.

(** ** Requests on record *)

(** The student has an enrollment row in the class, active or not. *)
Definition hasRow (classId studentId : ObjectId) (db : DB) : Prop :=
  find (enrollmentOf classId studentId) (classStudentCollection db) <> None.

(** A class and a student share at most one join request, and an approved
    request comes with an enrollment row. *)
Definition RequestsInOrder (db : DB) : Prop :=
  (forall classId studentId,
     (List.length (filter (requestOf classId studentId)
                     (classJoinRequestCollection db)) <= 1)%nat) /\
  (forall r, In r (classJoinRequestCollection db) ->
     ClassJoinRequest.status r = approved ->
     hasRow (ClassJoinRequest.classId r) (ClassJoinRequest.studentId r) db).

(** The pending requests of a student for a class. *)
Definition pendingRequests (classId studentId : ObjectId) (db : DB)
    : list ClassJoinRequest.t :=
  filter (pendingRequestOf classId studentId) (classJoinRequestCollection db).

(** ** More of [routes/api/classApi.js]: the teacher's list of requests *)

(** The fields of a listed request that the document model keeps
    ([requestedAt] and the [timeAgo] made from it are not among them). *)
Record RequestView := mkRequestView {
  view_requestId : ObjectId;
  view_studentName : string;
  view_studentEnrollment : string;
  view_joinCode : string
}.

(** The body of [GET /:classId/join-requests]. *)
Record RequestList := mkRequestList {
  list_requests : list RequestView;
  list_totalPending : nat;
  list_className : string
}.

(** [{ classId: classId, status: 'pending' }] *)
Definition pendingOf (classId : ObjectId) (r : ClassJoinRequest.t) : bool :=
  (ClassJoinRequest.classId r =? classId)%nat
  && status_eqb (ClassJoinRequest.status r) pending.

Definition formatRequest (request : ClassJoinRequest.t) : RequestView :=
  mkRequestView (ClassJoinRequest._id request)
    (ClassJoinRequest.studentName request)
    (ClassJoinRequest.studentEnrollment request)
    (ClassJoinRequest.joinCode request).

Section JoinRequestList.
(** [.sort({ requestedAt: -1 })]: the order in which MongoDB hands out the
    documents it found; [requestedAt] is a field that the absent
    [mongodb.js] gives a request. *)
Variable sortByRequestedAt : list ClassJoinRequest.t -> list ClassJoinRequest.t.

(** [Model.find(q).sort(...)] *)
Definition findSorted {A} (m : Model A) (q : A -> bool)
    (sort : list A -> list A) : M (list A) :=
  fun db => (inr (sort (filter q (docs m db))), db).

(** [GET /:classId/join-requests] *)
Definition getJoinRequests (classId teacherId : ObjectId)
    : DB -> Answer RequestList * DB :=
  tryCatch
    (classDoc <- findOne classes (ownedClass classId teacherId) ;;
     match classDoc with
     | None => ret (Refused 404 "Class not found or access denied.")
     | Some classDoc =>
         pendingRequests <- findSorted joinRequests (pendingOf classId)
                              sortByRequestedAt ;;
         let formattedRequests := map formatRequest pendingRequests in
         ret (Sent None
                (mkRequestList formattedRequests (List.length formattedRequests)
                   (ClassDoc.name classDoc)))
     end)
    (fun error => Refused 500 ("Failed to fetch join requests: " ++ errmsg error)).
End JoinRequestList.

(** * Properties *)

(** ** Lists under the single-document writes *)

Section ListFacts.
Context {A : Type}.
Implicit Types (p q : A -> bool) (f : A -> A) (l : list A).


Lemma update_first_map {B} (g : A -> B) p f l :
  (forall x, g (f x) = g x) -> map g (update_first p f l) = map g l.
Proof.
  intros Hg; induction l as [|x r IH]; simpl; [reflexivity|].
  destruct (p x); simpl; rewrite ?Hg, ?IH; reflexivity.
Qed.

Lemma update_all_map {B} (g : A -> B) p f l :
  (forall x, g (f x) = g x) -> map g (update_all p f l) = map g l.
Proof.
  intros Hg; unfold update_all; rewrite map_map.
  apply map_ext; intros x; destruct (p x); auto.
Qed.

Lemma update_first_filter_same q p f l :
  (forall x, q (f x) = q x) ->
  List.length (filter q (update_first p f l)) = List.length (filter q l).
Proof.
  intros Hq; induction l as [|x r IH]; simpl; [reflexivity|].
  destruct (p x); simpl.
  - rewrite Hq; destruct (q x); reflexivity.
  - destruct (q x); simpl; rewrite IH; reflexivity.
Qed.

Lemma update_first_filter_le q p f l :
  (forall x, q (f x) = true -> q x = true) ->
  (List.length (filter q (update_first p f l)) <= List.length (filter q l))%nat.
Proof.
  intros Hq; induction l as [|x r IH]; simpl; [lia|].
  destruct (p x); simpl.
  - destruct (q (f x)) eqn:E.
    + rewrite (Hq _ E); simpl; lia.
    + destruct (q x); simpl; lia.
  - destruct (q x); simpl; lia.
Qed.

Lemma update_all_filter_le q p f l :
  (forall x, q (f x) = true -> q x = true) ->
  (List.length (filter q (update_all p f l)) <= List.length (filter q l))%nat.
Proof.
  intros Hq; induction l as [|x r IH]; simpl; [lia|].
  destruct (p x); simpl.
  - destruct (q (f x)) eqn:E.
    + rewrite (Hq _ E); simpl; lia.
    + destruct (q x); simpl; lia.
  - destruct (q x); simpl; lia.
Qed.

Lemma update_all_filter_none q f l :
  (forall x, q (f x) = false) -> filter q (update_all q f l) = [].
Proof.
  intros Hq; induction l as [|x r IH]; simpl; [reflexivity|].
  destruct (q x) eqn:E; [rewrite Hq | rewrite E]; exact IH.
Qed.


Lemma find_after_update (key : A -> nat) q f l c :
  NoDup (map key l) -> find q l = Some c ->
  (forall x, q (f x) = q x) ->
  find q (update_first (fun x => (key x =? key c)%nat) f l) = Some (f c).
Proof.
  intros ND Hf Hq; induction l as [|x r IH]; simpl in *; [discriminate|].
  inversion ND as [|? ? Hnot ND']; subst.
  destruct (q x) eqn:E.
  - injection Hf as ->. rewrite Nat.eqb_refl; simpl; rewrite Hq, E; reflexivity.
  - destruct (Nat.eqb_spec (key x) (key c)) as [K|_].
    + exfalso; apply Hnot; rewrite K; apply in_map.
      apply (find_some _ _ Hf).
    + simpl; rewrite E; apply IH; assumption.
Qed.

(** With distinct keys, the first document under the key of a listed
    document is that document. *)
Lemma find_key_In (key : A -> nat) l d :
  NoDup (map key l) -> In d l ->
  find (fun x => (key x =? key d)%nat) l = Some d.
Proof.
  induction l as [|x r IH]; simpl; intros ND Hin; [contradiction|].
  inversion ND as [|? ? Hnot ND']; subst.
  destruct Hin as [->|Hin].
  - rewrite Nat.eqb_refl; reflexivity.
  - destruct (Nat.eqb_spec (key x) (key d)) as [E|_].
    + exfalso; apply Hnot; rewrite E; apply in_map; exact Hin.
    + apply IH; assumption.
Qed.

Lemma find_update_first p f l d :
  find p l = Some d -> p (f d) = true -> find p (update_first p f l) = Some (f d).
Proof.
  induction l as [|x r IH]; simpl; [discriminate|].
  destruct (p x) eqn:E; simpl.
  - intros [= ->] Hf; rewrite Hf; reflexivity.
  - intros Hd Hf; rewrite E; apply IH; assumption.
Qed.

Lemma find_app_new p l d :
  find p l = None -> p d = true -> find p (l ++ [d]) = Some d.
Proof.
  induction l as [|x r IH]; simpl; intros Hn Hd.
  - rewrite Hd; reflexivity.
  - destruct (p x); [discriminate | apply IH; assumption].
Qed.


Lemma In_update_all p f l y :
  In y (update_all p f l) ->
  exists x, In x l /\ ((p x = true /\ y = f x) \/ (p x = false /\ y = x)).
Proof.
  unfold update_all; rewrite in_map_iff; intros (x & E & Hin).
  exists x; split; [exact Hin|].
  destruct (p x); [left | right]; auto.
Qed.


Lemma filter_nil_find p l : filter p l = [] -> find p l = None.
Proof.
  induction l as [|x r IH]; simpl; [reflexivity|].
  destruct (p x); [discriminate | exact IH].
Qed.

Lemma filter_cons_find p l x t : filter p l = x :: t -> find p l = Some x.
Proof.
  induction l as [|y r IH]; simpl; [discriminate|].
  destruct (p y); [intros [= -> _]; reflexivity | exact IH].
Qed.

Lemma filter_single_remove (key : A -> nat) p l d :
  NoDup (map key l) -> filter p l = [d] ->
  filter p (remove_first (fun x => (key x =? key d)%nat) l) = [].
Proof.
  induction l as [|x r IH]; simpl; intros ND Hf; [discriminate|].
  inversion ND as [|? ? Hnot ND']; subst.
  destruct (p x) eqn:E.
  - injection Hf as -> Hr. rewrite Nat.eqb_refl; exact Hr.
  - destruct (Nat.eqb_spec (key x) (key d)) as [K|_].
    + exfalso; apply Hnot; rewrite K; apply in_map.
      assert (Hin : In d (filter p r)) by (rewrite Hf; left; reflexivity).
      apply filter_In in Hin; tauto.
    + simpl; rewrite E; apply IH; assumption.
Qed.


Lemma NoDup_remove_first (key : A -> nat) p l :
  NoDup (map key l) -> NoDup (map key (remove_first p l)).
Proof.
  induction l as [|x r IH]; simpl; intros ND; [exact ND|].
  inversion ND as [|? ? Hnot ND']; subst.
  destruct (p x); [exact ND'|]; simpl; constructor; [|apply IH, ND'].
  intros Hin; apply Hnot; clear - Hin.
  induction r as [|y r IH]; simpl in *; [tauto|].
  destruct (p y); simpl in *; tauto.
Qed.

Lemma remove_first_key (key : A -> nat) l d :
  NoDup (map key l) ->
  ~ In (key d) (map key (remove_first (fun x => (key x =? key d)%nat) l)).
Proof.
  induction l as [|x r IH]; simpl; intros ND; [tauto|].
  inversion ND as [|? ? Hnot ND']; subst.
  destruct (Nat.eqb_spec (key x) (key d)) as [E|N].
  - rewrite <- E; exact Hnot.
  - simpl; intros [E|Hin]; [contradiction | exact (IH ND' Hin)].
Qed.
End ListFacts.

Lemma find_by_id_after_update {A} (m : Model A) (l : list A) d q f :
  NoDup (map (idOf m) l) -> find q l = Some d ->
  idOf m (f d) = idOf m d ->
  find (hasId m (idOf m d)) (update_first (hasId m (idOf m d)) f l) = Some (f d).
Proof.
  intros ND Hf Hid.
  apply find_update_first.
  - apply (find_key_In (idOf m)); [exact ND | apply (find_some _ _ Hf)].
  - unfold hasId; rewrite Hid; apply Nat.eqb_refl.
Qed.

Lemma find_In_some {A} (p : A -> bool) (l : list A) x :
  In x l -> p x = true -> find p l <> None.
Proof.
  intros Hin Hp Hnone; rewrite (find_none _ _ Hnone _ Hin) in Hp; discriminate.
Qed.

Lemma newObjectId_above (ids : list ObjectId) i :
  In i ids -> (i < newObjectId ids)%nat.
Proof.
  unfold newObjectId; induction ids as [|x r IH]; simpl; [tauto|].
  intros [->|Hin]; [lia | specialize (IH Hin); lia].
Qed.

Lemma newObjectId_fresh (ids : list ObjectId) : ~ In (newObjectId ids) ids.
Proof. intros Hin; apply newObjectId_above in Hin; lia. Qed.

Lemma NoDup_create {A} (key : A -> ObjectId) (l : list A) d :
  NoDup (map key l) -> key d = newObjectId (map key l) ->
  NoDup (map key (l ++ [d])).
Proof.
  intros ND E; rewrite map_app; cbn.
  apply NoDup_app; repeat split; [exact ND | repeat constructor; tauto |].
  intros i Hin [<-|[]]; rewrite E in Hin; exact (newObjectId_fresh _ Hin).
Qed.

(** ** Join codes *)

(** [run_handler] runs the monadic steps of a handler and the projections
    of the database they expose; [case_handler] also splits on every lookup
    and test the handler branches on. *)
Ltac run_handler :=
  cbv beta iota zeta delta
    [tryCatch bind ret throw findById findOne countDocuments updateMany
     findByIdAndUpdate deleteOne save create approve reject typeError];
  cbn [docs put idOf students teachers classes classStudents joinCodes
       joinRequests studentCollection teacherCollection classCollection
       classStudentCollection classJoinCodeCollection
       classJoinRequestCollection fst snd].

Ltac no_inner_match x :=
  lazymatch x with
  | context [match _ with _ => _ end] => fail
  | _ => idtac
  end.

Ltac case_handler :=
  repeat (run_handler;
          match goal with
          | |- context [match ?x with _ => _ end] =>
              no_inner_match x; destruct x eqn:?
          end);
  run_handler.

(** C6: validating a join code leaves the usage counter of every join-code
    document as it was, whatever the code, the student, the time and the
    outcome. *)
Theorem validateJoinCode_keeps_usageCount :
  forall code studentId now db,
    usageCounters (snd (validateJoinCode code studentId now db)) = usageCounters db.
Proof.
  intros code studentId now db.
  unfold validateJoinCode; run_handler.
  destruct (find _ (classJoinCodeCollection db)) as [c|]; [|reflexivity].
  destruct (isExpired c now).
  { run_handler; unfold usageCounters; cbn [classJoinCodeCollection].
    apply update_first_map; intros x; reflexivity. }
  destruct (negb (canBeUsed c)); [reflexivity|].
  run_handler.
  destruct (find _ (classStudentCollection db)); [reflexivity|].
  destruct (find _ (classJoinRequestCollection db)); reflexivity.
Qed.

Section JoinCodeFacts.
Variable generateUniqueCode : list ClassJoinCode.t -> string.
Variable joinCodeSchema :
  ClassJoinCode.t -> list ClassJoinCode.t -> option MongoError.
Variable classStudentSchema :
  ClassStudent.t -> list ClassStudent.t -> option MongoError.
Variable joinRequestSchema :
  ClassJoinRequest.t -> list ClassJoinRequest.t -> option MongoError.

Lemma codes_after_validate code studentId now db :
  let l := classJoinCodeCollection db in
  let l' := classJoinCodeCollection (snd (validateJoinCode code studentId now db)) in
  l' = l \/
  exists i, l' = update_first (hasId joinCodes i) (ClassJoinCode.set_isActive false) l.
Proof.
  unfold validateJoinCode; case_handler; eauto.
Qed.

Lemma codes_after_submit joinCode studentId studentName now db :
  let l := classJoinCodeCollection db in
  let l' := classJoinCodeCollection
              (snd (submitJoinRequest joinRequestSchema joinCode studentId
                      studentName now db)) in
  l' = l \/
  exists i, l' = update_first (hasId joinCodes i) ClassJoinCode.inc_usageCount l.
Proof.
  unfold submitJoinRequest, createJoinRequest; case_handler; eauto.
Qed.

Lemma codes_after_resolve classId requestId action teacherId now db :
  classJoinCodeCollection
    (snd (resolveJoinRequest classStudentSchema classId requestId action
            teacherId now db))
  = classJoinCodeCollection db.
Proof.
  unfold resolveJoinRequest, finishApproval; case_handler; reflexivity.
Qed.

(** [generate-join-code], branch by branch. *)
Lemma generateJoinCode_eq classId teacherId userName now db :
  generateJoinCode generateUniqueCode joinCodeSchema classId teacherId userName now db =
  match find (ownedClass classId teacherId) (classCollection db) with
  | None => (Err 404 "Class not found or access denied.", db)
  | Some classDoc =>
      let c := issuedCode generateUniqueCode classDoc classId teacherId userName now db in
      match joinCodeSchema c (deactivated classId db) with
      | Some e =>
          (Err 500 ("Failed to generate join code: " ++ errmsg e),
           put joinCodes (deactivated classId db) db)
      | None =>
          (Ok (Some "Join code generated successfully!")
             (GeneratedCode (ClassJoinCode.joinCode c) (ClassJoinCode.expiresAt c) 10
                (ClassDoc.name classDoc) (ClassDoc.subject classDoc) 0 50),
           put joinCodes (deactivated classId db ++ [c]) db)
      end
  end.
Proof.
  unfold generateJoinCode; run_handler.
  destruct (find _ (classCollection db)) as [classDoc|]; [|reflexivity].
  run_handler; fold (deactivated classId db).
  fold (issuedCode generateUniqueCode classDoc classId teacherId userName now db).
  destruct (joinCodeSchema _ _); reflexivity.
Qed.

Lemma activeCodeOf_deactivate classId x :
  activeCodeOf classId (ClassJoinCode.set_isActive false x) = false.
Proof. unfold activeCodeOf; cbn; apply andb_false_r. Qed.

Lemma activeCodes_deactivated_le cid classId db :
  (List.length (filter (activeCodeOf cid) (deactivated classId db))
   <= List.length (activeCodes cid db))%nat.
Proof.
  apply update_all_filter_le; intros x.
  rewrite activeCodeOf_deactivate; discriminate.
Qed.

Lemma activeCodes_deactivated_same classId db :
  filter (activeCodeOf classId) (deactivated classId db) = [].
Proof. apply update_all_filter_none, activeCodeOf_deactivate. Qed.

Lemma activeCodeOf_issuedCode cid classDoc classId teacherId userName now db :
  activeCodeOf cid
    (issuedCode generateUniqueCode classDoc classId teacherId userName now db)
  = (classId =? cid)%nat.
Proof. unfold activeCodeOf, issuedCode; cbn; apply andb_true_r. Qed.

Lemma generateJoinCode_invariant classId teacherId userName now db :
  AtMostOneActiveCode db ->
  AtMostOneActiveCode
    (snd (generateJoinCode generateUniqueCode joinCodeSchema classId teacherId
            userName now db)).
Proof.
  intros Hinv cid; rewrite generateJoinCode_eq.
  destruct (find _ (classCollection db)) as [classDoc|]; [|apply Hinv].
  cbv zeta; destruct (joinCodeSchema _ _); unfold activeCodes; cbn.
  - etransitivity; [apply activeCodes_deactivated_le | apply Hinv].
  - rewrite filter_app, length_app; cbn [filter].
    rewrite activeCodeOf_issuedCode.
    destruct (Nat.eqb_spec classId cid) as [->|N]; cbn.
    + rewrite activeCodes_deactivated_same; cbn; lia.
    + pose proof (activeCodes_deactivated_le cid classId db).
      specialize (Hinv cid); lia.
Qed.

Lemma perform_invariant op db :
  AtMostOneActiveCode db ->
  AtMostOneActiveCode
    (snd (perform generateUniqueCode joinCodeSchema classStudentSchema
            joinRequestSchema op db)).
Proof.
  intros Hinv; destruct op as [c t u n|code sid n|jc sid sn n|c r a t n]; cbn [perform].
  - apply generateJoinCode_invariant, Hinv.
  - intros cid; unfold activeCodes.
    destruct (codes_after_validate code sid n db) as [E|[i E]]; rewrite E.
    + apply Hinv.
    + etransitivity; [|apply (Hinv cid)].
      apply update_first_filter_le; intros x.
      rewrite activeCodeOf_deactivate; discriminate.
  - intros cid; unfold activeCodes.
    destruct (codes_after_submit jc sid sn n db) as [E|[i E]]; rewrite E.
    + apply Hinv.
    + rewrite update_first_filter_same; [apply Hinv | reflexivity].
  - intros cid; unfold activeCodes; rewrite codes_after_resolve; apply Hinv.
Qed.

Ltac distinct :=
  repeat match goal with
    | |- NoDup (map _ (_ ++ [_])) => apply NoDup_create; [|reflexivity]
    | |- NoDup (map _ (update_first _ _ _)) =>
        rewrite update_first_map by (intros; reflexivity)
    | |- NoDup (map _ (update_all _ _ _)) =>
        rewrite update_all_map by (intros; reflexivity)
    | |- NoDup (map _ (remove_first _ _)) => apply NoDup_remove_first
    end;
  try assumption.

(** The distinct-[_id] assumption of the theorems below is an invariant of
    the model: every operation keeps the [_id]s of every collection
    distinct. *)
Lemma perform_distinct_ids op db :
  DistinctIds db ->
  DistinctIds
    (snd (perform generateUniqueCode joinCodeSchema classStudentSchema
            joinRequestSchema op db)).
Proof.
  intros (Hs & Ht & Hc & He & Hj & Hr).
  destruct op; cbn [perform];
    unfold generateJoinCode, validateJoinCode, submitJoinRequest,
      createJoinRequest, resolveJoinRequest, finishApproval;
    case_handler; unfold DistinctIds; cbn -[newObjectId];
    repeat split; distinct.
Qed.

(** C1: at most one join code of a class is active.  No code is active in
    the empty database; every operation of the enrollment manager keeps the
    invariant; and a successful [generate-join-code] leaves the code it
    created, appended to the deactivated collection, as the one active
    code of its class. *)
Theorem at_most_one_active_code :
  AtMostOneActiveCode emptyDB /\
  (forall op db,
     AtMostOneActiveCode db ->
     AtMostOneActiveCode
       (snd (perform generateUniqueCode joinCodeSchema classStudentSchema
               joinRequestSchema op db))) /\
  (forall classId teacherId userName now db message payload db',
     generateJoinCode generateUniqueCode joinCodeSchema classId teacherId
       userName now db = (Ok message payload, db') ->
     exists c,
       classJoinCodeCollection db' = (deactivated classId db ++ [c])%list /\
       ClassJoinCode.classId c = classId /\
       ClassJoinCode.isActive c = true /\
       activeCodes classId db' = [c]).
Proof.
  split; [intros cid; cbn; lia|].
  split; [apply perform_invariant|].
  intros classId teacherId userName now db message payload db'.
  rewrite generateJoinCode_eq.
  destruct (find _ (classCollection db)) as [classDoc|]; [|discriminate].
  cbv zeta; destruct (joinCodeSchema _ _); [discriminate|].
  intros [= _ _ <-].
  eexists; split; [reflexivity|].
  split; [reflexivity|]. split; [reflexivity|].
  unfold activeCodes; cbn.
  rewrite filter_app, activeCodes_deactivated_same; cbn [filter app].
  rewrite activeCodeOf_issuedCode, Nat.eqb_refl; reflexivity.
Qed.

Lemma hasId_update_by_id (l : list ClassJoinCode.t) c q f :
  NoDup (map ClassJoinCode._id l) -> find q l = Some c ->
  (forall x, ClassJoinCode._id (f x) = ClassJoinCode._id x) ->
  find (hasId joinCodes (ClassJoinCode._id c))
    (update_first (hasId joinCodes (ClassJoinCode._id c)) f l) = Some (f c).
Proof.
  intros ND Hf Hid.
  apply find_update_first.
  - apply (find_key_In ClassJoinCode._id); [exact ND | apply (find_some _ _ Hf)].
  - unfold hasId; cbn; rewrite Hid; apply Nat.eqb_refl.
Qed.

Lemma update_first_app_new {A} (p : A -> bool) f (l : list A) d :
  (forall x, In x l -> p x = false) -> p d = true ->
  update_first p f (l ++ [d]) = (l ++ [f d])%list.
Proof.
  intros Hl Hd; induction l as [|x r IH]; simpl; [rewrite Hd; reflexivity|].
  rewrite (Hl x (or_introl eq_refl)), IH; [reflexivity|].
  intros y Hy; apply Hl; right; exact Hy.
Qed.

(** C4: a join code that the lookup finds (an active one) and that is past
    its expiry fails validation with the answer for an expired code,
    whatever its usage counter and cap are, and its active flag, which was
    true, is then false in the stored document, whose other fields are as
    before; nothing else in the database changes.  A code issued at [T]
    expires at [T] plus ten minutes, so validating it eleven minutes after
    issue gives that answer and leaves the class without an active code,
    when the code drawn is not that of an earlier active document and the
    student's input upper-cases to it. *)
Theorem validate_expired_code :
  (forall code studentId now db c,
     find (activeCode (toUpperCase code)) (classJoinCodeCollection db) = Some c ->
     ClassJoinCode.expiresAt c < now ->
     NoDup (map ClassJoinCode._id (classJoinCodeCollection db)) ->
     exists db' c',
       validateJoinCode code studentId now db =
         (Err 400 "This join code has expired.", db') /\
       db' = put joinCodes
               (update_first (hasId joinCodes (ClassJoinCode._id c))
                  (ClassJoinCode.set_isActive false) (classJoinCodeCollection db))
               db /\
       find (hasId joinCodes (ClassJoinCode._id c)) (classJoinCodeCollection db') =
         Some c' /\
       c' = ClassJoinCode.set_isActive false c /\
       ClassJoinCode.isActive c = true /\
       ClassJoinCode.isActive c' = false /\
       ClassJoinCode.joinCode c' = ClassJoinCode.joinCode c /\
       ClassJoinCode.classId c' = ClassJoinCode.classId c /\
       ClassJoinCode.expiresAt c' = ClassJoinCode.expiresAt c /\
       ClassJoinCode.usageCount c' = ClassJoinCode.usageCount c /\
       ClassJoinCode.maxUsage c' = ClassJoinCode.maxUsage c /\
       find (activeCode (toUpperCase code)) (classJoinCodeCollection db') <> Some c') /\
  (forall classId teacherId userName T db message joinCode expiresAt minutes
          className classSubject usageCount maxUsage db1 code studentId,
     generateJoinCode generateUniqueCode joinCodeSchema classId teacherId
       userName T db =
       (Ok message (GeneratedCode joinCode expiresAt minutes className
                      classSubject usageCount maxUsage), db1) ->
     find (activeCode joinCode) (deactivated classId db) = None ->
     toUpperCase code = joinCode ->
     let answer := validateJoinCode code studentId (T + 11 * 60 * 1000) db1 in
     expiresAt = T + 10 * 60 * 1000 /\
     activeCodes classId db1 <> [] /\
     fst answer = Err 400 "This join code has expired." /\
     activeCodes classId (snd answer) = []).
Proof.
  split.
  - intros code studentId now db c Hfind Hexp ND.
    pose proof (find_some _ _ Hfind) as [_ Hact].
    unfold activeCode in Hact; apply andb_prop in Hact as [_ Hact].
    eexists _, _; split; [|split; [reflexivity|]].
    + unfold validateJoinCode; run_handler; rewrite Hfind.
      unfold isExpired; rewrite (proj2 (Z.ltb_lt _ _) Hexp); run_handler.
      reflexivity.
    + split; [cbn; apply (hasId_update_by_id _ _ _ _ ND Hfind); reflexivity|].
      repeat (split; [first [reflexivity | exact Hact]|]).
      intros H; apply find_some in H as [_ H].
      unfold activeCode in H; cbn in H; rewrite andb_false_r in H; discriminate.
  - intros classId teacherId userName T db message joinCode expiresAt minutes
      className classSubject usageCount maxUsage db1 code studentId.
    rewrite generateJoinCode_eq.
    destruct (find _ (classCollection db)) as [classDoc|]; [|discriminate].
    cbv zeta; destruct (joinCodeSchema _ _); [discriminate|].
    intros [= _ Hcode Hexp _ _ _ _ _ <-] Hfresh Hup; cbv zeta.
    split; [rewrite <- Hexp; reflexivity|].
    split.
    { unfold activeCodes; cbn [put joinCodes classJoinCodeCollection].
      rewrite filter_app, activeCodes_deactivated_same; cbn [filter app].
      rewrite activeCodeOf_issuedCode, Nat.eqb_refl; discriminate. }
    set (c := issuedCode generateUniqueCode classDoc classId teacherId userName T db)
      in *.
    assert (Hrun :
      validateJoinCode code studentId (T + 11 * 60 * 1000)
        (put joinCodes (deactivated classId db ++ [c]) db)
      = (Err 400 "This join code has expired.",
         put joinCodes
           (deactivated classId db ++ [ClassJoinCode.set_isActive false c]) db)).
    { unfold validateJoinCode; run_handler.
      rewrite Hup, (find_app_new _ _ _ Hfresh).
      2:{ unfold activeCode; rewrite <- Hcode; cbn.
          rewrite String.eqb_refl; reflexivity. }
      unfold isExpired; cbn [c issuedCode ClassJoinCode.expiresAt].
      replace (T + 10 * 60 * 1000 <? T + 11 * 60 * 1000) with true
        by (symmetry; apply Z.ltb_lt; lia).
      run_handler; rewrite update_first_app_new; [reflexivity | |].
      - intros x Hx; unfold hasId; cbn.
        apply Nat.eqb_neq; intros E.
        apply (newObjectId_fresh (map ClassJoinCode._id (deactivated classId db))).
        rewrite <- E; apply in_map, Hx.
      - apply Nat.eqb_refl. }
    cbn [put joinCodes] in Hrun; rewrite Hrun; split; [reflexivity|].
    unfold activeCodes; cbn [snd put joinCodes classJoinCodeCollection].
    rewrite filter_app, activeCodes_deactivated_same; cbn [filter app].
    rewrite activeCodeOf_deactivate; reflexivity.
Qed.
End JoinCodeFacts.

(** ** Join requests *)

Section SubmitFacts.
Variable joinRequestSchema :
  ClassJoinRequest.t -> list ClassJoinRequest.t -> option MongoError.

(** A call that passes the guards on the code: the body carries a code,
    the student exists, and the lookup finds a code that is neither
    expired nor used up. *)
Variables (jc : string) (studentId : ObjectId) (studentName : string)
          (now : Date) (db : DB) (student : Student.t) (c : ClassJoinCode.t).
Hypothesis Hjc : String.eqb jc "" = false.
Hypothesis Hstudent :
  find (hasId students studentId) (studentCollection db) = Some student.
Hypothesis Hcode :
  find (activeCode (toUpperCase jc)) (classJoinCodeCollection db) = Some c.
Hypothesis Hlive : isExpired c now = false.
Hypothesis Hroom : canBeUsed c = true.

Local Abbreviation submit :=
  (submitJoinRequest joinRequestSchema (Some jc) studentId studentName now).
Local Abbreviation cls := (ClassJoinCode.classId c).

Ltac enter_submit :=
  unfold submitJoinRequest; run_handler;
  rewrite Hjc; run_handler; rewrite Hstudent; run_handler;
  rewrite Hcode, Hlive, Hroom; cbn [negb orb]; run_handler.

Lemma submit_already_enrolled e :
  find (enrollmentOf cls studentId) (classStudentCollection db) = Some e ->
  ClassStudent.isActive e = true ->
  submit db = (Err 400 "You are already enrolled in this class.", db).
Proof.
  intros He Ha; enter_submit; rewrite He, Ha; reflexivity.
Qed.

Lemma submit_rejoin e :
  find (enrollmentOf cls studentId) (classStudentCollection db) = Some e ->
  ClassStudent.isActive e = false ->
  exists db',
    submit db =
      (Ok (Some ("You have successfully rejoined "
                 ++ ClassJoinCode.className c ++ "!"))
          (Rejoined (ClassJoinCode.className c) (ClassJoinCode.classSubject c)
             (ClassJoinCode.teacherName c)), db') /\
    classStudentCollection db' =
      update_first (hasId classStudents (ClassStudent._id e))
        (reactivate now studentName (Student.enrollment student))
        (classStudentCollection db) /\
    classJoinRequestCollection db' =
      update_all (openRequestOf cls studentId)
        (fun r => ClassJoinRequest.set_status approved (Some now)
                    (ClassJoinRequest.processedBy r)
                    (ClassJoinRequest.rejectionReason r) r)
        (classJoinRequestCollection db) /\
    classJoinCodeCollection db' =
      update_first (hasId joinCodes (ClassJoinCode._id c))
        ClassJoinCode.inc_usageCount (classJoinCodeCollection db) /\
    classCollection db' =
      update_first (hasId classes cls)
        (set_studentCount
           (List.length (filter (activeStudentOf cls) (classStudentCollection db')))
           now)
        (classCollection db).
Proof.
  intros He Ha; enter_submit; rewrite He, Ha; run_handler.
  eexists; split; [reflexivity|]; cbn; repeat split; reflexivity.
Qed.

Lemma submit_pending r :
  find (enrollmentOf cls studentId) (classStudentCollection db) = None ->
  find (requestOf cls studentId) (classJoinRequestCollection db) = Some r ->
  ClassJoinRequest.status r = pending ->
  submit db =
    (Err 400 "You already have a pending request for this class. Please wait for the teacher's approval.",
     db).
Proof.
  intros He Hr Hp; enter_submit; rewrite He; run_handler.
  rewrite Hr, Hp; reflexivity.
Qed.

Lemma submit_create :
  find (enrollmentOf cls studentId) (classStudentCollection db) = None ->
  (forall r, find (requestOf cls studentId) (classJoinRequestCollection db) = Some r ->
             ClassJoinRequest.status r <> pending) ->
  let l := requestsBeforeCreate cls studentId (classJoinRequestCollection db) in
  let new := newJoinRequest jc studentId studentName student c l in
  match joinRequestSchema new l with
  | None =>
      submit db =
        (requestSent new c,
         put joinCodes
           (update_first (hasId joinCodes (ClassJoinCode._id c))
              ClassJoinCode.inc_usageCount (classJoinCodeCollection db))
           (put joinRequests (l ++ [new]) db))
  | Some e =>
      exists s m, submit db = (Err s m, put joinRequests l db)
  end.
Proof.
  intros He Hnp; enter_submit; rewrite He; run_handler.
  unfold requestsBeforeCreate, createJoinRequest.
  destruct (find _ (classJoinRequestCollection db)) as [r|].
  - specialize (Hnp r eq_refl).
    destruct (ClassJoinRequest.status r); [congruence| |]; run_handler.
    + fold (newJoinRequest jc studentId studentName student c (classJoinRequestCollection db)).
      destruct (joinRequestSchema _ _) as [e|]; [|reflexivity].
      destruct (code e =? 11000); eexists _, _; destruct db; reflexivity.
    + match goal with |- context [remove_first ?p ?l] => set (l' := remove_first p l) end.
      fold (newJoinRequest jc studentId studentName student c l').
      destruct (joinRequestSchema _ _) as [e|]; [|reflexivity].
      destruct (code e =? 11000); eexists _, _; reflexivity.
  - run_handler.
    fold (newJoinRequest jc studentId studentName student c (classJoinRequestCollection db)).
    destruct (joinRequestSchema _ _) as [e|]; [|reflexivity].
    destruct (code e =? 11000); eexists _, _; destruct db; reflexivity.
Qed.
End SubmitFacts.

Section RejoinFacts.
Variable joinRequestSchema :
  ClassJoinRequest.t -> list ClassJoinRequest.t -> option MongoError.
Variables (jc : string) (studentId : ObjectId) (studentName : string)
          (now : Date) (db : DB) (student : Student.t) (c : ClassJoinCode.t)
          (e : ClassStudent.t).
Hypothesis Hjc : String.eqb jc "" = false.
Hypothesis Hstudent :
  find (hasId students studentId) (studentCollection db) = Some student.
Hypothesis Hcode :
  find (activeCode (toUpperCase jc)) (classJoinCodeCollection db) = Some c.
Hypothesis Hlive : isExpired c now = false.
Hypothesis Hroom : canBeUsed c = true.
Hypothesis Henrolled :
  find (enrollmentOf (ClassJoinCode.classId c) studentId)
    (classStudentCollection db) = Some e.

Local Abbreviation submit :=
  (submitJoinRequest joinRequestSchema (Some jc) studentId studentName now).
Local Abbreviation cls := (ClassJoinCode.classId c).

(** C10: on the reactivation path (the student's enrollment row of the
    code's class is inactive) the call answers with the rejoin message and
    the join code is used once: its counter is one higher and no other
    join-code document changes. *)
Theorem rejoin_uses_code_once :
  ClassStudent.isActive e = false ->
  NoDup (map ClassJoinCode._id (classJoinCodeCollection db)) ->
  exists message db',
    submit db =
      (Ok message (Rejoined (ClassJoinCode.className c)
                     (ClassJoinCode.classSubject c)
                     (ClassJoinCode.teacherName c)), db') /\
    usedOnce c db db' /\
    ClassJoinCode.usageCount (ClassJoinCode.inc_usageCount c)
      = S (ClassJoinCode.usageCount c).
Proof.
  intros Ha ND.
  destruct (submit_rejoin joinRequestSchema jc studentId studentName now db
              student c Hjc Hstudent Hcode Hlive Hroom e Henrolled Ha)
    as (db' & Hrun & _ & _ & Hcodes & _).
  eexists _, db'; split; [exact Hrun|]; split; [|reflexivity].
  split; [exact Hcodes|].
  rewrite Hcodes; apply (hasId_update_by_id _ _ _ _ ND Hcode); reflexivity.
Qed.

(** C7: with an inactive enrollment row of the student in the code's class,
    the call reactivates that row at once and answers with the rejoin
    message; afterwards every join request of the student for the class is
    approved, and the enrollment collection has the same rows (same [_id],
    class and student, in the same order): no row is added.  With an
    active row the call fails with the already-enrolled answer and changes
    nothing. *)
Theorem rejoin_reactivates_enrollment :
  NoDup (map ClassStudent._id (classStudentCollection db)) ->
  (ClassStudent.isActive e = false ->
   exists message db',
     submit db =
       (Ok message (Rejoined (ClassJoinCode.className c)
                      (ClassJoinCode.classSubject c)
                      (ClassJoinCode.teacherName c)), db') /\
     find (hasId classStudents (ClassStudent._id e)) (classStudentCollection db') =
       Some (reactivate now studentName (Student.enrollment student) e) /\
     find (activeEnrollmentOf cls studentId) (classStudentCollection db') <> None /\
     map enrollmentKey (classStudentCollection db') =
       map enrollmentKey (classStudentCollection db) /\
     (forall r, In r (classJoinRequestCollection db') ->
                requestOf cls studentId r = true ->
                ClassJoinRequest.status r = approved)) /\
  (ClassStudent.isActive e = true ->
   submit db = (Err 400 "You are already enrolled in this class.", db)).
Proof.
  intros ND; split; intros Ha.
  2:{ apply (submit_already_enrolled joinRequestSchema jc studentId studentName
               now db student c Hjc Hstudent Hcode Hlive Hroom e Henrolled Ha). }
  destruct (submit_rejoin joinRequestSchema jc studentId studentName now db
              student c Hjc Hstudent Hcode Hlive Hroom e Henrolled Ha)
    as (db' & Hrun & Hens & Hreqs & _ & _).
  pose proof (find_some _ _ Henrolled) as [Hin He].
  assert (Hnew : find (hasId classStudents (ClassStudent._id e))
                   (classStudentCollection db') =
                 Some (reactivate now studentName (Student.enrollment student) e)).
  { rewrite Hens; apply find_update_first.
    - apply (find_key_In ClassStudent._id); assumption.
    - unfold hasId; cbn; apply Nat.eqb_refl. }
  eexists _, db'; split; [exact Hrun|]; split; [exact Hnew|].
  split; [|split].
  - apply find_some in Hnew as [Hin' _].
    intros Hnone.
    pose proof (find_none _ _ Hnone _ Hin') as Hf.
    unfold activeEnrollmentOf, enrollmentOf in Hf, He; cbn in Hf.
    rewrite He in Hf; discriminate.
  - rewrite Hens; apply update_first_map; intros x; reflexivity.
  - intros r Hr Hof; rewrite Hreqs in Hr.
    apply In_update_all in Hr as (x & _ & [[_ E] | [Hx E]]);
      [rewrite E; reflexivity|].
    rewrite <- E in Hx; unfold openRequestOf in Hx; rewrite Hof in Hx; cbn in Hx.
    destruct (ClassJoinRequest.status r); [discriminate | reflexivity | discriminate].
Qed.
End RejoinFacts.

Section UsageFacts.
Variable joinRequestSchema :
  ClassJoinRequest.t -> list ClassJoinRequest.t -> option MongoError.

(** C3, as amended: a call of [POST /join-request] that files a new
    pending request uses the join code once (the counter of the code the
    lookup found is one higher, no other join-code document changes), and
    a call that fails leaves every usage counter as it was. *)
Theorem new_request_uses_code_once :
  forall joinCode studentId studentName now db,
    (forall status message db',
       submitJoinRequest joinRequestSchema joinCode studentId studentName now db
         = (Err status message, db') ->
       usageCounters db' = usageCounters db) /\
    (forall message requestId className classSubject teacherName db',
       submitJoinRequest joinRequestSchema joinCode studentId studentName now db
         = (Ok message (RequestSent requestId className classSubject teacherName), db') ->
       NoDup (map ClassJoinCode._id (classJoinCodeCollection db)) ->
       exists jc c,
         joinCode = Some jc /\
         find (activeCode (toUpperCase jc)) (classJoinCodeCollection db) = Some c /\
         usedOnce c db db' /\
         ClassJoinCode.usageCount (ClassJoinCode.inc_usageCount c)
           = S (ClassJoinCode.usageCount c)).
Proof.
  intros joinCode studentId studentName now db; split.
  - intros status message db'.
    unfold submitJoinRequest, createJoinRequest; case_handler;
      intros [= ? ? ?]; subst; reflexivity.
  - intros message requestId className classSubject teacherName db'.
    unfold submitJoinRequest, createJoinRequest; case_handler;
      intros H ND; try discriminate H;
      injection H as <- <- <- <- <- <-;
      match goal with
      | Hc : find (activeCode (toUpperCase ?s)) _ = Some ?c |- _ =>
          exists s, c; split; [reflexivity|]; split; [exact Hc|];
          split; [|reflexivity]; split; [reflexivity|];
          apply (hasId_update_by_id _ _ _ _ ND Hc); reflexivity
      end.
Qed.
End UsageFacts.

Section RetryFacts.
Variable joinRequestSchema :
  ClassJoinRequest.t -> list ClassJoinRequest.t -> option MongoError.
Variables (jc : string) (studentId : ObjectId) (studentName : string)
          (now : Date) (db : DB) (student : Student.t) (c : ClassJoinCode.t).
Hypothesis Hjc : String.eqb jc "" = false.
Hypothesis Hstudent :
  find (hasId students studentId) (studentCollection db) = Some student.
Hypothesis Hcode :
  find (activeCode (toUpperCase jc)) (classJoinCodeCollection db) = Some c.
Hypothesis Hlive : isExpired c now = false.
Hypothesis Hroom : canBeUsed c = true.
Hypothesis Hnew :
  find (enrollmentOf (ClassJoinCode.classId c) studentId)
    (classStudentCollection db) = None.

Local Abbreviation cls := (ClassJoinCode.classId c).
Local Abbreviation requests := (classJoinRequestCollection db).
Local Abbreviation remaining := (requestsBeforeCreate cls studentId requests).
Local Abbreviation new :=
  (newJoinRequest jc studentId studentName student c remaining).
Local Abbreviation filed :=
  (put joinCodes
     (update_first (hasId joinCodes (ClassJoinCode._id c))
        ClassJoinCode.inc_usageCount (classJoinCodeCollection db))
     (put joinRequests (remaining ++ [new]) db)).
Local Abbreviation pendingAnswer :=
  (Err 400 "You already have a pending request for this class. Please wait for the teacher's approval.").

Lemma remaining_has_none :
  NoDup (map ClassJoinRequest._id requests) ->
  filter (requestOf cls studentId) requests = [] \/
  (exists r, filter (requestOf cls studentId) requests = [r] /\
             ClassJoinRequest.status r = rejected) ->
  find (requestOf cls studentId) remaining = None.
Proof.
  intros ND [Hnone | (r & Hone & Hrej)]; unfold requestsBeforeCreate.
  - rewrite (filter_nil_find _ _ Hnone); apply filter_nil_find, Hnone.
  - rewrite (filter_cons_find _ _ _ _ Hone), Hrej.
    apply filter_nil_find.
    apply (filter_single_remove ClassJoinRequest._id); assumption.
Qed.

(** C8: when the lookup finds a pending request of the student for the
    class, the call fails with the request-pending answer and changes
    nothing.  So does the second of two calls: when the student has no
    request for the class, or one rejected request, and the schema takes
    the new document, the first call files a pending request, and a second
    call with the code, while the code is still usable, gets the
    request-pending answer.  When the lookup finds a rejected request,
    that document is deleted before the new pending request is appended,
    and it is no longer stored afterwards. *)
Theorem resubmission_while_pending :
  (forall r,
     find (requestOf cls studentId) requests = Some r ->
     ClassJoinRequest.status r = pending ->
     submitJoinRequest joinRequestSchema (Some jc) studentId studentName now db
       = (pendingAnswer, db)) /\
  (forall now2 studentName2,
     NoDup (map ClassJoinRequest._id requests) ->
     NoDup (map ClassJoinCode._id (classJoinCodeCollection db)) ->
     filter (requestOf cls studentId) requests = [] \/
     (exists r, filter (requestOf cls studentId) requests = [r] /\
                ClassJoinRequest.status r = rejected) ->
     joinRequestSchema new remaining = None ->
     isExpired c now2 = false ->
     canBeUsed (ClassJoinCode.inc_usageCount c) = true ->
     exists db1,
       submitJoinRequest joinRequestSchema (Some jc) studentId studentName now db
         = (requestSent new c, db1) /\
       classJoinRequestCollection db1 = (remaining ++ [new])%list /\
       ClassJoinRequest.status new = pending /\
       submitJoinRequest joinRequestSchema (Some jc) studentId studentName2 now2 db1
         = (pendingAnswer, db1)) /\
  (forall r,
     find (requestOf cls studentId) requests = Some r ->
     ClassJoinRequest.status r = rejected ->
     NoDup (map ClassJoinRequest._id requests) ->
     joinRequestSchema new remaining = None ->
     exists db1,
       submitJoinRequest joinRequestSchema (Some jc) studentId studentName now db
         = (requestSent new c, db1) /\
       classJoinRequestCollection db1 =
         (remove_first (hasId joinRequests (ClassJoinRequest._id r)) requests
          ++ [new])%list /\
       ClassJoinRequest.status new = pending /\
       ~ In r (classJoinRequestCollection db1)).
Proof.
  assert (Hcreate :
    (forall r, find (requestOf cls studentId) requests = Some r ->
               ClassJoinRequest.status r <> pending) ->
    joinRequestSchema new remaining = None ->
    submitJoinRequest joinRequestSchema (Some jc) studentId studentName now db =
      (requestSent new c,
       put joinCodes
         (update_first (hasId joinCodes (ClassJoinCode._id c))
            ClassJoinCode.inc_usageCount (classJoinCodeCollection db))
         (put joinRequests (remaining ++ [new]) db))).
  { intros Hnp Hacc.
    pose proof (submit_create joinRequestSchema jc studentId studentName now db
                  student c Hjc Hstudent Hcode Hlive Hroom Hnew Hnp) as H.
    cbv zeta in H; rewrite Hacc in H; exact H. }
  split; [|split].
  - intros r Hr Hp.
    apply (submit_pending joinRequestSchema jc studentId studentName now db
             student c Hjc Hstudent Hcode Hlive Hroom r Hnew Hr Hp).
  - intros now2 studentName2 NDr NDc Hreq Hacc Hlive2 Hroom2.
    exists filed; split; [|split; [reflexivity|split; [reflexivity|]]].
    + apply Hcreate; [|exact Hacc].
      intros r Hr; destruct Hreq as [Hnone | (r' & Hone & Hrej)].
      * rewrite (filter_nil_find _ _ Hnone) in Hr; discriminate.
      * rewrite (filter_cons_find _ _ _ _ Hone) in Hr; injection Hr as <-.
        rewrite Hrej; discriminate.
    + apply (submit_pending joinRequestSchema jc studentId studentName2 now2 filed
               student (ClassJoinCode.inc_usageCount c) Hjc) with (r := new).
      * exact Hstudent.
      * cbn [put joinCodes classJoinCodeCollection].
        apply (find_after_update ClassJoinCode._id); [exact NDc | exact Hcode |].
        intros x; reflexivity.
      * exact Hlive2.
      * exact Hroom2.
      * exact Hnew.
      * cbn [put joinCodes joinRequests classJoinRequestCollection].
        apply find_app_new; [apply remaining_has_none; assumption|].
        unfold requestOf; cbn; rewrite !Nat.eqb_refl; reflexivity.
      * reflexivity.
  - intros r Hr Hrej NDr Hacc.
    assert (Hrem : remaining =
                   remove_first (hasId joinRequests (ClassJoinRequest._id r)) requests).
    { unfold requestsBeforeCreate; rewrite Hr, Hrej; reflexivity. }
    exists filed; split; [|split; [|split; [reflexivity|]]].
    + apply Hcreate; [|exact Hacc].
      intros r' Hr'; rewrite Hr in Hr'; injection Hr' as <-.
      rewrite Hrej; discriminate.
    + cbn [put joinCodes joinRequests classJoinRequestCollection].
      rewrite <- Hrem; reflexivity.
    + cbn [put joinCodes joinRequests classJoinRequestCollection].
      rewrite in_app_iff; intros [Hin | [E | []]].
      * rewrite Hrem in Hin.
        apply (remove_first_key ClassJoinRequest._id requests r NDr).
        apply in_map; exact Hin.
      * rewrite <- E in Hrej; discriminate.
Qed.
End RetryFacts.

Section UsageCapFacts.
Variable joinRequestSchema :
  ClassJoinRequest.t -> list ClassJoinRequest.t -> option MongoError.

Lemma canBeUsed_false c :
  (ClassJoinCode.maxUsage c <= ClassJoinCode.usageCount c)%nat ->
  canBeUsed c = false.
Proof. intros H; unfold canBeUsed; apply Nat.ltb_ge; exact H. Qed.

Lemma submit_overused jc studentId studentName now db student c :
  String.eqb jc "" = false ->
  find (hasId students studentId) (studentCollection db) = Some student ->
  find (activeCode (toUpperCase jc)) (classJoinCodeCollection db) = Some c ->
  (ClassJoinCode.maxUsage c <= ClassJoinCode.usageCount c)%nat ->
  submitJoinRequest joinRequestSchema (Some jc) studentId studentName now db
    = (Err 400 "Invalid, expired, or overused join code.", db).
Proof.
  intros Hjc Hst Hcode Hcap.
  unfold submitJoinRequest; run_handler.
  rewrite Hjc; run_handler; rewrite Hst; run_handler.
  rewrite Hcode, (canBeUsed_false _ Hcap), orb_true_r; reflexivity.
Qed.

(** C5: a join code whose usage counter has reached its cap is always
    refused, also when it has not expired: validation fails with status 400,
    and for an unexpired code its answer is that the usage limit is reached;
    a join request gets the answer for an invalid, expired or overused code
    and changes nothing.  In particular, with
    one use left on the code (a cap of 1 and no use so far), a first join
    request of a student without enrollment or request in the class is
    filed as pending, and a second join request with that code, of any
    student, is refused as overused. *)
Theorem used_up_code_is_refused :
  (forall code studentId now db c,
     find (activeCode (toUpperCase code)) (classJoinCodeCollection db) = Some c ->
     (ClassJoinCode.maxUsage c <= ClassJoinCode.usageCount c)%nat ->
     (exists message,
        fst (validateJoinCode code studentId now db) = Err 400 message) /\
     (now <= ClassJoinCode.expiresAt c ->
      validateJoinCode code studentId now db
        = (Err 400 "This join code has reached its usage limit.", db))) /\
  (forall jc studentId studentName now db student c,
     String.eqb jc "" = false ->
     find (hasId students studentId) (studentCollection db) = Some student ->
     find (activeCode (toUpperCase jc)) (classJoinCodeCollection db) = Some c ->
     (ClassJoinCode.maxUsage c <= ClassJoinCode.usageCount c)%nat ->
     submitJoinRequest joinRequestSchema (Some jc) studentId studentName now db
       = (Err 400 "Invalid, expired, or overused join code.", db)) /\
  (forall jc now db c first firstName student second secondName student2 now2,
     String.eqb jc "" = false ->
     find (activeCode (toUpperCase jc)) (classJoinCodeCollection db) = Some c ->
     NoDup (map ClassJoinCode._id (classJoinCodeCollection db)) ->
     now <= ClassJoinCode.expiresAt c ->
     S (ClassJoinCode.usageCount c) = ClassJoinCode.maxUsage c ->
     find (hasId students first) (studentCollection db) = Some student ->
     find (hasId students second) (studentCollection db) = Some student2 ->
     find (enrollmentOf (ClassJoinCode.classId c) first)
       (classStudentCollection db) = None ->
     find (requestOf (ClassJoinCode.classId c) first)
       (classJoinRequestCollection db) = None ->
     let new := newJoinRequest jc first firstName student c
                  (classJoinRequestCollection db) in
     joinRequestSchema new (classJoinRequestCollection db) = None ->
     exists db1,
       submitJoinRequest joinRequestSchema (Some jc) first firstName now db
         = (requestSent new c, db1) /\
       classJoinRequestCollection db1 = (classJoinRequestCollection db ++ [new])%list /\
       ClassJoinRequest.status new = pending /\
       submitJoinRequest joinRequestSchema (Some jc) second secondName now2 db1
         = (Err 400 "Invalid, expired, or overused join code.", db1)).
Proof.
  split; [|split].
  - intros code studentId now db c Hcode Hcap.
    unfold validateJoinCode; run_handler; rewrite Hcode.
    unfold isExpired; rewrite (canBeUsed_false _ Hcap).
    destruct (Z.ltb_spec (ClassJoinCode.expiresAt c) now) as [Hpast|Hlive].
    + split; [eexists; reflexivity | intros Hlive; lia].
    + split; [eexists; reflexivity | intros _; reflexivity].
  - intros; eapply submit_overused; eassumption.
  - intros jc now db c first firstName student second secondName student2 now2
      Hjc Hcode ND Hlive Hlast Hst1 Hst2 Hen Hreq new Hacc.
    assert (Hlive' : isExpired c now = false)
      by (unfold isExpired; apply Z.ltb_ge; exact Hlive).
    assert (Hroom : canBeUsed c = true)
      by (unfold canBeUsed; apply Nat.ltb_lt; lia).
    assert (Hrem : requestsBeforeCreate (ClassJoinCode.classId c) first
                     (classJoinRequestCollection db) = classJoinRequestCollection db)
      by (unfold requestsBeforeCreate; rewrite Hreq; reflexivity).
    pose proof (submit_create joinRequestSchema jc first firstName now db student c
                  Hjc Hst1 Hcode Hlive' Hroom Hen) as H.
    cbv zeta in H; rewrite Hrem in H; fold new in H; rewrite Hacc in H.
    eexists; split; [apply H; intros r Hr; rewrite Hreq in Hr; discriminate|].
    split; [reflexivity|]. split; [reflexivity|].
    apply submit_overused with (student := student2)
                               (c := ClassJoinCode.inc_usageCount c).
    + exact Hjc.
    + exact Hst2.
    + cbn [put joinCodes classJoinCodeCollection].
      apply (find_after_update ClassJoinCode._id); [exact ND | exact Hcode |].
      intros x; reflexivity.
    + cbn; lia.
Qed.
End UsageCapFacts.

(** ** Resolving a join request *)

Section ResolveFacts.
Variable classStudentSchema :
  ClassStudent.t -> list ClassStudent.t -> option MongoError.
Variables (classId requestId teacherId : ObjectId) (now : Date) (db : DB)
          (classDoc : ClassDoc.t) (r : ClassJoinRequest.t).
Hypothesis Hclass :
  find (ownedClass classId teacherId) (classCollection db) = Some classDoc.
Hypothesis Hreq :
  find (pendingRequest requestId classId) (classJoinRequestCollection db) = Some r.

Local Abbreviation approveIt :=
  (resolveJoinRequest classStudentSchema classId requestId "approve" teacherId now).
Local Abbreviation sid := (ClassJoinRequest.studentId r).
Local Abbreviation approvedRequests :=
  (update_first (hasId joinRequests (ClassJoinRequest._id r))
     (approvedBy teacherId now) (classJoinRequestCollection db)).

Ltac enter_resolve :=
  unfold resolveJoinRequest, finishApproval; run_handler;
  rewrite !String.eqb_refl; cbn [negb orb]; run_handler;
  rewrite Hclass; run_handler; rewrite Hreq; run_handler.

Lemma approve_already_enrolled e :
  find (enrollmentOf classId sid) (classStudentCollection db) = Some e ->
  ClassStudent.isActive e = true ->
  approveIt db =
    (Err 400 "Student is already enrolled in this class.",
     put joinRequests approvedRequests db).
Proof. intros He Ha; enter_resolve; rewrite He, Ha; reflexivity. Qed.

Lemma approve_reactivates e :
  find (enrollmentOf classId sid) (classStudentCollection db) = Some e ->
  ClassStudent.isActive e = false ->
  let enrolled :=
    update_first (hasId classStudents (ClassStudent._id e))
      (reactivate now (ClassJoinRequest.studentName r)
         (ClassJoinRequest.studentEnrollment r))
      (classStudentCollection db) in
  approveIt db =
    (requestApproved r,
     put classes
       (update_first (hasId classes classId)
          (set_studentCount (List.length (filter (activeStudentOf classId) enrolled)) now)
          (classCollection db))
       (put joinRequests approvedRequests (put classStudents enrolled db))).
Proof. intros He Ha; enter_resolve; rewrite He, Ha; reflexivity. Qed.

Lemma approve_enrolls :
  find (enrollmentOf classId sid) (classStudentCollection db) = None ->
  let row :=
    ClassStudent.mk
      (newObjectId (map ClassStudent._id (classStudentCollection db)))
      classId sid (ClassJoinRequest.studentName r)
      (ClassJoinRequest.studentEnrollment r) now true in
  classStudentSchema row (classStudentCollection db) = None ->
  let enrolled := (classStudentCollection db ++ [row])%list in
  approveIt db =
    (requestApproved r,
     put classes
       (update_first (hasId classes classId)
          (set_studentCount (List.length (filter (activeStudentOf classId) enrolled)) now)
          (classCollection db))
       (put joinRequests approvedRequests (put classStudents enrolled db))).
Proof.
  intros He row Hacc enrolled; enter_resolve; rewrite He; run_handler.
  fold row; rewrite Hacc; reflexivity.
Qed.
End ResolveFacts.

Section ApprovalFacts.
Variable classStudentSchema :
  ClassStudent.t -> list ClassStudent.t -> option MongoError.
Variables (classId requestId teacherId : ObjectId) (now : Date) (db : DB).

Local Abbreviation approveIt :=
  (resolveJoinRequest classStudentSchema classId requestId "approve" teacherId now).

Lemma ownedClass_id classDoc :
  find (ownedClass classId teacherId) (classCollection db) = Some classDoc ->
  ClassDoc._id classDoc = classId.
Proof.
  intros H; apply find_some in H as [_ H]; unfold ownedClass in H.
  apply andb_prop in H as [H _]; apply andb_prop in H as [H _].
  apply Nat.eqb_eq; exact H.
Qed.

Lemma counted_class classDoc n rest :
  NoDup (map ClassDoc._id (classCollection db)) ->
  find (ownedClass classId teacherId) (classCollection db) = Some classDoc ->
  let db' :=
    put classes
      (update_first (hasId classes classId) (set_studentCount n now)
         (classCollection db)) rest in
  exists classDoc',
    find (hasId classes classId) (classCollection db') = Some classDoc' /\
    ClassDoc.studentCount classDoc' = n.
Proof.
  intros ND Hclass db'; exists (set_studentCount n now classDoc); split; [|reflexivity].
  subst db'; cbn [put classes classCollection].
  rewrite <- (ownedClass_id _ Hclass).
  apply (find_by_id_after_update classes _ _ _ _ ND Hclass); reflexivity.
Qed.

(** C2: approving a pending request of an owned class marks the request
    approved and leaves the student with an active enrollment in the class,
    and the class's [studentCount] is then the number of active enrollment
    rows of the class.  The database is one with distinct [_id]s whose class
    documents count their active rows, as every run of the handlers keeps
    it.  When the student's enrollment row was missing or inactive the call
    answers with the success; when the row was already active it answers
    with an error and leaves the class documents and the enrollment rows as
    they were.  Without a pending request under that [_id] in that class
    the call fails with 404 and changes nothing. *)
Theorem approve_pending_request :
  (forall classDoc r,
     find (ownedClass classId teacherId) (classCollection db) = Some classDoc ->
     find (pendingRequest requestId classId) (classJoinRequestCollection db) = Some r ->
     DistinctIds db ->
     CountsInSync db ->
     (forall row, classStudentSchema row (classStudentCollection db) = None) ->
     let enrollment :=
       find (enrollmentOf classId (ClassJoinRequest.studentId r))
         (classStudentCollection db) in
     exists answer db' r' classDoc',
       approveIt db = (answer, db') /\
       find (hasId joinRequests (ClassJoinRequest._id r))
         (classJoinRequestCollection db') = Some r' /\
       r' = approvedBy teacherId now r /\
       ClassJoinRequest.status r' = approved /\
       find (activeEnrollmentOf classId (ClassJoinRequest.studentId r))
         (classStudentCollection db') <> None /\
       find (hasId classes classId) (classCollection db') = Some classDoc' /\
       ClassDoc.studentCount classDoc' = activeStudents classId db' /\
       ((forall e, enrollment = Some e -> ClassStudent.isActive e = false) ->
        answer = requestApproved r) /\
       (forall e, enrollment = Some e -> ClassStudent.isActive e = true ->
          answer = Err 400 "Student is already enrolled in this class." /\
          classCollection db' = classCollection db /\
          classStudentCollection db' = classStudentCollection db)) /\
  (find (pendingRequest requestId classId) (classJoinRequestCollection db) = None ->
   exists message, approveIt db = (Err 404 message, db)).
Proof.
  split.
  - intros classDoc r Hclass Hreq (_ & _ & NDc & NDe & _ & NDr) Hsync Hacc enrollment.
    assert (Happroved :
      find (hasId joinRequests (ClassJoinRequest._id r))
        (update_first (hasId joinRequests (ClassJoinRequest._id r))
           (approvedBy teacherId now) (classJoinRequestCollection db))
      = Some (approvedBy teacherId now r)).
    { apply (find_by_id_after_update joinRequests _ _ _ _ NDr Hreq); reflexivity. }
    subst enrollment.
    destruct (find (enrollmentOf classId (ClassJoinRequest.studentId r))
                (classStudentCollection db)) as [e|] eqn:He.
    + pose proof (find_some _ _ He) as [Hin Hof].
      destruct (ClassStudent.isActive e) eqn:Ha.
      * exists (Err 400 "Student is already enrolled in this class."),
          (put joinRequests
             (update_first (hasId joinRequests (ClassJoinRequest._id r))
                (approvedBy teacherId now) (classJoinRequestCollection db)) db),
          (approvedBy teacherId now r), classDoc.
        split;
          [apply (approve_already_enrolled classStudentSchema classId requestId
                    teacherId now db classDoc r Hclass Hreq e He Ha)|].
        split; [exact Happroved|]. split; [reflexivity|]. split; [reflexivity|].
        split; [|split; [|split; [|split]]].
        -- apply (find_In_some _ _ e Hin).
           unfold activeEnrollmentOf; rewrite Hof, Ha; reflexivity.
        -- pose proof (find_some _ _ Hclass) as [Hc _].
           rewrite <- (ownedClass_id _ Hclass).
           apply (find_key_In ClassDoc._id _ _ NDc Hc).
        -- rewrite (Hsync classDoc (proj1 (find_some _ _ Hclass))).
           rewrite (ownedClass_id _ Hclass); reflexivity.
        -- intros H; specialize (H e eq_refl); congruence.
        -- intros e' _ _; repeat split; reflexivity.
      * destruct (counted_class classDoc
                    (List.length
                       (filter (activeStudentOf classId)
                          (update_first (hasId classStudents (ClassStudent._id e))
                             (reactivate now (ClassJoinRequest.studentName r)
                                (ClassJoinRequest.studentEnrollment r))
                             (classStudentCollection db))))
                    (put joinRequests
                       (update_first (hasId joinRequests (ClassJoinRequest._id r))
                          (approvedBy teacherId now) (classJoinRequestCollection db))
                       (put classStudents
                          (update_first (hasId classStudents (ClassStudent._id e))
                             (reactivate now (ClassJoinRequest.studentName r)
                                (ClassJoinRequest.studentEnrollment r))
                             (classStudentCollection db)) db))
                    NDc Hclass) as (classDoc' & Hfound & Hcount).
        eexists _, _, _, classDoc'; split;
          [apply (approve_reactivates classStudentSchema classId requestId
                    teacherId now db classDoc r Hclass Hreq e He Ha)|].
        split; [exact Happroved|]. split; [reflexivity|]. split; [reflexivity|].
        split; [|split; [|split; [|split]]].
        -- cbn [put classes joinRequests classStudents classStudentCollection].
           assert (Hnew := find_by_id_after_update classStudents _ _ _
                     (reactivate now (ClassJoinRequest.studentName r)
                        (ClassJoinRequest.studentEnrollment r)) NDe He eq_refl).
           apply find_some in Hnew as [Hin' _].
           apply (find_In_some _ _ _ Hin').
           unfold activeEnrollmentOf, enrollmentOf in *; cbn.
           rewrite Hof; reflexivity.
        -- exact Hfound.
        -- exact Hcount.
        -- intros _; reflexivity.
        -- intros e' [= <-] Ha'; congruence.
    + destruct (counted_class classDoc
                  (List.length
                     (filter (activeStudentOf classId)
                        (classStudentCollection db ++
                         [ClassStudent.mk
                            (newObjectId (map ClassStudent._id (classStudentCollection db)))
                            classId (ClassJoinRequest.studentId r)
                            (ClassJoinRequest.studentName r)
                            (ClassJoinRequest.studentEnrollment r) now true])))
                  (put joinRequests
                     (update_first (hasId joinRequests (ClassJoinRequest._id r))
                        (approvedBy teacherId now) (classJoinRequestCollection db))
                     (put classStudents
                        (classStudentCollection db ++
                         [ClassStudent.mk
                            (newObjectId (map ClassStudent._id (classStudentCollection db)))
                            classId (ClassJoinRequest.studentId r)
                            (ClassJoinRequest.studentName r)
                            (ClassJoinRequest.studentEnrollment r) now true]) db))
                  NDc Hclass) as (classDoc' & Hfound & Hcount).
      eexists _, _, _, classDoc'; split;
        [apply (approve_enrolls classStudentSchema classId requestId teacherId
                  now db classDoc r Hclass Hreq He (Hacc _))|].
      split; [exact Happroved|]. split; [reflexivity|]. split; [reflexivity|].
      split; [|split; [|split; [|split]]].
      * cbn [put classes joinRequests classStudents classStudentCollection].
        eapply find_In_some; [apply in_or_app; right; left; reflexivity|].
        unfold activeEnrollmentOf, enrollmentOf; cbn.
        rewrite !Nat.eqb_refl; reflexivity.
      * exact Hfound.
      * exact Hcount.
      * intros _; reflexivity.
      * intros e' [=].
  - intros Hnone.
    unfold resolveJoinRequest; run_handler.
    rewrite !String.eqb_refl; cbn [negb orb]; run_handler.
    destruct (find _ (classCollection db)); run_handler.
    + rewrite Hnone; eexists; reflexivity.
    + eexists; reflexivity.
Qed.
End ApprovalFacts.

(** ** Credentials *)

Section CredentialFacts.
Variable encodeURIComponent : string -> string.
Variable studentSchema : Student.t -> list Student.t -> option MongoError.
Variable teacherSchema : Teacher.t -> list Teacher.t -> option MongoError.

Lemma signup_teacher_stores name email enrollment password saveFails db :
  find (fun t => String.eqb (Teacher.email t) email) (teacherCollection db) = None ->
  (forall t, teacherSchema t (teacherCollection db) = None) ->
  exists t,
    teacherCollection
      (snd (signup encodeURIComponent studentSchema teacherSchema
              "teacher" name email enrollment password saveFails db))
      = (teacherCollection db ++ [t])%list /\
    Teacher.password t = password.
Proof.
  intros Hnew Hacc; unfold signup; run_handler.
  rewrite String.eqb_refl; run_handler; rewrite Hnew; run_handler.
  rewrite Hacc; run_handler.
  eexists; split;
    [match goal with |- context [find ?q ?l] => destruct (find q l) end;
     reflexivity
    |reflexivity].
Qed.

Lemma signup_student_stores userType name email enrollment password saveFails db :
  String.eqb userType "teacher" = false ->
  find (fun s => String.eqb (Student.enrollment s) (toUpperCase enrollment))
    (studentCollection db) = None ->
  (forall s, studentSchema s (studentCollection db) = None) ->
  exists s,
    studentCollection
      (snd (signup encodeURIComponent studentSchema teacherSchema
              userType name email enrollment password saveFails db))
      = (studentCollection db ++ [s])%list /\
    Student.password s = password.
Proof.
  intros Hty Hnew Hacc; unfold signup; run_handler.
  rewrite Hty; run_handler; rewrite Hnew; run_handler.
  rewrite Hacc; run_handler.
  eexists; split;
    [match goal with |- context [find ?q ?l] => destruct (find q l) end;
     reflexivity
    |reflexivity].
Qed.

Lemma reset_stores token newPassword now db u :
  findByResetToken token now db = (inr (Some u), db) ->
  (6 <= JS.length newPassword)%nat ->
  NoDup (map Student._id (studentCollection db)) ->
  NoDup (map Teacher._id (teacherCollection db)) ->
  storedPassword u (snd (resetPassword token newPassword newPassword now db))
    = Some newPassword.
Proof.
  intros Hu Hlen NDs NDt; unfold resetPassword; run_handler.
  rewrite Hu; run_handler.
  rewrite String.eqb_refl; cbn [negb].
  replace (JS.length newPassword <? 6)%nat with false
    by (symmetry; apply Nat.ltb_ge; exact Hlen).
  revert Hu; unfold findByResetToken; run_handler.
  destruct (find _ (studentCollection db)) as [s|] eqn:Hs; run_handler.
  - intros [= <-]; unfold savePassword; run_handler; unfold storedPassword.
    match goal with
    | |- context [update_first _ (fun _ => ?d) _] =>
        pose proof (find_by_id_after_update students _ _ _ (fun _ => d)
                      NDs Hs eq_refl) as H
    end.
    cbn in H |- *; rewrite H; reflexivity.
  - destruct (find _ (teacherCollection db)) as [t|] eqn:Ht; [|discriminate].
    intros [= <-]; unfold savePassword; run_handler; unfold storedPassword.
    match goal with
    | |- context [update_first _ (fun _ => ?d) _] =>
        pose proof (find_by_id_after_update teachers _ _ _ (fun _ => d)
                      NDt Ht eq_refl) as H
    end.
    cbn in H |- *; rewrite H; reflexivity.
Qed.

(** C9: passwords are stored and compared as plain text.  A signup that
    creates an account appends a document whose password is the submitted
    string; a password reset that passes its checks leaves the submitted
    string as the stored password of the account; and for the account the
    login lookup finds, the login starts a session exactly when the stored
    password equals the submitted string, without changing the database:
    the session is then that of the account (its [_id], its name and the
    user type of the request) and the answer the redirect to the home page
    of that user type, unless the session store fails; with any other
    string there is no session and the login page says "Wrong password.".
    The reset counts the characters of the password as JavaScript does, in
    UTF-16 code units. *)
Theorem plain_text_credentials :
  (forall name email enrollment password saveFails db,
     find (fun t => String.eqb (Teacher.email t) email) (teacherCollection db) = None ->
     (forall t, teacherSchema t (teacherCollection db) = None) ->
     exists t,
       teacherCollection
         (snd (signup encodeURIComponent studentSchema teacherSchema
                 "teacher" name email enrollment password saveFails db))
         = (teacherCollection db ++ [t])%list /\
       Teacher.password t = password) /\
  (forall userType name email enrollment password saveFails db,
     String.eqb userType "teacher" = false ->
     find (fun s => String.eqb (Student.enrollment s) (toUpperCase enrollment))
       (studentCollection db) = None ->
     (forall s, studentSchema s (studentCollection db) = None) ->
     exists s,
       studentCollection
         (snd (signup encodeURIComponent studentSchema teacherSchema
                 userType name email enrollment password saveFails db))
         = (studentCollection db ++ [s])%list /\
       Student.password s = password) /\
  (forall token newPassword now db u,
     findByResetToken token now db = (inr (Some u), db) ->
     (6 <= JS.length newPassword)%nat ->
     NoDup (map Student._id (studentCollection db)) ->
     NoDup (map Teacher._id (teacherCollection db)) ->
     storedPassword u (snd (resetPassword token newPassword newPassword now db))
       = Some newPassword) /\
  (forall password userType email enrollment saveFails db u,
     findLoginUser userType email enrollment db = (inr (Some u), db) ->
     let '(page, session, db') :=
       login encodeURIComponent password userType email enrollment saveFails db in
     db' = db /\
     (session <> None <-> user_password u = password) /\
     (saveFails = false ->
      ((exists url, page = Redirect url) <-> user_password u = password)) /\
     (user_password u = password ->
      session = Some {| userId := user_id u; userName := user_name u;
                        userType := userType |} /\
      (saveFails = false ->
       page = Redirect ((if String.eqb userType "teacher" then "/homeTeacher"
                         else "/homeStudent")
                        ++ "?userName=" ++ encodeURIComponent (user_name u)))) /\
     (user_password u <> password ->
      session = None /\
      page = Render "login"
               [("errors", LErrors [("password", "Wrong password.")]);
                ("oldInput", LObject [("userType", userType); ("email", email);
                                      ("enrollment", enrollment)])])).
Proof.
  split; [exact signup_teacher_stores|].
  split; [exact signup_student_stores|].
  split; [exact reset_stores|].
  intros password userType email enrollment saveFails db u Hu.
  unfold login; run_handler; rewrite Hu; run_handler.
  destruct (String.eqb_spec (user_password u) password) as [E|N]; run_handler.
  - unfold startSession; destruct saveFails; (split; [reflexivity|]);
      (split; [split; [intros _; exact E | discriminate]|]);
      (split; [|split; [intros _; split; [reflexivity|]|intros N; contradiction]]).
    + discriminate.
    + discriminate.
    + intros _; split; [intros _; exact E | intros _; eexists; reflexivity].
    + reflexivity.
  - split; [reflexivity|]; split; [|split; [|split]].
    + split; [intros H; exfalso; apply H; reflexivity | intros E; contradiction].
    + intros _; split; [intros [url H]; discriminate | intros E; contradiction].
    + intros E; contradiction.
    + intros _; split; reflexivity.
Qed.
End CredentialFacts.

(** * The theorems at work on the small school *)

Ltac distinct_ids := repeat constructor; cbn; intuition discriminate.

Lemma at_most_one_active_code_witness :
  AtMostOneActiveCode
    (snd (perform Sample.draw Sample.accept Sample.accept Sample.accept
            (IssueJoinCode Sample.classId Sample.teacherId "Ms T" 0) Sample.fresh)) /\
  exists c,
    activeCodes Sample.classId
      (snd (generateJoinCode Sample.draw Sample.accept Sample.classId
              Sample.teacherId "Ms T" 0 Sample.fresh)) = [c].
Proof.
  destruct (at_most_one_active_code Sample.draw Sample.accept Sample.accept
              Sample.accept) as (_ & Hkeep & Hissue).
  split.
  - apply Hkeep.
    intros [|[|classId]]; cbn; lia.
  - destruct (Hissue Sample.classId Sample.teacherId "Ms T" 0 Sample.fresh
                _ _ _ eq_refl) as (c & _ & _ & _ & Hc).
    exists c; exact Hc.
Defined.

Lemma validate_expired_code_witness :
  (let answer := validateJoinCode "abc123" Sample.annId 700000 Sample.fresh in
   fst answer = Err 400 "This join code has expired." /\
   map ClassJoinCode.isActive (classJoinCodeCollection Sample.fresh) = [true] /\
   map ClassJoinCode.isActive (classJoinCodeCollection (snd answer)) = [false]) /\
  (let answer :=
     validateJoinCode "abc123" Sample.annId (0 + 11 * 60 * 1000)
       (snd (generateJoinCode Sample.draw Sample.accept Sample.classId
               Sample.teacherId "Ms T" 0 Sample.fresh)) in
   fst answer = Err 400 "This join code has expired." /\
   activeCodes Sample.classId (snd answer) = []).
Proof.
  destruct (validate_expired_code Sample.draw Sample.accept) as [Hpast Hissued].
  split.
  - destruct (Hpast "abc123" Sample.annId 700000 Sample.fresh (Sample.code 0 50)
                eq_refl eq_refl ltac:(distinct_ids))
      as (db' & c' & Hrun & Hdb & _).
    cbv zeta; rewrite Hrun; cbn [fst snd].
    split; [reflexivity|]. split; [reflexivity|].
    rewrite Hdb; reflexivity.
  - destruct (Hissued Sample.classId Sample.teacherId "Ms T" 0 Sample.fresh
                _ _ _ _ _ _ _ _ _ "abc123" Sample.annId eq_refl eq_refl eq_refl)
      as (_ & _ & Hanswer & Hnone).
    split; [exact Hanswer | exact Hnone].
Defined.

Lemma used_up_code_is_refused_witness :
  fst (validateJoinCode "abc123" Sample.annId 1000 Sample.usedUp)
    = Err 400 "This join code has reached its usage limit." /\
  fst (submitJoinRequest Sample.accept (Some "ABC123") Sample.annId "Ann" 1000
         Sample.usedUp)
    = Err 400 "Invalid, expired, or overused join code." /\
  fst (submitJoinRequest Sample.accept (Some "ABC123") Sample.bobId "Bob" 2000
         (snd (submitJoinRequest Sample.accept (Some "ABC123") Sample.annId "Ann"
                 1000 Sample.lastUse)))
    = Err 400 "Invalid, expired, or overused join code.".
Proof.
  destruct (used_up_code_is_refused Sample.accept) as (Hvalidate & Hsubmit & Hlast).
  split; [|split].
  - destruct (Hvalidate "abc123" Sample.annId 1000 Sample.usedUp (Sample.code 1 1)
                eq_refl (le_n 1)) as [_ Hlimit].
    rewrite (Hlimit ltac:(cbn; lia)); reflexivity.
  - rewrite (Hsubmit "ABC123" Sample.annId "Ann" 1000 Sample.usedUp Sample.ann
               (Sample.code 1 1) eq_refl eq_refl eq_refl (le_n 1)).
    reflexivity.
  - destruct (Hlast "ABC123" 1000 Sample.lastUse (Sample.code 0 1)
                Sample.annId "Ann" Sample.ann Sample.bobId "Bob" Sample.bob 2000
                eq_refl eq_refl ltac:(distinct_ids) ltac:(cbn; lia)
                eq_refl eq_refl eq_refl eq_refl eq_refl eq_refl)
      as (db1 & Hfirst & _ & _ & Hsecond).
    rewrite Hfirst; cbn [snd]; rewrite Hsecond; reflexivity.
Defined.

Lemma rejoin_reactivates_enrollment_witness :
  exists message db',
    submitJoinRequest Sample.accept (Some "ABC123") Sample.annId "Ann" 1000
      Sample.annLeft = (Ok message (Rejoined "Algebra" "Math" "Ms T"), db') /\
    map enrollmentKey (classStudentCollection db')
      = map enrollmentKey (classStudentCollection Sample.annLeft) /\
    map ClassJoinRequest.status (classJoinRequestCollection db') = [approved].
Proof.
  destruct (rejoin_reactivates_enrollment Sample.accept "ABC123" Sample.annId "Ann"
              1000 Sample.annLeft Sample.ann (Sample.code 0 50) (Sample.row false)
              eq_refl eq_refl eq_refl eq_refl eq_refl eq_refl ltac:(distinct_ids))
    as [Hrejoin _].
  destruct (Hrejoin eq_refl) as (message & db' & Hrun & _ & _ & Hrows & _).
  exists message, db'; split; [exact Hrun|]; split; [exact Hrows|].
  revert Hrun; vm_compute; intros [= _ <-]; reflexivity.
Defined.

Lemma rejoin_uses_code_once_witness :
  exists message db',
    submitJoinRequest Sample.accept (Some "ABC123") Sample.annId "Ann" 1000
      Sample.annLeft = (Ok message (Rejoined "Algebra" "Math" "Ms T"), db') /\
    usedOnce (Sample.code 0 50) Sample.annLeft db'.
Proof.
  destruct (rejoin_uses_code_once Sample.accept "ABC123" Sample.annId "Ann"
              1000 Sample.annLeft Sample.ann (Sample.code 0 50) (Sample.row false)
              eq_refl eq_refl eq_refl eq_refl eq_refl eq_refl eq_refl
              ltac:(distinct_ids))
    as (message & db' & Hrun & Hused & _).
  exists message, db'; split; [exact Hrun | exact Hused].
Defined.

Lemma resubmission_while_pending_witness :
  fst (submitJoinRequest Sample.accept (Some "ABC123") Sample.annId "Ann" 1000
         Sample.annPending)
    = Err 400 "You already have a pending request for this class. Please wait for the teacher's approval." /\
  fst (submitJoinRequest Sample.accept (Some "ABC123") Sample.annId "Ann" 2000
         (snd (submitJoinRequest Sample.accept (Some "ABC123") Sample.annId "Ann"
                 1000 Sample.fresh)))
    = Err 400 "You already have a pending request for this class. Please wait for the teacher's approval." /\
  ~ In (Sample.request rejected)
       (classJoinRequestCollection
          (snd (submitJoinRequest Sample.accept (Some "ABC123") Sample.annId "Ann"
                  1000 Sample.annRejected))).
Proof.
  split; [|split].
  - destruct (resubmission_while_pending Sample.accept "ABC123" Sample.annId "Ann"
                1000 Sample.annPending Sample.ann (Sample.code 0 50)
                eq_refl eq_refl eq_refl eq_refl eq_refl eq_refl) as (Hpending & _ & _).
    rewrite (Hpending (Sample.request pending) eq_refl eq_refl); reflexivity.
  - destruct (resubmission_while_pending Sample.accept "ABC123" Sample.annId "Ann"
                1000 Sample.fresh Sample.ann (Sample.code 0 50)
                eq_refl eq_refl eq_refl eq_refl eq_refl eq_refl) as (_ & Htwice & _).
    destruct (Htwice 2000 "Ann" ltac:(distinct_ids) ltac:(distinct_ids)
                (or_introl eq_refl) eq_refl eq_refl eq_refl)
      as (db1 & Hfirst & _ & _ & Hsecond).
    rewrite Hfirst; cbn [snd]; rewrite Hsecond; reflexivity.
  - destruct (resubmission_while_pending Sample.accept "ABC123" Sample.annId "Ann"
                1000 Sample.annRejected Sample.ann (Sample.code 0 50)
                eq_refl eq_refl eq_refl eq_refl eq_refl eq_refl) as (_ & _ & Hretry).
    destruct (Hretry (Sample.request rejected) eq_refl eq_refl ltac:(distinct_ids)
                eq_refl) as (db1 & Hfirst & _ & _ & Hgone).
    rewrite Hfirst; exact Hgone.
Defined.

Lemma new_request_uses_code_once_witness :
  usageCounters
    (snd (submitJoinRequest Sample.accept (Some "ABC123") Sample.annId "Ann" 1000
            Sample.annPending))
    = usageCounters Sample.annPending /\
  exists c,
    usedOnce c Sample.fresh
      (snd (submitJoinRequest Sample.accept (Some "ABC123") Sample.annId "Ann" 1000
              Sample.fresh)).
Proof.
  split.
  - destruct (new_request_uses_code_once Sample.accept (Some "ABC123") Sample.annId
                "Ann" 1000 Sample.annPending) as [Hfail _].
    apply (Hfail _ _ _ eq_refl).
  - destruct (new_request_uses_code_once Sample.accept (Some "ABC123") Sample.annId
                "Ann" 1000 Sample.fresh) as [_ Hfiled].
    destruct (Hfiled _ _ _ _ _ _ eq_refl ltac:(distinct_ids))
      as (jc & c & _ & _ & Hused & _).
    exists c; exact Hused.
Defined.

(** C3, as the claim states it, fails: Ann's request for the class is
    pending and the code is usable; her call does not take the reactivation
    path, it is refused, and the code's counter stays at 0. *)
Lemma pending_refusal_uses_no_code :
  let result :=
    submitJoinRequest Sample.accept (Some "ABC123") Sample.annId "Ann" 1000
      Sample.annPending in
  find (activeCode "ABC123") (classJoinCodeCollection Sample.annPending)
    = Some (Sample.code 0 50) /\
  isRejoined (fst result) = false /\
  usageCounters (snd result) = [(1%nat, 0%nat)] /\
  ~ usedOnce (Sample.code 0 50) Sample.annPending (snd result).
Proof.
  cbv zeta; split; [reflexivity|]. split; [reflexivity|]. split; [reflexivity|].
  intros [H _]; vm_compute in H; discriminate H.
Defined.

Lemma approve_pending_request_witness :
  (exists db' classDoc',
     resolveJoinRequest Sample.accept Sample.classId Sample.requestId "approve"
       Sample.teacherId 1000 Sample.annPending
       = (requestApproved (Sample.request pending), db') /\
     map ClassJoinRequest.status (classJoinRequestCollection db') = [approved] /\
     find (hasId classes Sample.classId) (classCollection db') = Some classDoc' /\
     ClassDoc.studentCount classDoc' = activeStudents Sample.classId db' /\
     activeStudents Sample.classId db' = 1%nat) /\
  (exists message,
     resolveJoinRequest Sample.accept Sample.classId Sample.requestId "approve"
       Sample.teacherId 1000 Sample.fresh = (Err 404 message, Sample.fresh)).
Proof.
  split.
  - destruct (approve_pending_request Sample.accept Sample.classId Sample.requestId
                Sample.teacherId 1000 Sample.annPending) as [Happrove _].
    assert (Hids : DistinctIds Sample.annPending)
      by (unfold DistinctIds; cbn; distinct_ids).
    assert (Hsync : CountsInSync Sample.annPending)
      by (intros c Hc; cbn in Hc; destruct Hc as [<-|[]]; reflexivity).
    destruct (Happrove Sample.algebra (Sample.request pending) eq_refl eq_refl
                Hids Hsync (fun _ => eq_refl))
      as (answer & db' & r' & classDoc' & Hrun & _ & _ & _ & _ & Hfound & Hcount
          & Hanswer & _).
    exists db', classDoc'.
    rewrite <- (Hanswer ltac:(intros e He; discriminate He)).
    split; [exact Hrun|].
    split; [revert Hrun; vm_compute; intros [= _ <-]; reflexivity|].
    split; [exact Hfound|]. split; [exact Hcount|].
    revert Hrun; vm_compute; intros [= _ <-]; reflexivity.
  - destruct (approve_pending_request Sample.accept Sample.classId Sample.requestId
                Sample.teacherId 1000 Sample.fresh) as [_ Hmissing].
    apply Hmissing; reflexivity.
Defined.

Lemma plain_text_credentials_witness :
  (exists t,
     teacherCollection
       (snd (signup Sample.encode Sample.accept Sample.accept "teacher" "Mr U"
               "U@School.org" "" "s3cret!" false emptyDB)) = [t] /\
     Teacher.password t = "s3cret!") /\
  (exists s,
     studentCollection
       (snd (signup Sample.encode Sample.accept Sample.accept "student" "Cy"
               "" "e9" "pa55word" false emptyDB)) = [s] /\
     Student.password s = "pa55word") /\
  storedPassword (AStudent Sample.ann)
    (snd (resetPassword "tok" "daffodil" "daffodil" 1000 Sample.fresh))
    = Some "daffodil" /\
  fst (login Sample.encode "tulip-42" "student" "" "e7" false Sample.fresh)
    = (Redirect "/homeStudent?userName=Ann",
       Some {| userId := 7%nat; userName := "Ann"; userType := "student" |}) /\
  snd (fst (login Sample.encode "Tulip-42" "student" "" "e7" false Sample.fresh))
    = None.
Proof.
  destruct (plain_text_credentials Sample.encode Sample.accept Sample.accept)
    as (Hteacher & Hstudent & Hreset & Hlogin).
  split; [|split; [|split; [|split]]].
  - apply (Hteacher "Mr U" "U@School.org" "" "s3cret!" false emptyDB eq_refl
             (fun _ => eq_refl)).
  - apply (Hstudent "student" "Cy" "" "e9" "pa55word" false emptyDB eq_refl eq_refl
             (fun _ => eq_refl)).
  - assert (Hlong : (6 <= JS.length "daffodil")%nat) by (vm_compute; lia).
    apply (Hreset "tok" "daffodil" 1000 Sample.fresh (AStudent Sample.ann) eq_refl
             Hlong ltac:(distinct_ids) ltac:(distinct_ids)).
  - pose proof (Hlogin "tulip-42" "student" "" "e7" false Sample.fresh
                  (AStudent Sample.ann) eq_refl) as H.
    destruct (login Sample.encode "tulip-42" "student" "" "e7" false Sample.fresh)
      as [[page session] db'].
    destruct H as (_ & _ & _ & H & _).
    destruct (H eq_refl) as [-> Hpage]; rewrite (Hpage eq_refl); reflexivity.
  - pose proof (Hlogin "Tulip-42" "student" "" "e7" false Sample.fresh
                  (AStudent Sample.ann) eq_refl) as H.
    destruct (login Sample.encode "Tulip-42" "student" "" "e7" false Sample.fresh)
      as [[page session] db'].
    destruct H as (_ & _ & _ & _ & H).
    destruct (H ltac:(discriminate)) as [-> _]; reflexivity.
Defined.

(** * Further properties of the handlers *)

(** ** What a run of the enrollment manager keeps *)

Lemma In_update_first {A} (p : A -> bool) (f : A -> A) (l : list A) y :
  In y (update_first p f l) ->
  (exists x, find p l = Some x /\ y = f x) \/ In y l.
Proof.
  induction l as [|x r IH]; simpl; [tauto|].
  destruct (p x) eqn:E; simpl.
  - intros [<-|Hin]; [left; exists x; auto | right; auto].
  - intros [<-|Hin]; [right; auto|].
    destruct (IH Hin) as [(z & Hz & ->)|H]; [left; exists z; auto | right; auto].
Qed.

Section RunFacts.
Variable generateUniqueCode : list ClassJoinCode.t -> string.
Variable joinCodeSchema :
  ClassJoinCode.t -> list ClassJoinCode.t -> option MongoError.
Variable classStudentSchema :
  ClassStudent.t -> list ClassStudent.t -> option MongoError.
Variable joinRequestSchema :
  ClassJoinRequest.t -> list ClassJoinRequest.t -> option MongoError.

Local Abbreviation step :=
  (perform generateUniqueCode joinCodeSchema classStudentSchema joinRequestSchema).
Local Abbreviation runs :=
  (run generateUniqueCode joinCodeSchema classStudentSchema joinRequestSchema).

(** An invariant of the operations, on databases with distinct [_id]s, is
    an invariant of every run. *)
Lemma run_keeps (P : DB -> Prop) :
  (forall op db, DistinctIds db -> P db -> P (snd (step op db))) ->
  forall ops db, DistinctIds db -> P db ->
    DistinctIds (runs ops db) /\ P (runs ops db).
Proof.
  intros Hstep ops; induction ops as [|op ops IH]; intros db Hd HP; [split; assumption|].
  cbn [run fold_left]; apply IH.
  - apply perform_distinct_ids, Hd.
  - apply Hstep; assumption.
Qed.

Lemma codes_after_submit_used joinCode studentId studentName now db :
  let l := classJoinCodeCollection db in
  let l' := classJoinCodeCollection
              (snd (submitJoinRequest joinRequestSchema joinCode studentId
                      studentName now db)) in
  l' = l \/
  exists jc c,
    joinCode = Some jc /\
    find (activeCode (toUpperCase jc)) l = Some c /\
    canBeUsed c = true /\
    l' = update_first (hasId joinCodes (ClassJoinCode._id c))
           ClassJoinCode.inc_usageCount l.
Proof.
  unfold submitJoinRequest, createJoinRequest; case_handler; auto;
    match goal with
    | H : (_ || negb _) = false |- _ =>
        apply orb_false_elim in H as [_ H]; apply negb_false_iff in H
    end;
    right; eexists _, _; repeat split; eassumption.
Qed.

Lemma perform_within_cap op db :
  DistinctIds db -> WithinCap db -> WithinCap (snd (step op db)).
Proof.
  intros (_ & _ & _ & _ & ND & _) Hcap.
  destruct op as [c t u n|code sid n|jc sid sn n|c r a t n]; cbn [perform]; intros x Hx.
  - rewrite generateJoinCode_eq in Hx.
    destruct (find _ (classCollection db)); [|apply Hcap, Hx].
    cbv zeta in Hx; destruct (joinCodeSchema _ _); cbn in Hx.
    + apply In_update_all in Hx as (y & Hy & [[_ ->]|[_ ->]]); apply (Hcap _ Hy).
    + apply in_app_or in Hx as [Hx|[<-|[]]]; [|cbn; lia].
      apply In_update_all in Hx as (y & Hy & [[_ ->]|[_ ->]]); apply (Hcap _ Hy).
  - destruct (codes_after_validate code sid n db) as [E|[i E]];
      cbv zeta in E; rewrite E in Hx; [apply Hcap, Hx|].
    apply In_update_first in Hx as [(y & Hy & ->)|Hx]; [|apply Hcap, Hx].
    apply (Hcap y), (find_some _ _ Hy).
  - destruct (codes_after_submit_used jc sid sn n db) as [E|(s & c & _ & Hc & Hroom & E)];
      cbv zeta in E; rewrite E in Hx; [apply Hcap, Hx|].
    apply In_update_first in Hx as [(y & Hy & ->)|Hx]; [|apply Hcap, Hx].
    assert (Hfound : find (hasId joinCodes (ClassJoinCode._id c))
                       (classJoinCodeCollection db) = Some c)
      by (apply (find_key_In ClassJoinCode._id); [exact ND | apply (find_some _ _ Hc)]).
    rewrite Hfound in Hy; injection Hy as <-.
    unfold canBeUsed in Hroom; apply Nat.ltb_lt in Hroom; cbn; lia.
  - rewrite codes_after_resolve in Hx; apply Hcap, Hx.
Qed.

(** X1: no sequence of requests to the enrollment manager pushes the usage
    counter of a join code over its cap: from a database with distinct
    [_id]s in which every counter is within its cap, every run ends in such
    a database. *)
Theorem run_within_cap :
  forall ops db,
    DistinctIds db -> WithinCap db ->
    DistinctIds (runs ops db) /\ WithinCap (runs ops db).
Proof. apply run_keeps, perform_within_cap. Qed.
End RunFacts.

Section ListFactsById.
Context {A : Type} (key : A -> nat).

Lemma same_key_same_doc (l : list A) x y :
  NoDup (map key l) -> In x l -> In y l -> key x = key y -> x = y.
Proof.
  induction l as [|z r IH]; simpl; intros ND Hx Hy E; [contradiction|].
  inversion ND as [|? ? Hnot ND']; subst.
  destruct Hx as [->|Hx], Hy as [->|Hy]; auto.
  - exfalso; apply Hnot; rewrite E; apply in_map, Hy.
  - exfalso; apply Hnot; rewrite <- E; apply in_map, Hx.
Qed.

Lemma In_update_by_key (l : list A) k f y :
  NoDup (map key l) -> (forall x, key (f x) = key x) ->
  In y (update_first (fun x => (key x =? k)%nat) f l) ->
  (exists x, In x l /\ key x = k /\ y = f x) \/ (In y l /\ key y <> k).
Proof.
  intros ND Hf; induction l as [|x r IH]; simpl; [tauto|].
  inversion ND as [|? ? Hnot ND']; subst.
  destruct (Nat.eqb_spec (key x) k) as [E|N]; simpl.
  - intros [<-|Hin]; [left; exists x; auto|].
    right; split; [auto|]. intros K; apply Hnot; rewrite E, <- K; apply in_map, Hin.
  - intros [<-|Hin]; [right; auto|].
    destruct (IH ND' Hin) as [(z & Hz & Hk & ->)|[H1 H2]];
      [left; exists z; auto | right; auto].
Qed.

End ListFactsById.

Section ListFactsMore.
Context {A : Type}.

Lemma update_first_filter_same_In (q p : A -> bool) f (l : list A) :
  (forall x, In x l -> p x = true -> q (f x) = q x) ->
  List.length (filter q (update_first p f l)) = List.length (filter q l).
Proof.
  induction l as [|x r IH]; simpl; intros Hq; [reflexivity|].
  destruct (p x) eqn:E; simpl.
  - rewrite (Hq x (or_introl eq_refl) E); destruct (q x); reflexivity.
  - specialize (IH (fun y Hy => Hq y (or_intror Hy))).
    destruct (q x); simpl; rewrite IH; reflexivity.
Qed.

Lemma In_update_first_image (p : A -> bool) f (l : list A) x :
  In x l -> In x (update_first p f l) \/ In (f x) (update_first p f l).
Proof.
  induction l as [|y r IH]; simpl; [tauto|].
  destruct (p y) eqn:E; simpl; intros [<-|Hin]; auto.
  destruct (IH Hin); auto.
Qed.

Lemma find_none_filter_nil (p : A -> bool) (l : list A) :
  find p l = None -> filter p l = [].
Proof.
  induction l as [|x r IH]; simpl; [reflexivity|].
  destruct (p x); [discriminate | exact IH].
Qed.
End ListFactsMore.

Section EnrollmentRuns.
Variable generateUniqueCode : list ClassJoinCode.t -> string.
Variable joinCodeSchema :
  ClassJoinCode.t -> list ClassJoinCode.t -> option MongoError.
Variable classStudentSchema :
  ClassStudent.t -> list ClassStudent.t -> option MongoError.
Variable joinRequestSchema :
  ClassJoinRequest.t -> list ClassJoinRequest.t -> option MongoError.

Local Abbreviation step :=
  (perform generateUniqueCode joinCodeSchema classStudentSchema joinRequestSchema).
Local Abbreviation runs :=
  (run generateUniqueCode joinCodeSchema classStudentSchema joinRequestSchema).

(** What an operation does to the enrollment rows and the class documents:
    nothing, or it reactivates the row it found for a class and a student,
    or appends an active row for a pair that had none, and then writes the
    number of active rows of that class into the class document. *)
Lemma enrollment_effect op db :
  let rows := classStudentCollection db in
  let db' := snd (step op db) in
  (classStudentCollection db' = rows /\ classCollection db' = classCollection db) \/
  exists cid sid now rows',
    classStudentCollection db' = rows' /\
    ((exists e sn se,
        find (enrollmentOf cid sid) rows = Some e /\
        rows' = update_first (hasId classStudents (ClassStudent._id e))
                  (reactivate now sn se) rows) \/
     (exists row,
        find (enrollmentOf cid sid) rows = None /\
        ClassStudent.classId row = cid /\ ClassStudent.studentId row = sid /\
        ClassStudent.isActive row = true /\ rows' = (rows ++ [row])%list)) /\
    classCollection db' =
      update_first (hasId classes cid)
        (set_studentCount (List.length (filter (activeStudentOf cid) rows')) now)
        (classCollection db).
Proof.
  destruct op; cbn [perform];
    unfold generateJoinCode, validateJoinCode, submitJoinRequest,
      createJoinRequest, resolveJoinRequest, finishApproval;
    case_handler; cbv zeta; cbn -[newObjectId]; auto;
    right; eexists _, _, _, _; (split; [reflexivity|]); (split; [|reflexivity]);
    solve [ left; eexists _, _, _; split; [eassumption | reflexivity]
          | right; eexists; split; [eassumption | repeat split; reflexivity] ].
Qed.

Lemma perform_one_row_per_pair op db :
  OneRowPerPair db -> OneRowPerPair (snd (step op db)).
Proof.
  intros Hinv c s.
  destruct (enrollment_effect op db)
    as [[E _] | (cid & sid & now & rows' & E & Hrows & _)];
    cbv zeta in E; rewrite E; [apply Hinv|].
  destruct Hrows as [(e & sn & se & _ & ->) | (row & Hnone & Hc & Hs & _ & ->)].
  - rewrite update_first_filter_same; [apply Hinv | intros x; reflexivity].
  - rewrite filter_app, length_app; cbn [filter].
    unfold enrollmentOf at 2; rewrite Hc, Hs.
    destruct (Nat.eqb_spec cid c) as [->|Nc]; cbn [andb List.length];
      [|specialize (Hinv c s); lia].
    destruct (Nat.eqb_spec sid s) as [->|Ns]; cbn [List.length];
      [|specialize (Hinv c s); lia].
    rewrite (find_none_filter_nil _ _ Hnone); cbn; lia.
Qed.

Lemma perform_keeps_enrolled op db c s :
  enrolled c s db = true -> enrolled c s (snd (step op db)) = true.
Proof.
  unfold enrolled; rewrite !existsb_exists; intros (x & Hx & Hact).
  destruct (enrollment_effect op db)
    as [[E _] | (cid & sid & now & rows' & E & Hrows & _)];
    cbv zeta in E; rewrite E; [exists x; auto|].
  destruct Hrows as [(e & sn & se & _ & ->) | (row & _ & _ & _ & _ & ->)].
  - destruct (In_update_first_image (hasId classStudents (ClassStudent._id e))
                (reactivate now sn se) _ x Hx) as [H|H].
    + exists x; auto.
    + eexists; split; [exact H|].
      unfold activeEnrollmentOf, enrollmentOf in *; cbn.
      apply andb_prop in Hact as [-> _]; reflexivity.
  - exists x; split; [apply in_or_app; auto | exact Hact].
Qed.

Lemma perform_counts_in_sync op db :
  DistinctIds db -> CountsInSync db -> CountsInSync (snd (step op db)).
Proof.
  intros (_ & _ & NDc & NDe & _ & _) Hinv c Hc.
  unfold activeStudents.
  destruct (enrollment_effect op db)
    as [[E E'] | (cid & sid & now & rows' & E & Hrows & E')];
    cbv zeta in E, E'; rewrite E' in Hc; rewrite E.
  { apply Hinv, Hc. }
  apply (In_update_by_key ClassDoc._id _ cid) in Hc; [|exact NDc|reflexivity].
  destruct Hc as [(x & _ & Hk & ->) | [Hc Hk]].
  { cbn; rewrite Hk; reflexivity. }
  rewrite (Hinv c Hc); unfold activeStudents.
  destruct Hrows as [(e & sn & se & He & ->) | (row & _ & Hcid & _ & _ & ->)].
  - symmetry; apply update_first_filter_same_In; intros x Hx Hid.
    assert (x = e).
    { apply (same_key_same_doc ClassStudent._id _ x e NDe Hx);
        [apply (find_some _ _ He) | apply Nat.eqb_eq, Hid]. }
    subst x; apply find_some in He as [_ He].
    unfold enrollmentOf in He; apply andb_prop in He as [He _].
    apply Nat.eqb_eq in He.
    unfold activeStudentOf; cbn; rewrite He.
    destruct (Nat.eqb_spec cid (ClassDoc._id c)) as [K|_]; [congruence | reflexivity].
  - rewrite filter_app, length_app; cbn [filter].
    unfold activeStudentOf at 3; rewrite Hcid.
    destruct (Nat.eqb_spec cid (ClassDoc._id c)) as [K|_]; [congruence|].
    cbn; lia.
Qed.

(** X2: the class counter stays right along every run of the enrollment
    manager: from a database with distinct [_id]s in which every class
    document counts the active enrollment rows of its class, every run ends
    in such a database. *)
Theorem run_counts_in_sync :
  forall ops db,
    DistinctIds db -> CountsInSync db ->
    DistinctIds (runs ops db) /\ CountsInSync (runs ops db).
Proof. apply run_keeps, perform_counts_in_sync. Qed.

(** X3: the enrollment manager never makes a second enrollment row for a
    class and a student, and never takes an enrollment away: along every
    run, a database with at most one row per pair stays so, and a student
    with an active row in a class keeps one. *)
Theorem run_keeps_enrollments :
  forall ops db,
    (OneRowPerPair db -> OneRowPerPair (runs ops db)) /\
    (forall classId studentId,
       enrolled classId studentId db = true ->
       enrolled classId studentId (runs ops db) = true).
Proof.
  intros ops; induction ops as [|op ops IH]; intros db; [split; auto|].
  cbn [run fold_left]; split.
  - intros H; apply IH, perform_one_row_per_pair, H.
  - intros c s H; apply IH, perform_keeps_enrolled, H.
Qed.
End EnrollmentRuns.

(** ** Guards and failures of the class handlers *)

Section GuardFacts.
Variable generateUniqueCode : list ClassJoinCode.t -> string.
Variable joinCodeSchema :
  ClassJoinCode.t -> list ClassJoinCode.t -> option MongoError.
Variable classStudentSchema :
  ClassStudent.t -> list ClassStudent.t -> option MongoError.
Variable joinRequestSchema :
  ClassJoinRequest.t -> list ClassJoinRequest.t -> option MongoError.

(** X4: a teacher who does not own an active class under [classId] (the
    class is missing, inactive or another teacher's) can neither issue a
    join code for it, nor read its active code, nor approve or reject a
    request for it: each call answers 404 and leaves the database as it
    was. *)
Theorem not_the_owner_changes_nothing :
  forall classId teacherId userName now db,
    find (ownedClass classId teacherId) (classCollection db) = None ->
    generateJoinCode generateUniqueCode joinCodeSchema classId teacherId userName now db
      = (Err 404 "Class not found or access denied.", db) /\
    getActiveJoinCode classId teacherId now db
      = (Refused 404 "Class not found or access denied.", db) /\
    (forall requestId action,
       action = "approve" \/ action = "reject" ->
       resolveJoinRequest classStudentSchema classId requestId action teacherId now db
         = (Err 404 "Class not found or access denied.", db)).
Proof.
  intros classId teacherId userName now db Hnone; split; [|split].
  - rewrite generateJoinCode_eq, Hnone; reflexivity.
  - unfold getActiveJoinCode; run_handler; rewrite Hnone; reflexivity.
  - intros requestId action [-> | ->]; unfold resolveJoinRequest; run_handler;
      cbn [String.eqb Ascii.eqb Bool.eqb andb negb orb]; run_handler;
      rewrite Hnone; reflexivity.
Qed.

(** X5: a failed [generate-join-code] is a 404, which changes nothing, or a
    500 from [create], and then the codes of the class were already
    deactivated: the class is left without an active code. *)
Theorem failed_issue_leaves_no_active_code :
  forall classId teacherId userName now db status message db',
    generateJoinCode generateUniqueCode joinCodeSchema classId teacherId userName now db
      = (Err status message, db') ->
    (status = 404%nat /\ db' = db) \/
    (status = 500%nat /\
     classJoinCodeCollection db' = deactivated classId db /\
     activeCodes classId db' = []).
Proof.
  intros classId teacherId userName now db status message db'.
  rewrite generateJoinCode_eq.
  destruct (find _ (classCollection db)); [|intros [= <- _ <-]; left; auto].
  cbv zeta; destruct (joinCodeSchema _ _); [|discriminate].
  intros [= <- _ <-]; right; split; [reflexivity|]; split; [reflexivity|].
  unfold activeCodes; cbn; apply activeCodes_deactivated_same.
Qed.

(** X6: a refused join request leaves the database as it was, with one
    exception: when the student's request on record was rejected, it is
    deleted before the new one is created, so it is gone even if the schema
    then refuses the new document. *)
Theorem refused_submit_changes_little :
  forall joinCode studentId studentName now db status message db',
    submitJoinRequest joinRequestSchema joinCode studentId studentName now db
      = (Err status message, db') ->
    db' = db \/
    exists jc c r,
      joinCode = Some jc /\
      find (activeCode (toUpperCase jc)) (classJoinCodeCollection db) = Some c /\
      find (requestOf (ClassJoinCode.classId c) studentId)
        (classJoinRequestCollection db) = Some r /\
      ClassJoinRequest.status r = rejected /\
      db' = put joinRequests
              (remove_first (hasId joinRequests (ClassJoinRequest._id r))
                 (classJoinRequestCollection db)) db.
Proof.
  intros joinCode studentId studentName now db status message db'.
  unfold submitJoinRequest, createJoinRequest; case_handler;
    intros [= ? ? ?]; subst; auto;
    right; eexists _, _, _; repeat split; eassumption.
Qed.
End GuardFacts.

(** ** Resolving once, rejecting, and validating before submitting *)

Lemma find_none_after_update {A} (key : A -> nat) q f (l : list A) r :
  NoDup (map key l) -> find q l = Some r ->
  (forall x, q x = true -> key x = key r) ->
  q (f r) = false ->
  find q (update_first (fun x => (key x =? key r)%nat) f l) = None.
Proof.
  intros ND Hf Hk Hq; induction l as [|x rest IH]; simpl in *; [discriminate|].
  inversion ND as [|? ? Hnot ND']; subst.
  destruct (q x) eqn:E.
  - injection Hf as ->. rewrite Nat.eqb_refl; simpl; rewrite Hq.
    destruct (find q rest) as [y|] eqn:Hy; [|reflexivity].
    apply find_some in Hy as [Hin Hqy].
    exfalso; apply Hnot; rewrite <- (Hk _ Hqy); apply in_map, Hin.
  - destruct (Nat.eqb_spec (key x) (key r)) as [K|_].
    + exfalso; apply Hnot; rewrite K; apply in_map, (find_some _ _ Hf).
    + simpl; rewrite E; apply IH; assumption.
Qed.

Section ResolveOnce.
Variable classStudentSchema :
  ClassStudent.t -> list ClassStudent.t -> option MongoError.
Variable joinRequestSchema :
  ClassJoinRequest.t -> list ClassJoinRequest.t -> option MongoError.
Variables (classId requestId teacherId : ObjectId) (now : Date) (db : DB)
          (classDoc : ClassDoc.t) (r : ClassJoinRequest.t).
Hypothesis Hclass :
  find (ownedClass classId teacherId) (classCollection db) = Some classDoc.
Hypothesis Hreq :
  find (pendingRequest requestId classId) (classJoinRequestCollection db) = Some r.

Local Abbreviation resolve :=
  (resolveJoinRequest classStudentSchema classId requestId).
Local Abbreviation sid := (ClassJoinRequest.studentId r).

(** The request [r] once [reject(teacherId, reason)] has run at [now]. *)
Local Abbreviation rejectedBy :=
  (ClassJoinRequest.set_status rejected (Some now) (Some teacherId)
     (Some "Request rejected by teacher")).

Lemma reject_eq :
  resolve "reject" teacherId now db =
    (Ok (Some ("Join request from " ++ ClassJoinRequest.studentName r
               ++ " has been rejected."))
        (RequestRejected (ClassJoinRequest.studentName r)
           "Request rejected by teacher"),
     put joinRequests
       (update_first (hasId joinRequests (ClassJoinRequest._id r)) rejectedBy
          (classJoinRequestCollection db)) db).
Proof.
  unfold resolveJoinRequest; run_handler.
  cbn [String.eqb Ascii.eqb Bool.eqb andb negb orb]; run_handler.
  rewrite Hclass; run_handler; rewrite Hreq; reflexivity.
Qed.

Lemma no_longer_pending f :
  NoDup (map ClassJoinRequest._id (classJoinRequestCollection db)) ->
  ClassJoinRequest.status (f r) <> pending ->
  find (pendingRequest requestId classId)
    (update_first (hasId joinRequests (ClassJoinRequest._id r)) f
       (classJoinRequestCollection db)) = None.
Proof.
  intros ND Hf.
  apply (find_none_after_update ClassJoinRequest._id); [exact ND | exact Hreq | |].
  - intros x Hx; apply find_some in Hreq as [_ Hr].
    unfold pendingRequest in *.
    apply andb_prop in Hx as [Hx _]; apply andb_prop in Hx as [Hx _].
    apply andb_prop in Hr as [Hr _]; apply andb_prop in Hr as [Hr _].
    apply Nat.eqb_eq in Hx, Hr; congruence.
  - unfold pendingRequest.
    destruct (ClassJoinRequest.status (f r)); [congruence| |];
      cbn; apply andb_false_r.
Qed.

Lemma resolved_requests action :
  action = "approve" \/ action = "reject" ->
  (forall row, classStudentSchema row (classStudentCollection db) = None) ->
  exists f,
    ClassJoinRequest.status (f r) <> pending /\
    classJoinRequestCollection (snd (resolve action teacherId now db)) =
      update_first (hasId joinRequests (ClassJoinRequest._id r)) f
        (classJoinRequestCollection db).
Proof.
  intros [-> | ->] Hacc.
  - exists (approvedBy teacherId now); split; [discriminate|].
    destruct (find (enrollmentOf classId sid) (classStudentCollection db))
      as [e|] eqn:He.
    + destruct (ClassStudent.isActive e) eqn:Ha.
      * rewrite (approve_already_enrolled classStudentSchema classId requestId
                   teacherId now db classDoc r Hclass Hreq e He Ha); reflexivity.
      * rewrite (approve_reactivates classStudentSchema classId requestId
                   teacherId now db classDoc r Hclass Hreq e He Ha); reflexivity.
    + rewrite (approve_enrolls classStudentSchema classId requestId teacherId
                 now db classDoc r Hclass Hreq He (Hacc _)); reflexivity.
  - exists rejectedBy; split; [discriminate|].
    rewrite reject_eq; reflexivity.
Qed.

(** X7: a join request is resolved once.  After the owner's approve or
    reject found the pending request (request [_id]s distinct, and the
    schema taking a new enrollment row), the request is no longer pending,
    and any later approve or reject under its [_id], by whichever teacher
    and at whatever time, answers 404 and changes nothing. *)
Theorem resolved_only_once :
  forall action action' teacherId' now',
    action = "approve" \/ action = "reject" ->
    action' = "approve" \/ action' = "reject" ->
    NoDup (map ClassJoinRequest._id (classJoinRequestCollection db)) ->
    (forall row, classStudentSchema row (classStudentCollection db) = None) ->
    let db' := snd (resolve action teacherId now db) in
    find (pendingRequest requestId classId) (classJoinRequestCollection db') = None /\
    exists message,
      resolve action' teacherId' now' db' = (Err 404 message, db').
Proof.
  intros action action' teacherId' now' Ha Ha' ND Hacc db'.
  assert (Hgone : find (pendingRequest requestId classId)
                    (classJoinRequestCollection db') = None).
  { destruct (resolved_requests action Ha Hacc) as (f & Hf & E).
    subst db'; rewrite E; apply no_longer_pending; assumption. }
  split; [exact Hgone|].
  destruct Ha' as [-> | ->]; unfold resolveJoinRequest; run_handler;
    cbn [String.eqb Ascii.eqb Bool.eqb andb negb orb]; run_handler;
    (destruct (find _ (classCollection db')); run_handler;
     [rewrite Hgone|]; eexists; reflexivity).
Qed.

(** X8: rejecting a pending request marks it rejected, with the teacher and
    the fixed reason, and touches nothing but the request collection: no
    enrollment row, class counter or join code changes.  If the request was
    the student's request on record for the class and the student has no
    enrollment row there, a new join request with a usable code of the
    class then replaces the rejected request by a pending one. *)
Theorem reject_then_resubmit :
  forall jc studentName now2 student c,
    NoDup (map ClassJoinRequest._id (classJoinRequestCollection db)) ->
    let db1 := snd (resolve "reject" teacherId now db) in
    (classStudentCollection db1 = classStudentCollection db /\
     classCollection db1 = classCollection db /\
     classJoinCodeCollection db1 = classJoinCodeCollection db /\
     find (hasId joinRequests (ClassJoinRequest._id r))
       (classJoinRequestCollection db1) = Some (rejectedBy r)) /\
    (String.eqb jc "" = false ->
     find (hasId students sid) (studentCollection db) = Some student ->
     find (activeCode (toUpperCase jc)) (classJoinCodeCollection db) = Some c ->
     ClassJoinCode.classId c = classId ->
     isExpired c now2 = false -> canBeUsed c = true ->
     find (enrollmentOf classId sid) (classStudentCollection db) = None ->
     find (requestOf classId sid) (classJoinRequestCollection db) = Some r ->
     (forall d l, joinRequestSchema d l = None) ->
     exists new db2,
       submitJoinRequest joinRequestSchema (Some jc) sid studentName now2 db1
         = (requestSent new c, db2) /\
       ClassJoinRequest.status new = pending /\
       ClassJoinRequest.studentId new = sid /\
       ClassJoinRequest.classId new = classId /\
       In new (classJoinRequestCollection db2) /\
       ~ In (rejectedBy r) (classJoinRequestCollection db2)).
Proof.
  intros jc studentName now2 student c ND db1.
  assert (Hstored : find (hasId joinRequests (ClassJoinRequest._id r))
                      (classJoinRequestCollection db1) = Some (rejectedBy r)).
  { subst db1; rewrite reject_eq; cbn [snd put joinRequests classJoinRequestCollection].
    apply (find_by_id_after_update joinRequests _ _ _ _ ND Hreq); reflexivity. }
  split.
  { subst db1; rewrite reject_eq in *; repeat split; [exact Hstored]. }
  intros Hjc Hst Hcode Hcls Hlive Hroom Hnone Hfirst Hacc.
  assert (Hfirst1 : find (requestOf (ClassJoinCode.classId c) sid)
                      (classJoinRequestCollection db1) = Some (rejectedBy r)).
  { subst db1; rewrite reject_eq, Hcls.
    cbn [snd put joinRequests classJoinRequestCollection].
    apply (find_after_update ClassJoinRequest._id); [exact ND | exact Hfirst |].
    intros x; reflexivity. }
  assert (ND1 : NoDup (map ClassJoinRequest._id (classJoinRequestCollection db1))).
  { subst db1; rewrite reject_eq.
    cbn [snd put joinRequests classJoinRequestCollection].
    rewrite update_first_map; [exact ND | intros x; reflexivity]. }
  pose proof (submit_create joinRequestSchema jc sid studentName now2 db1 student c
                Hjc) as H.
  assert (Hdb1 : studentCollection db1 = studentCollection db
                 /\ classJoinCodeCollection db1 = classJoinCodeCollection db
                 /\ classStudentCollection db1 = classStudentCollection db)
    by (subst db1; rewrite reject_eq; repeat split).
  destruct Hdb1 as (E1 & E2 & E3).
  rewrite E1, E2, E3 in H; rewrite <- Hcls in Hnone.
  specialize (H Hst Hcode Hlive Hroom Hnone).
  specialize (H ltac:(intros x Hx; rewrite Hfirst1 in Hx; injection Hx as <-; discriminate)).
  cbv zeta in H; rewrite Hacc in H.
  eexists _, _; split; [exact H|].
  split; [reflexivity|]. split; [reflexivity|]. split; [exact Hcls|].
  cbn [put joinCodes joinRequests classJoinRequestCollection].
  split; [apply in_or_app; right; left; reflexivity|].
  unfold requestsBeforeCreate; rewrite Hfirst1;
    cbn [ClassJoinRequest.status ClassJoinRequest.set_status].
  rewrite in_app_iff; intros [Hin | [E | []]].
  - apply (remove_first_key ClassJoinRequest._id _ (rejectedBy r) ND1).
    apply in_map; exact Hin.
  - discriminate E.
Qed.
End ResolveOnce.

Section ValidateThenSubmit.
Variable joinRequestSchema :
  ClassJoinRequest.t -> list ClassJoinRequest.t -> option MongoError.

(** What a successful validation has checked. *)
Lemma validated code studentId now db message payload db' :
  validateJoinCode code studentId now db = (Ok message payload, db') ->
  db' = db /\
  exists c,
    find (activeCode (toUpperCase code)) (classJoinCodeCollection db) = Some c /\
    isExpired c now = false /\ canBeUsed c = true /\
    find (activeEnrollmentOf (ClassJoinCode.classId c) studentId)
      (classStudentCollection db) = None /\
    find (pendingRequestOf (ClassJoinCode.classId c) studentId)
      (classJoinRequestCollection db) = None.
Proof.
  unfold validateJoinCode; case_handler; intros [= ? ? ?]; subst.
  split; [reflexivity|]; eexists; split; [reflexivity|].
  match goal with H : negb _ = false |- _ => apply negb_false_iff in H end.
  repeat split; assumption.
Qed.

(** X9: a code that validates can be submitted.  If
    [GET /validate-join-code/:code] accepts the code for a student, it
    changed nothing, and [POST /join-request] with the same code at the same
    time succeeds for that student (the student's record exists and the
    schema takes a new request): the student rejoins or a request is
    filed. *)
Theorem validated_code_can_be_submitted :
  forall code studentId studentName now db message payload db' student,
    validateJoinCode code studentId now db = (Ok message payload, db') ->
    String.eqb code "" = false ->
    find (hasId students studentId) (studentCollection db) = Some student ->
    (forall d l, joinRequestSchema d l = None) ->
    db' = db /\
    exists message' payload' db'',
      submitJoinRequest joinRequestSchema (Some code) studentId studentName now db
        = (Ok message' payload', db'').
Proof.
  intros code studentId studentName now db message payload db' student
    Hval Hcode Hst Hacc.
  apply validated in Hval as (-> & c & Hc & Hlive & Hroom & Hnot & Hnop).
  split; [reflexivity|].
  destruct (find (enrollmentOf (ClassJoinCode.classId c) studentId)
              (classStudentCollection db)) as [e|] eqn:He.
  - assert (Ha : ClassStudent.isActive e = false).
    { destruct (ClassStudent.isActive e) eqn:Ha; [|reflexivity].
      pose proof (find_some _ _ He) as [Hin Hof].
      pose proof (find_none _ _ Hnot _ Hin) as Hf.
      unfold activeEnrollmentOf in Hf; rewrite Hof, Ha in Hf; discriminate. }
    destruct (submit_rejoin joinRequestSchema code studentId studentName now db
                student c Hcode Hst Hc Hlive Hroom e He Ha) as (db'' & Hrun & _).
    eexists _, _, _; exact Hrun.
  - pose proof (submit_create joinRequestSchema code studentId studentName now db
                  student c Hcode Hst Hc Hlive Hroom He) as H.
    cbv zeta in H; rewrite Hacc in H.
    eexists _, _, _; apply H.
    intros r Hr Hp; pose proof (find_some _ _ Hr) as [Hin Hof].
    pose proof (find_none _ _ Hnop _ Hin) as Hf.
    unfold pendingRequestOf in Hf; rewrite Hof, Hp in Hf; discriminate.
Qed.
End ValidateThenSubmit.

(** ** Reading a class and its active code *)

Lemma find_all_false {A} (q : A -> bool) (l : list A) :
  (forall x, In x l -> q x = false) -> find q l = None.
Proof.
  induction l as [|x r IH]; simpl; intros H; [reflexivity|].
  rewrite (H x (or_introl eq_refl)); apply IH; intros y Hy; apply H; right; exact Hy.
Qed.

Lemma find_app_none {A} (q : A -> bool) (l : list A) d :
  find q l = None -> q d = false -> find q (l ++ [d]) = None.
Proof.
  intros Hl Hd; apply find_all_false; intros x Hx.
  apply in_app_or in Hx as [Hx|[<-|[]]]; [exact (find_none _ _ Hl _ Hx) | exact Hd].
Qed.

Lemma existsb_find {A} (q : A -> bool) (l : list A) :
  existsb q l = true <-> find q l <> None.
Proof.
  induction l as [|x r IH]; simpl; [split; [discriminate | congruence]|].
  destruct (q x); simpl; [split; [discriminate | reflexivity] | exact IH].
Qed.

Section ActiveCodeFacts.
Variable generateUniqueCode : list ClassJoinCode.t -> string.
Variable joinCodeSchema :
  ClassJoinCode.t -> list ClassJoinCode.t -> option MongoError.

Lemma no_live_code_among_deactivated classId now db :
  find (liveCodeOf classId now) (deactivated classId db) = None.
Proof.
  apply find_all_false; intros x Hx; unfold liveCodeOf.
  destruct (activeCodeOf classId x) eqn:E; [|reflexivity].
  assert (Hin : In x (filter (activeCodeOf classId) (deactivated classId db)))
    by (apply filter_In; auto).
  rewrite activeCodes_deactivated_same in Hin; contradiction.
Qed.

(** X10: the code just issued is the class's active code until it expires.
    After a successful [generate-join-code] at [T],
    [GET /:classId/active-join-code] of the same teacher answers with that
    code, unused and with the cap of 50, at every time before [T] plus ten
    minutes, and with "no active code" from then on; it never changes the
    database. *)
Theorem issued_code_is_the_active_code :
  forall classId teacherId userName T db message joinCode expiresAt minutes
         className classSubject usageCount maxUsage db1 now,
    generateJoinCode generateUniqueCode joinCodeSchema classId teacherId
      userName T db =
      (Ok message (GeneratedCode joinCode expiresAt minutes className
                     classSubject usageCount maxUsage), db1) ->
    (now < T + 10 * 60 * 1000 ->
     getActiveJoinCode classId teacherId now db1 =
       (Sent None
          (ActiveCode joinCode (T + 10 * 60 * 1000) 0 50
             (Z.max 0 ((T + 10 * 60 * 1000 - now) / 1000))), db1)) /\
    (T + 10 * 60 * 1000 <= now ->
     getActiveJoinCode classId teacherId now db1 =
       (Sent (Some "No active join code found.") NoActiveCode, db1)).
Proof.
  intros classId teacherId userName T db message joinCode expiresAt minutes
    className classSubject usageCount maxUsage db1 now.
  rewrite generateJoinCode_eq.
  destruct (find _ (classCollection db)) as [classDoc|] eqn:Hclass; [|discriminate].
  cbv zeta; destruct (joinCodeSchema _ _); [discriminate|].
  intros [= _ Hcode _ _ _ _ _ _ <-].
  pose proof (no_live_code_among_deactivated classId now db) as Hnone.
  split; intros Hnow; unfold getActiveJoinCode; run_handler; rewrite Hclass; run_handler.
  - rewrite (find_app_new _ _ _ Hnone).
    + rewrite <- Hcode; reflexivity.
    + unfold liveCodeOf; rewrite activeCodeOf_issuedCode, Nat.eqb_refl.
      apply Z.ltb_lt; exact Hnow.
  - rewrite (find_app_none _ _ _ Hnone); [reflexivity|].
    unfold liveCodeOf; rewrite activeCodeOf_issuedCode, Nat.eqb_refl.
    apply Z.ltb_ge; exact Hnow.
Qed.
End ActiveCodeFacts.

Section ClassAccess.
Variable classStudentSchema :
  ClassStudent.t -> list ClassStudent.t -> option MongoError.

(** X11: who may read a class.  [GET /:classId] never changes the database
    and answers 404 unless an active class has that [_id].  For one that
    has, a teacher gets the class exactly when it is theirs, a student
    exactly when they have an active enrollment row in it, and a session of
    any other type gets it without a check. *)
Theorem class_access :
  forall classId userId userType db,
    snd (getClass classId userId userType db) = db /\
    (find (activeClass classId) (classCollection db) = None ->
     fst (getClass classId userId userType db) = Refused 404 "Class not found.") /\
    (forall classDoc,
       find (activeClass classId) (classCollection db) = Some classDoc ->
       let granted :=
         Sent None (mkClassView (ClassDoc._id classDoc) (ClassDoc.name classDoc)
                      (ClassDoc.subject classDoc) (ClassDoc.studentCount classDoc)) in
       (userType = "teacher" ->
        fst (getClass classId userId userType db) =
          if (ClassDoc.teacherId classDoc =? userId)%nat then granted
          else Refused 403 "Access denied. You do not own this class.") /\
       (userType = "student" ->
        fst (getClass classId userId userType db) =
          if enrolled classId userId db then granted
          else Refused 403 "Access denied. You are not enrolled in this class.") /\
       (userType <> "teacher" -> userType <> "student" ->
        fst (getClass classId userId userType db) = granted)).
Proof.
  intros classId userId userType db; split; [|split].
  - unfold getClass; case_handler; reflexivity.
  - intros Hnone; unfold getClass; run_handler; rewrite Hnone; reflexivity.
  - intros classDoc Hclass granted; split; [|split].
    + intros ->; unfold getClass; run_handler; rewrite Hclass; run_handler.
      cbn [String.eqb Ascii.eqb Bool.eqb andb].
      destruct (ClassDoc.teacherId classDoc =? userId)%nat; reflexivity.
    + intros ->; unfold getClass; run_handler; rewrite Hclass; run_handler.
      cbn [String.eqb Ascii.eqb Bool.eqb andb]; run_handler.
      unfold enrolled.
      destruct (find _ (classStudentCollection db)) as [e|] eqn:He.
      * replace (existsb _ _) with true; [reflexivity|].
        symmetry; apply existsb_find; congruence.
      * replace (existsb _ _) with false; [reflexivity|].
        symmetry; apply not_true_is_false; intros H.
        apply existsb_find in H; contradiction.
    + intros Ht Hs; unfold getClass; run_handler; rewrite Hclass; run_handler.
      apply String.eqb_neq in Ht, Hs; rewrite Ht, Hs; reflexivity.
Qed.

(** X12: an approved student can open the class.  After the owner approved
    the pending request of a student whose enrollment row was missing or
    inactive, [GET /:classId] of that student answers with the class, and
    the student count it shows is the number of active enrollment rows of
    the class. *)
Theorem approved_student_can_open_class :
  forall classId requestId teacherId now db classDoc r,
    find (ownedClass classId teacherId) (classCollection db) = Some classDoc ->
    find (pendingRequest requestId classId) (classJoinRequestCollection db) = Some r ->
    (forall e, find (enrollmentOf classId (ClassJoinRequest.studentId r))
                 (classStudentCollection db) = Some e ->
               ClassStudent.isActive e = false) ->
    NoDup (map ClassDoc._id (classCollection db)) ->
    NoDup (map ClassStudent._id (classStudentCollection db)) ->
    (forall row, classStudentSchema row (classStudentCollection db) = None) ->
    let db' := snd (resolveJoinRequest classStudentSchema classId requestId
                      "approve" teacherId now db) in
    getClass classId (ClassJoinRequest.studentId r) "student" db' =
      (Sent None (mkClassView classId (ClassDoc.name classDoc)
                    (ClassDoc.subject classDoc) (activeStudents classId db')), db') /\
    (1 <= activeStudents classId db')%nat.
Proof.
  intros classId requestId teacherId now db classDoc r Hclass Hreq Hinactive
    NDc NDe Hacc db'.
  pose proof (ownedClass_id classId teacherId db classDoc Hclass) as Hid.
  assert (Hactive : ClassDoc.isActive classDoc = true).
  { apply find_some in Hclass as [_ H]; unfold ownedClass in H.
    apply andb_prop in H as [_ H]; exact H. }
  set (sid := ClassJoinRequest.studentId r) in *.
  assert (Hshape : exists rows',
    classStudentCollection db' = rows' /\
    find (activeEnrollmentOf classId sid) rows' <> None /\
    classCollection db' =
      update_first (hasId classes classId)
        (set_studentCount (List.length (filter (activeStudentOf classId) rows')) now)
        (classCollection db)).
  { subst db'.
    destruct (find (enrollmentOf classId sid) (classStudentCollection db))
      as [e|] eqn:He.
    - pose proof (Hinactive e eq_refl) as Ha.
      rewrite (approve_reactivates classStudentSchema classId requestId
                 teacherId now db classDoc r Hclass Hreq e He Ha).
      eexists; split; [reflexivity|]; split; [|reflexivity].
      assert (Hnew := find_by_id_after_update classStudents _ _ _
                (reactivate now (ClassJoinRequest.studentName r)
                   (ClassJoinRequest.studentEnrollment r)) NDe He eq_refl).
      apply find_some in Hnew as [Hin' _]; apply (find_In_some _ _ _ Hin').
      apply find_some in He as [_ Hof].
      unfold activeEnrollmentOf, enrollmentOf in *; cbn; rewrite Hof; reflexivity.
    - rewrite (approve_enrolls classStudentSchema classId requestId teacherId
                 now db classDoc r Hclass Hreq He (Hacc _)).
      eexists; split; [reflexivity|]; split; [|reflexivity].
      eapply find_In_some; [apply in_or_app; right; left; reflexivity|].
      unfold activeEnrollmentOf, enrollmentOf; cbn; rewrite !Nat.eqb_refl; reflexivity. }
  destruct Hshape as (rows' & Hrows & Henrolled & Hclasses).
  assert (Hfound : find (activeClass classId) (classCollection db') =
                   Some (set_studentCount (activeStudents classId db') now classDoc)).
  { rewrite Hclasses; unfold activeStudents; rewrite Hrows.
    assert (Hbyid : find (hasId classes classId) (classCollection db) = Some classDoc).
    { rewrite <- Hid; apply (find_key_In ClassDoc._id);
        [exact NDc | apply (find_some _ _ Hclass)]. }
    clear - Hbyid Hactive Hid NDc.
    induction (classCollection db) as [|x l IH]; cbn in *; [discriminate|].
    inversion NDc as [|? ? Hnot ND']; subst.
    unfold hasId in Hbyid |- *; cbn in Hbyid |- *.
    destruct (Nat.eqb_spec (ClassDoc._id x) (ClassDoc._id classDoc)) as [E|N].
    - injection Hbyid as ->; cbn.
      unfold activeClass; cbn; rewrite Nat.eqb_refl, Hactive; reflexivity.
    - cbn; unfold activeClass at 1.
      destruct (Nat.eqb_spec (ClassDoc._id x) (ClassDoc._id classDoc)); [contradiction|].
      cbn; apply IH; assumption. }
  split.
  - unfold getClass; run_handler; rewrite Hfound; run_handler.
    cbn [String.eqb Ascii.eqb Bool.eqb andb]; run_handler.
    rewrite Hrows.
    destruct (find (activeEnrollmentOf classId sid) rows'); [|contradiction].
    cbn; rewrite Hid; reflexivity.
  - unfold activeStudents; rewrite Hrows.
    destruct (find (activeEnrollmentOf classId sid) rows') as [e|] eqn:He;
      [|contradiction].
    apply find_some in He as [Hin Hact].
    assert (Hin' : In e (filter (activeStudentOf classId) rows')).
    { apply filter_In; split; [exact Hin|].
      unfold activeEnrollmentOf, enrollmentOf, activeStudentOf in *.
      apply andb_prop in Hact as [H1 ->]; apply andb_prop in H1 as [-> _]; reflexivity. }
    destruct (filter _ rows'); [contradiction | cbn; lia].
Qed.
End ClassAccess.

(** ** Creating a class *)

Section CreateClassFacts.
Variable classSchema : ClassDoc.t -> list ClassDoc.t -> option MongoError.
Variable defaultUpdatedAt : Date -> Date.

(** The handler when the schema makes a new class active. *)
Local Abbreviation create_class := (createClass classSchema true defaultUpdatedAt).

Lemma createClass_eq name subject teacherId now db :
  String.eqb name "" = false -> String.eqb subject "" = false ->
  find (activeClassNamed teacherId (trim name)) (classCollection db) = None ->
  let newClass :=
    ClassDoc.mk (newObjectId (map ClassDoc._id (classCollection db)))
      (trim name) (trim subject) teacherId true 0 (defaultUpdatedAt now) in
  classSchema newClass (classCollection db) = None ->
  create_class (Some name) (Some subject) teacherId now db =
    (Sent (Some "Class created successfully!")
       (mkClassView (ClassDoc._id newClass) (trim name) (trim subject) 0),
     put classes (classCollection db ++ [newClass]) db).
Proof.
  intros Hn Hs Hnew newClass Hacc; unfold createClass; run_handler.
  rewrite Hn, Hs; cbn [orb]; run_handler; rewrite Hnew; run_handler.
  fold newClass; rewrite Hacc; reflexivity.
Qed.

(** X13: creating a class.  A call without a name or a subject, or with a
    name the teacher already uses for an active class (after trimming), is
    refused with 400 and changes nothing.  Otherwise, when the schema takes
    the document and makes it active, the class is appended with no
    student; it is then the teacher's and nobody else's, and the teacher's
    next call with a name that trims to the same text is refused, whatever
    the subject. *)
Theorem create_class_once_per_name :
  forall name subject teacherId now db,
    (forall absent,
       absent = None \/ absent = Some "" ->
       create_class absent subject teacherId now db
         = (Refused 400 "Class name and subject are required.", db) /\
       create_class name absent teacherId now db
         = (Refused 400 "Class name and subject are required.", db)) /\
    (forall name' subject' existing,
       String.eqb name' "" = false -> String.eqb subject' "" = false ->
       find (activeClassNamed teacherId (trim name')) (classCollection db) = Some existing ->
       create_class (Some name') (Some subject') teacherId now db
         = (Refused 400 "You already have a class with this name.", db)) /\
    (forall name' subject',
       String.eqb name' "" = false -> String.eqb subject' "" = false ->
       find (activeClassNamed teacherId (trim name')) (classCollection db) = None ->
       (forall d l, classSchema d l = None) ->
       exists view db',
         create_class (Some name') (Some subject') teacherId now db
           = (Sent (Some "Class created successfully!") view, db') /\
         view_name view = trim name' /\ view_studentCount view = 0%nat /\
         (exists newClass,
            classCollection db' = (classCollection db ++ [newClass])%list /\
            find (ownedClass (view_id view) teacherId) (classCollection db')
              = Some newClass) /\
         (forall other, other <> teacherId ->
            find (ownedClass (view_id view) other) (classCollection db') = None) /\
         (forall name2 subject2 now2,
            String.eqb name2 "" = false -> String.eqb subject2 "" = false ->
            trim name2 = trim name' ->
            create_class (Some name2) (Some subject2) teacherId now2 db'
              = (Refused 400 "You already have a class with this name.", db'))).
Proof.
  intros name subject teacherId now db; split; [|split].
  - intros absent [-> | ->]; split; unfold createClass; run_handler.
    + reflexivity.
    + destruct name as [n|]; reflexivity.
    + destruct subject as [s|]; reflexivity.
    + destruct name as [n|]; [|reflexivity].
      cbn [String.eqb]; rewrite orb_true_r; reflexivity.
  - intros name' subject' existing Hn Hs Hdup; unfold createClass; run_handler.
    rewrite Hn, Hs; cbn [orb]; run_handler; rewrite Hdup; reflexivity.
  - intros name' subject' Hn Hs Hnew Hacc.
    pose proof (createClass_eq name' subject' teacherId now db Hn Hs Hnew (Hacc _ _)) as Hrun.
    cbv zeta in Hrun.
    set (newClass := ClassDoc.mk _ _ _ _ _ _ _) in Hrun.
    assert (Hfresh : forall t, find (ownedClass (ClassDoc._id newClass) t)
                                 (classCollection db) = None).
    { intros t; apply find_all_false; intros x Hx; unfold ownedClass.
      destruct (Nat.eqb_spec (ClassDoc._id x) (ClassDoc._id newClass)) as [E|_];
        [|reflexivity].
      exfalso; apply (newObjectId_fresh (map ClassDoc._id (classCollection db))).
      unfold newClass in E; cbn in E; rewrite <- E; apply in_map, Hx. }
    eexists _, _; split; [exact Hrun|].
    split; [reflexivity|]. split; [reflexivity|].
    cbn [view_id put classes classCollection]; split; [|split].
    + exists newClass; split; [reflexivity|].
      apply find_app_new; [apply Hfresh|].
      unfold ownedClass; cbn; rewrite !Nat.eqb_refl; reflexivity.
    + intros other Hother; apply find_app_none; [apply Hfresh|].
      unfold ownedClass; cbn.
      destruct (Nat.eqb_spec teacherId other) as [E|_]; [congruence|].
      rewrite andb_false_r; reflexivity.
    + intros name2 subject2 now2 Hn2 Hs2 Hsame; unfold createClass; run_handler.
      rewrite Hn2, Hs2; cbn [orb]; run_handler.
      rewrite Hsame, (find_app_new _ _ newClass Hnew); [reflexivity|].
      unfold activeClassNamed; cbn.
      rewrite Nat.eqb_refl, String.eqb_refl; reflexivity.
Qed.
End CreateClassFacts.

(** ** Signing up and logging in *)

Lemma find_app_found {A} (q : A -> bool) (l m : list A) x :
  find q l = Some x -> find q (l ++ m) = Some x.
Proof.
  induction l as [|y r IH]; simpl; [discriminate|].
  destruct (q y); [auto | exact IH].
Qed.

Section AccountFacts.
Variable encodeURIComponent : string -> string.
Variable studentSchema : Student.t -> list Student.t -> option MongoError.
Variable teacherSchema : Teacher.t -> list Teacher.t -> option MongoError.

Local Abbreviation sign_up := (signup encodeURIComponent studentSchema teacherSchema).
Local Abbreviation log_in := (login encodeURIComponent).

Lemma findLoginUser_reads userType email enrollment db :
  exists u, findLoginUser userType email enrollment db = (inr u, db).
Proof.
  unfold findLoginUser; destruct (String.eqb userType "teacher"); run_handler.
  - eexists; reflexivity.
  - destruct enrollment; run_handler; eexists; reflexivity.
Qed.

(** X14: logging in never writes to the database; when the lookup finds no
    account the login page is rendered again and no session is started; and
    a student login with an empty enrollment number finds no account,
    whatever is stored. *)
Theorem login_reads_only :
  forall password userType email enrollment saveFails db,
    snd (log_in password userType email enrollment saveFails db) = db /\
    (findLoginUser userType email enrollment db = (inr None, db) ->
     snd (fst (log_in password userType email enrollment saveFails db)) = None /\
     exists locals,
       fst (fst (log_in password userType email enrollment saveFails db))
         = Render "login" locals) /\
    (String.eqb userType "teacher" = false -> enrollment = "" ->
     findLoginUser userType email enrollment db = (inr None, db)).
Proof.
  intros password userType email enrollment saveFails db; split; [|split].
  - destruct (findLoginUser_reads userType email enrollment db) as (u & Hu).
    unfold login; run_handler; rewrite Hu; run_handler.
    destruct u as [u|]; [|reflexivity].
    destruct (String.eqb (user_password u) password); [|reflexivity].
    unfold startSession; destruct saveFails; reflexivity.
  - intros Hu; unfold login; run_handler; rewrite Hu; run_handler.
    split; [reflexivity | eexists; reflexivity].
  - intros Hty ->; unfold findLoginUser; rewrite Hty; reflexivity.
Qed.

(** X15: signing up under an e-mail address (teacher) or an enrollment
    number (student, compared in upper case) that the lookup finds stored
    creates nothing and starts no session: the signup page is rendered
    again and the database is as it was. *)
Theorem signup_refuses_known_account :
  forall userType name email enrollment password saveFails db,
    (forall t,
       userType = "teacher" ->
       find (fun t => String.eqb (Teacher.email t) email) (teacherCollection db) = Some t ->
       exists locals,
         sign_up userType name email enrollment password saveFails db
           = ((Render "signup" locals, None), db)) /\
    (forall s,
       String.eqb userType "teacher" = false ->
       find (fun s => String.eqb (Student.enrollment s) (toUpperCase enrollment))
         (studentCollection db) = Some s ->
       exists locals,
         sign_up userType name email enrollment password saveFails db
           = ((Render "signup" locals, None), db)).
Proof.
  intros userType name email enrollment password saveFails db; split.
  - intros t -> Ht; unfold signup; run_handler.
    rewrite String.eqb_refl; run_handler; rewrite Ht; eexists; reflexivity.
  - intros s Hty Hs; unfold signup; run_handler.
    rewrite Hty; run_handler; rewrite Hs; eexists; reflexivity.
Qed.

Lemma signup_student_eq userType name email enrollment password db :
  String.eqb userType "teacher" = false ->
  find (fun s => String.eqb (Student.enrollment s) (toUpperCase enrollment))
    (studentCollection db) = None ->
  (forall d l, studentSchema d l = None) ->
  exists s,
    Student.password s = password /\
    Student.enrollment s = toUpperCase enrollment /\
    forall saveFails,
      snd (sign_up userType name email enrollment password saveFails db)
        = put students (studentCollection db ++ [s]) db.
Proof.
  intros Hty Hnew Hacc; eexists; split; [|split]; cycle 2.
  - intros saveFails; unfold signup; run_handler.
    rewrite Hty; run_handler; rewrite Hnew; run_handler.
    rewrite Hacc; run_handler.
    match goal with |- context [find ?q ?l] => destruct (find q l) end; reflexivity.
  - reflexivity.
  - reflexivity.
Qed.

Lemma signup_teacher_eq name email enrollment password db :
  find (fun t => String.eqb (Teacher.email t) email) (teacherCollection db) = None ->
  (forall d l, teacherSchema d l = None) ->
  exists t,
    Teacher.password t = password /\
    Teacher.email t = trim (toLowerCase email) /\
    Teacher.name t = trim name /\
    forall saveFails,
      snd (sign_up "teacher" name email enrollment password saveFails db)
        = put teachers (teacherCollection db ++ [t]) db.
Proof.
  intros Hnew Hacc; eexists; split; [|split; [|split]]; cycle 3.
  - intros saveFails; unfold signup; run_handler.
    rewrite String.eqb_refl; run_handler; rewrite Hnew; run_handler.
    rewrite Hacc; run_handler.
    match goal with |- context [find ?q ?l] => destruct (find q l) end; reflexivity.
  - reflexivity.
  - reflexivity.
  - reflexivity.
Qed.

(** X16: who signs up can log in.  After a signup that created the account
    (no stored student has the enrollment number in upper case, or no
    stored teacher has the e-mail address as typed or in its stored form;
    the schema takes the document), a login with the same enrollment number
    or e-mail address starts a session for that account when the password
    is the one submitted at signup, and none with any other password. *)
Theorem signup_then_login :
  forall name email enrollment password db,
    (forall d l, studentSchema d l = None) ->
    (forall d l, teacherSchema d l = None) ->
    (forall userType,
       String.eqb userType "teacher" = false -> enrollment <> "" ->
       find (fun s => String.eqb (Student.enrollment s) (toUpperCase enrollment))
         (studentCollection db) = None ->
       forall saveFails attempt email' saveFails',
         let db' := snd (sign_up userType name email enrollment password saveFails db) in
         exists s,
           In s (studentCollection db') /\ Student.password s = password /\
           snd (fst (log_in attempt userType email' enrollment saveFails' db')) =
             if String.eqb password attempt
             then Some (mkSession (Student._id s) (Student.name s) userType)
             else None) /\
    (find (fun t => String.eqb (Teacher.email t) email) (teacherCollection db) = None ->
     find (fun t => String.eqb (Teacher.email t) (trim (toLowerCase email)))
       (teacherCollection db) = None ->
     forall saveFails attempt enrollment' saveFails',
       let db' := snd (sign_up "teacher" name email enrollment password saveFails db) in
       exists t,
         In t (teacherCollection db') /\ Teacher.password t = password /\
         snd (fst (log_in attempt "teacher" email enrollment' saveFails' db')) =
           if String.eqb password attempt
           then Some (mkSession (Teacher._id t) (Teacher.name t) "teacher")
           else None).
Proof.
  intros name email enrollment password db HaccS HaccT; split.
  - intros userType Hty Hne Hnew saveFails attempt email' saveFails' db'.
    destruct (signup_student_eq userType name email enrollment password db Hty Hnew HaccS)
      as (s & Hpw & Hen & Hdb).
    subst db'; rewrite Hdb.
    exists s; split; [cbn; apply in_or_app; right; left; reflexivity|].
    split; [exact Hpw|].
    unfold login, findLoginUser; run_handler; rewrite Hty.
    destruct enrollment as [|a r]; [congruence|]; run_handler.
    rewrite (find_app_new _ _ s Hnew)
      by (rewrite Hen; apply String.eqb_refl).
    cbn [option_map user_password]; rewrite Hpw.
    destruct (String.eqb password attempt); [|reflexivity].
    unfold startSession; destruct saveFails'; reflexivity.
  - intros Hraw Hnorm saveFails attempt enrollment' saveFails' db'.
    destruct (signup_teacher_eq name email enrollment password db Hraw HaccT)
      as (t & Hpw & Hem & _ & Hdb).
    subst db'; rewrite Hdb.
    exists t; split; [cbn; apply in_or_app; right; left; reflexivity|].
    split; [exact Hpw|].
    unfold login, findLoginUser; run_handler.
    cbn [String.eqb Ascii.eqb Bool.eqb andb]; run_handler.
    rewrite (find_app_new _ _ t Hnorm)
      by (rewrite Hem; apply String.eqb_refl).
    cbn [option_map user_password]; rewrite Hpw.
    destruct (String.eqb password attempt); [|reflexivity].
    unfold startSession; destruct saveFails'; reflexivity.
Qed.

(** X17: the teacher signup looks for the e-mail address as typed but stores
    it trimmed and in lower case, and then reads the account back by the
    stored form.  So when an account is stored under the address in its
    stored form while none has it as typed (it was typed with a capital
    letter or a blank), and the schema takes the document, the signup
    appends a second account under that address and the session it starts
    is the one of the account that was there before. *)
Theorem signup_with_retyped_email :
  forall name email enrollment password saveFails db old,
    find (fun t => String.eqb (Teacher.email t) email) (teacherCollection db) = None ->
    find (fun t => String.eqb (Teacher.email t) (trim (toLowerCase email)))
      (teacherCollection db) = Some old ->
    (forall d l, teacherSchema d l = None) ->
    let result := sign_up "teacher" name email enrollment password saveFails db in
    snd (fst result) = Some (mkSession (Teacher._id old) (Teacher.name old) "teacher") /\
    exists t,
      teacherCollection (snd result) = (teacherCollection db ++ [t])%list /\
      Teacher.email t = Teacher.email old /\
      Teacher.password t = password.
Proof.
  intros name email enrollment password saveFails db old Hraw Hnorm Hacc result.
  subst result; unfold signup; run_handler.
  rewrite String.eqb_refl; run_handler; rewrite Hraw; run_handler.
  rewrite Hacc; run_handler.
  rewrite (find_app_found _ _ _ _ Hnorm); run_handler.
  split; [unfold startSession; destruct saveFails; reflexivity|].
  eexists; split; [reflexivity|]; split; [|reflexivity].
  apply find_some in Hnorm as [_ H]; apply String.eqb_eq in H.
  cbn; symmetry; exact H.
Qed.
End AccountFacts.

(** ** Resetting a password *)

Lemma find_updated_only_holder {A} (key : A -> nat) q (l : list A) s d :
  NoDup (map key l) -> In s l ->
  (forall x, In x l -> q x = true -> key x = key s) ->
  find q (update_first (fun x => (key x =? key s)%nat) (fun _ => d) l) =
    if q d then Some d else None.
Proof.
  intros ND Hs Hq; induction l as [|x r IH]; simpl in *; [contradiction|].
  inversion ND as [|? ? Hnot ND']; subst.
  destruct (Nat.eqb_spec (key x) (key s)) as [E|N]; simpl.
  - destruct (q d); [reflexivity|].
    apply find_all_false; intros y Hy.
    destruct (q y) eqn:Qy; [|reflexivity].
    exfalso; apply Hnot; rewrite E, <- (Hq y (or_intror Hy) Qy); apply in_map, Hy.
  - destruct Hs as [->|Hs]; [congruence|].
    destruct (q x) eqn:Qx; [exfalso; apply N, Hq; auto|].
    apply IH; auto.
Qed.

Lemma find_after_update_at {A} (key : A -> nat) q f (l : list A) c :
  NoDup (map key l) -> find q l = Some c -> q (f c) = true ->
  find q (update_first (fun x => (key x =? key c)%nat) f l) = Some (f c).
Proof.
  intros ND Hf Hq; induction l as [|x r IH]; simpl in *; [discriminate|].
  inversion ND as [|? ? Hnot ND']; subst.
  destruct (q x) eqn:E.
  - injection Hf as ->. rewrite Nat.eqb_refl; simpl; rewrite Hq; reflexivity.
  - destruct (Nat.eqb_spec (key x) (key c)) as [K|_].
    + exfalso; apply Hnot; rewrite K; apply in_map, (find_some _ _ Hf).
    + simpl; rewrite E; apply IH; assumption.
Qed.

(** A string has at most as many UTF-16 code units as UTF-8 bytes. *)
Lemma JS_length_le s : (JS.length s <= String.length s)%nat.
Proof.
  enough (H : (JS.length s <= String.length s)%nat /\
              forall c, (JS.length (String c s) <= S (String.length s))%nat)
    by apply H.
  induction s as [|c' r' [IHa IHb]].
  - split; [apply le_n|].
    intros c; cbn [JS.length String.length].
    destruct (JS.continues c); [lia|]; destruct (JS.startsPair c); lia.
  - split; [apply IHb|].
    intros c; specialize (IHb c').
    cbn [JS.length String.length] in IHb |- *.
    destruct (JS.continues c); [lia|].
    destruct (JS.startsPair c); [|lia].
    destruct (JS.continues c'); lia.
Qed.

Section ResetFacts.
Variable encodeURIComponent : string -> string.

Local Abbreviation log_in := (login encodeURIComponent).

Lemma findByResetToken_reads token now db :
  exists u, findByResetToken token now db = (inr u, db).
Proof.
  unfold findByResetToken; run_handler.
  destruct (find _ (studentCollection db)); run_handler; eexists; reflexivity.
Qed.

(** X18: a password reset that fails changes nothing.  When no account has
    the token with an expiry still ahead, when the two passwords differ, or
    when the password has fewer than 6 characters (the UTF-16 code units
    that [newPassword.length] counts, so in particular when it has fewer
    than 6 bytes), the reset page is rendered as a failure and the database
    is as it was. *)
Theorem failed_reset_changes_nothing :
  forall token newPassword confirmNewPassword now db,
    findByResetToken token now db = (inr None, db) \/
    newPassword <> confirmNewPassword \/
    (JS.length newPassword < 6)%nat \/
    (String.length newPassword < 6)%nat ->
    exists locals,
      resetPassword token newPassword confirmNewPassword now db
        = (Render "resetPassword" (("success", LBool false) :: locals), db).
Proof.
  intros token newPassword confirmNewPassword now db H.
  destruct (findByResetToken_reads token now db) as (u & Hu).
  unfold resetPassword; run_handler; rewrite Hu; run_handler.
  destruct u as [u|]; [|eexists; reflexivity].
  destruct (String.eqb_spec newPassword confirmNewPassword) as [E|N];
    cbn [negb]; [|eexists; reflexivity].
  destruct (Nat.ltb_spec (JS.length newPassword) 6) as [L|L];
    [eexists; reflexivity|].
  pose proof (JS_length_le newPassword).
  exfalso; destruct H as [H | [H | [H | H]]];
    [rewrite Hu in H; discriminate | auto | lia | lia].
Qed.

(** The account [u] with its password set and its reset token cleared. *)
Local Abbreviation renewed newPassword u :=
  (match u with
   | AStudent s =>
       AStudent (Student.mk (Student._id s) (Student.name s) (Student.firstName s)
                   (Student.lastName s) (Student.enrollment s) (Student.email s)
                   newPassword None None)
   | ATeacher t =>
       ATeacher (Teacher.mk (Teacher._id t) (Teacher.name t) (Teacher.firstName t)
                   (Teacher.lastName t) (Teacher.email t) newPassword None None)
   end).

Lemma reset_eq token newPassword now db u :
  findByResetToken token now db = (inr (Some u), db) ->
  (6 <= JS.length newPassword)%nat ->
  snd (resetPassword token newPassword newPassword now db) =
    match u with
    | AStudent s =>
        put students
          (update_first (hasId students (Student._id s))
             (fun _ => Student.mk (Student._id s) (Student.name s) (Student.firstName s)
                         (Student.lastName s) (Student.enrollment s) (Student.email s)
                         newPassword None None)
             (studentCollection db)) db
    | ATeacher t =>
        put teachers
          (update_first (hasId teachers (Teacher._id t))
             (fun _ => Teacher.mk (Teacher._id t) (Teacher.name t) (Teacher.firstName t)
                         (Teacher.lastName t) (Teacher.email t) newPassword None None)
             (teacherCollection db)) db
    end.
Proof.
  intros Hu Hlen; unfold resetPassword; run_handler; rewrite Hu; run_handler.
  rewrite String.eqb_refl; cbn [negb].
  replace (JS.length newPassword <? 6)%nat with false
    by (symmetry; apply Nat.ltb_ge; exact Hlen).
  destruct u; unfold savePassword; run_handler; reflexivity.
Qed.

Lemma found_by_reset_token token now db u :
  findByResetToken token now db = (inr (Some u), db) ->
  match u with
  | AStudent s =>
      find (fun s => opt_string_eqb (Student.resetPasswordToken s) token
                     && opt_date_gt (Student.resetPasswordTokenExpires s) now)
        (studentCollection db) = Some s
  | ATeacher t =>
      find (fun s => opt_string_eqb (Student.resetPasswordToken s) token
                     && opt_date_gt (Student.resetPasswordTokenExpires s) now)
        (studentCollection db) = None /\
      find (fun t => opt_string_eqb (Teacher.resetPasswordToken t) token
                     && opt_date_gt (Teacher.resetPasswordTokenExpires t) now)
        (teacherCollection db) = Some t
  end.
Proof.
  unfold findByResetToken; run_handler.
  destruct (find _ (studentCollection db)) as [s|]; run_handler.
  - intros [= <-]; reflexivity.
  - destruct (find _ (teacherCollection db)) as [t|]; [|discriminate].
    intros [= <-]; split; reflexivity.
Qed.

(** X19: a reset token works once, and the new password is the one that
    logs in.  After a successful reset for the account the token found
    (document [_id]s distinct; the password of at least 6 UTF-16 code
    units, as [newPassword.length] counts), no other account holding the
    token, the token finds no account any more, at any time; and if the
    login lookup found that account before, a login now starts its session
    with the new password and with no other. *)
Theorem reset_token_works_once :
  forall token newPassword now db u,
    findByResetToken token now db = (inr (Some u), db) ->
    (6 <= JS.length newPassword)%nat ->
    NoDup (map Student._id (studentCollection db)) ->
    NoDup (map Teacher._id (teacherCollection db)) ->
    let db' := snd (resetPassword token newPassword newPassword now db) in
    (NoOtherHolder token u db ->
     forall now', findByResetToken token now' db' = (inr None, db')) /\
    (forall userType email enrollment attempt saveFails,
       findLoginUser userType email enrollment db = (inr (Some u), db) ->
       snd (fst (log_in attempt userType email enrollment saveFails db')) =
         if String.eqb newPassword attempt
         then Some (mkSession (user_id u) (user_name u) userType)
         else None).
Proof.
  intros token newPassword now db u Hu Hlen NDs NDt db'.
  pose proof (reset_eq token newPassword now db u Hu Hlen) as Hdb.
  pose proof (found_by_reset_token token now db u Hu) as Hfound.
  subst db'; rewrite Hdb; clear Hdb; split.
  - intros Honly now'; unfold findByResetToken; run_handler.
    destruct u as [s|t].
    + pose proof (find_some _ _ Hfound) as [Hin _].
      cbn [put students studentCollection teacherCollection].
      rewrite (find_updated_only_holder Student._id _ _ s _ NDs Hin).
      2:{ intros x Hx Hq; apply andb_prop in Hq as [Hq _].
          symmetry; apply (Honly (AStudent x)); [|exact Hq].
          unfold allUsers; apply in_or_app; left; apply in_map, Hx. }
      cbn [Student.resetPasswordToken opt_string_eqb andb]; run_handler.
      rewrite find_all_false; [reflexivity|].
      intros x Hx; destruct (opt_string_eqb _ _) eqn:Hq; [|reflexivity].
      exfalso; apply (Honly (ATeacher x)); [|exact Hq].
      unfold allUsers; apply in_or_app; right; apply in_map, Hx.
    + destruct Hfound as [_ Hfound].
      pose proof (find_some _ _ Hfound) as [Hin _].
      cbn [put teachers studentCollection teacherCollection].
      rewrite find_all_false; run_handler.
      2:{ intros x Hx; destruct (opt_string_eqb _ _) eqn:Hq; [|reflexivity].
          exfalso; apply (Honly (AStudent x)); [|exact Hq].
          unfold allUsers; apply in_or_app; left; apply in_map, Hx. }
      rewrite (find_updated_only_holder Teacher._id _ _ t _ NDt Hin).
      2:{ intros x Hx Hq; apply andb_prop in Hq as [Hq _].
          symmetry; apply (Honly (ATeacher x)); [|exact Hq].
          unfold allUsers; apply in_or_app; right; apply in_map, Hx. }
      reflexivity.
  - clear Hfound Hu; intros userType email enrollment attempt saveFails Hlogin.
    unfold login; run_handler.
    revert Hlogin; unfold findLoginUser.
    destruct (String.eqb userType "teacher") eqn:Hty; run_handler.
    + destruct (find _ (teacherCollection db)) as [t'|] eqn:Ht;
        cbn [option_map]; [|intros [=]].
      intros H; assert (E : u = ATeacher t') by congruence; subst u; clear H.
      cbn [put teachers studentCollection teacherCollection].
      rewrite (find_after_update_at Teacher._id _ _ _ _ NDt Ht)
        by (apply (find_some _ _ Ht)).
      cbn [option_map user_password Teacher.password].
      destruct (String.eqb newPassword attempt); [|reflexivity].
      unfold startSession; destruct saveFails; reflexivity.
    + destruct enrollment as [|a r]; run_handler; [intros [=]|].
      destruct (find _ (studentCollection db)) as [s'|] eqn:Hs;
        cbn [option_map]; [|intros [=]].
      intros H; assert (E : u = AStudent s') by congruence; subst u; clear H.
      cbn [put students studentCollection teacherCollection].
      rewrite (find_after_update_at Student._id _ _ _ _ NDs Hs)
        by (apply (find_some _ _ Hs)).
      cbn [option_map user_password Student.password].
      destruct (String.eqb newPassword attempt); [|reflexivity].
      unfold startSession; destruct saveFails; reflexivity.
Qed.
End ResetFacts.

(** ** Asking for a reset link *)

Lemma update_by_key_map {A} (key : A -> nat) k f (l : list A) :
  (forall x, key x = k -> key (f x) = k) ->
  map key (update_first (fun x => (key x =? k)%nat) f l) = map key l.
Proof.
  intros Hf; induction l as [|x r IH]; simpl; [reflexivity|].
  destruct (Nat.eqb_spec (key x) k) as [E|_]; simpl.
  - rewrite (Hf x E), E; reflexivity.
  - rewrite IH; reflexivity.
Qed.

Section ForgotFacts.
Variable encodeURIComponent : string -> string.
Variable BASE_URL : string.

Local Abbreviation forgot := (forgotPassword encodeURIComponent BASE_URL).

(** The account [u] holding [token] until [expires]. *)
Local Abbreviation holding token expires u :=
  (match u with
   | AStudent s =>
       AStudent (Student.mk (Student._id s) (Student.name s) (Student.firstName s)
                   (Student.lastName s) (Student.enrollment s) (Student.email s)
                   (Student.password s) (Some token) (Some expires))
   | ATeacher t =>
       ATeacher (Teacher.mk (Teacher._id t) (Teacher.name t) (Teacher.firstName t)
                   (Teacher.lastName t) (Teacher.email t) (Teacher.password t)
                   (Some token) (Some expires))
   end).

(** The database once [u] holds [token] until [expires]. *)
Local Abbreviation tokenSaved token expires u db :=
  (match u with
   | AStudent s =>
       put students
         (update_first (hasId students (Student._id s))
            (fun _ => Student.mk (Student._id s) (Student.name s)
                        (Student.firstName s) (Student.lastName s)
                        (Student.enrollment s) (Student.email s)
                        (Student.password s) (Some token) (Some expires))
            (studentCollection db)) db
   | ATeacher t =>
       put teachers
         (update_first (hasId teachers (Teacher._id t))
            (fun _ => Teacher.mk (Teacher._id t) (Teacher.name t)
                        (Teacher.firstName t) (Teacher.lastName t)
                        (Teacher.email t) (Teacher.password t)
                        (Some token) (Some expires))
            (teacherCollection db)) db
   end).

Lemma reset_not_found token newPassword confirmNewPassword now db :
  findByResetToken token now db = (inr None, db) ->
  snd (resetPassword token newPassword confirmNewPassword now db) = db.
Proof.
  intros H; unfold resetPassword, tryCatch, bind; rewrite H; reflexivity.
Qed.

Lemma forgot_eq email now token mailSent db u :
  String.eqb email "" = false ->
  findByEmail email db = (inr (Some u), db) ->
  exists url,
    forgot (Some email) now token mailSent db =
      ((Redirect url,
        Some (mkMail (user_email u) "Quizzie: Password Reset Request"
                (match user_firstName u with
                 | EmptyString => user_name u
                 | firstName => firstName
                 end)
                (BASE_URL ++ "/reset-password/" ++ token))),
       tokenSaved token (now + PASSWORD_RESET_TOKEN_EXPIRY) u db).
Proof.
  intros Hne Hu; unfold forgotPassword; run_handler.
  rewrite Hne; run_handler; rewrite Hu; run_handler.
  destruct u; unfold saveResetToken; run_handler;
    destruct mailSent; eexists; reflexivity.
Qed.

(** X20: asking for a reset link.  Without an e-mail address, or with one
    that no account has (compared trimmed and in lower case), nothing is
    stored and no mail is handed to the mail service.  For an account that
    has it, the token is stored with an expiry one hour ahead and the mail
    goes to the account's address with the link
    [BASE_URL/reset-password/token], and the database is the same whether
    the mail service reports success or not: a failed mail leaves the token
    in place. *)
Theorem forgot_password_effects :
  forall now token mailSent db,
    (forall email,
       email = None \/ email = Some "" \/
       (exists e, email = Some e /\ findByEmail e db = (inr None, db)) ->
       exists url, forgot email now token mailSent db = ((Redirect url, None), db)) /\
    (forall email u,
       String.eqb email "" = false ->
       findByEmail email db = (inr (Some u), db) ->
       exists url mail,
         forgot (Some email) now token mailSent db =
           ((Redirect url, Some mail),
            tokenSaved token (now + 60 * 60 * 1000) u db) /\
         mail_to mail = user_email u /\
         mail_resetLink mail = BASE_URL ++ "/reset-password/" ++ token /\
         snd (forgot (Some email) now token (negb mailSent) db) =
           snd (forgot (Some email) now token mailSent db)).
Proof.
  intros now token mailSent db; split.
  - intros email [-> | [-> | (e & -> & He)]]; unfold forgotPassword; run_handler;
      try (eexists; reflexivity).
    destruct (String.eqb e ""); run_handler; [eexists; reflexivity|].
    rewrite He; eexists; reflexivity.
  - intros email u Hne Hu.
    destruct (forgot_eq email now token mailSent db u Hne Hu) as (url & Hrun).
    destruct (forgot_eq email now token (negb mailSent) db u Hne Hu) as (url' & Hrun').
    eexists _, _; split; [exact Hrun|].
    split; [reflexivity|]. split; [reflexivity|].
    rewrite Hrun, Hrun'; reflexivity.
Qed.

Lemma token_found_while_valid token expires now' db u :
  In u (allUsers db) ->
  NoDup (map Student._id (studentCollection db)) ->
  NoDup (map Teacher._id (teacherCollection db)) ->
  NoOtherHolder token u db ->
  let db1 := tokenSaved token expires u db in
  findByResetToken token now' db1 =
    (inr (if now' <? expires then Some (holding token expires u) else None), db1).
Proof.
  intros Hin NDs NDt Honly db1; subst db1.
  assert (HS : forall x, In x (studentCollection db) ->
                 opt_string_eqb (Student.resetPasswordToken x) token = true ->
                 sameAccount u (AStudent x)).
  { intros x Hx Hq; apply (Honly (AStudent x)); [|exact Hq].
    unfold allUsers; apply in_or_app; left; apply in_map, Hx. }
  assert (HT : forall x, In x (teacherCollection db) ->
                 opt_string_eqb (Teacher.resetPasswordToken x) token = true ->
                 sameAccount u (ATeacher x)).
  { intros x Hx Hq; apply (Honly (ATeacher x)); [|exact Hq].
    unfold allUsers; apply in_or_app; right; apply in_map, Hx. }
  unfold findByResetToken; run_handler.
  destruct u as [s|t].
  - assert (Hs : In s (studentCollection db)).
    { unfold allUsers in Hin; apply in_app_or in Hin as [H|H];
        apply in_map_iff in H as (x & E & Hx); [injection E as <-; exact Hx | discriminate]. }
    cbn [put students studentCollection teacherCollection].
    rewrite (find_updated_only_holder Student._id _ _ s _ NDs Hs).
    2:{ intros x Hx Hq; apply andb_prop in Hq as [Hq _].
        symmetry; exact (HS x Hx Hq). }
    cbn [Student.resetPasswordToken Student.resetPasswordTokenExpires
         opt_string_eqb opt_date_gt].
    rewrite String.eqb_refl; cbn [andb].
    destruct (now' <? expires); run_handler; [reflexivity|].
    rewrite find_all_false; [reflexivity|].
    intros x Hx; destruct (opt_string_eqb _ _) eqn:Hq; [|reflexivity].
    exfalso; exact (HT x Hx Hq).
  - assert (Ht : In t (teacherCollection db)).
    { unfold allUsers in Hin; apply in_app_or in Hin as [H|H];
        apply in_map_iff in H as (x & E & Hx); [discriminate | injection E as <-; exact Hx]. }
    cbn [put teachers studentCollection teacherCollection].
    rewrite find_all_false; run_handler.
    2:{ intros x Hx; destruct (opt_string_eqb _ _) eqn:Hq; [|reflexivity].
        exfalso; exact (HS x Hx Hq). }
    rewrite (find_updated_only_holder Teacher._id _ _ t _ NDt Ht).
    2:{ intros x Hx Hq; apply andb_prop in Hq as [Hq _].
        symmetry; exact (HT x Hx Hq). }
    cbn [Teacher.resetPasswordToken Teacher.resetPasswordTokenExpires
         opt_string_eqb opt_date_gt].
    rewrite String.eqb_refl; cbn [andb].
    destruct (now' <? expires); reflexivity.
Qed.

Lemma findByEmail_In email db u :
  findByEmail email db = (inr (Some u), db) -> In u (allUsers db).
Proof.
  unfold findByEmail, allUsers; run_handler.
  destruct (find _ (studentCollection db)) as [s|] eqn:Hs; run_handler.
  - intros H; assert (E : u = AStudent s) by congruence; subst u.
    apply in_or_app; left; apply in_map, (find_some _ _ Hs).
  - destruct (find _ (teacherCollection db)) as [t|] eqn:Ht; cbn [option_map];
      [|intros [=]].
    intros H; assert (E : u = ATeacher t) by congruence; subst u.
    apply in_or_app; right; apply in_map, (find_some _ _ Ht).
Qed.

(** X21: a reset link works for one hour.  After [POST /forgot-password]
    stored a token for an account at [T] (document [_id]s distinct, no
    other account holding that token), a reset with that token and a
    password of at least 6 characters (UTF-16 code units, as
    [newPassword.length] counts), typed twice, sets the account's password
    at every time before [T] plus 3600000 ms; from then on the
    token finds no account and the reset changes nothing. *)
Theorem reset_link_lasts_one_hour :
  forall email T token mailSent db u now' newPassword,
    String.eqb email "" = false ->
    findByEmail email db = (inr (Some u), db) ->
    NoDup (map Student._id (studentCollection db)) ->
    NoDup (map Teacher._id (teacherCollection db)) ->
    NoOtherHolder token u db ->
    let db1 := snd (forgot (Some email) T token mailSent db) in
    (now' < T + 3600000 ->
     (6 <= JS.length newPassword)%nat ->
     storedPassword u (snd (resetPassword token newPassword newPassword now' db1))
       = Some newPassword) /\
    (T + 3600000 <= now' ->
     forall confirmNewPassword,
       findByResetToken token now' db1 = (inr None, db1) /\
       snd (resetPassword token newPassword confirmNewPassword now' db1) = db1).
Proof.
  intros email T token mailSent db u now' newPassword Hne Hu NDs NDt Honly db1.
  destruct (forgot_eq email T token mailSent db u Hne Hu) as (url & Hrun).
  subst db1; rewrite Hrun; cbn [snd].
  pose proof (token_found_while_valid token (T + PASSWORD_RESET_TOKEN_EXPIRY) now' db u
                (findByEmail_In _ _ _ Hu) NDs NDt Honly) as Hfind.
  cbv zeta in Hfind; change PASSWORD_RESET_TOKEN_EXPIRY with 3600000 in *.
  split.
  - intros Hnow Hlen.
    replace (now' <? T + 3600000) with true in Hfind by (symmetry; apply Z.ltb_lt; lia).
    pose proof (reset_stores token newPassword now' _ _ Hfind Hlen) as Hreset.
    destruct u as [s|t]; cbn [put students teachers studentCollection teacherCollection]
      in Hreset |- *.
    + apply Hreset; [|exact NDt].
      unfold hasId; cbn [idOf students].
      rewrite (update_by_key_map Student._id); [exact NDs | intros x _; reflexivity].
    + apply Hreset; [exact NDs|].
      unfold hasId; cbn [idOf teachers].
      rewrite (update_by_key_map Teacher._id); [exact NDt | intros x _; reflexivity].
  - intros Hnow confirmNewPassword.
    replace (now' <? T + 3600000) with false in Hfind by (symmetry; apply Z.ltb_ge; lia).
    split; [exact Hfind|].
    apply reset_not_found; exact Hfind.
Qed.
End ForgotFacts.

(** ** Verifying an e-mail address *)

Lemma In_replaced {A} (p : A -> bool) d (l : list A) x :
  In x l -> p x = true -> In d (update_first p (fun _ => d) l).
Proof.
  induction l as [|y r IH]; simpl; [tauto|].
  destruct (p y) eqn:E; simpl; [auto|].
  intros [->|Hin] Hp; [congruence | right; auto].
Qed.

(** X22: what a verification link does.  A token that no account holds
    with an expiry still ahead gives the invalid-link page and changes
    nothing.  For the account found: with a pending address, that address
    becomes the account's address and the account is verified; without one,
    an unverified account becomes verified; in both cases the token is
    cleared; a verified account without pending address is told so and
    nothing changes.  The handler's last branch, the "unexpected error"
    page, is never taken. *)
Theorem verify_email_outcomes :
  forall token now db,
    (Verification.lookup token now db = None ->
     Verification.verifyEmail token now db =
       (Verification.notVerified "The verification link is invalid or has expired. Please try resending the verification email.",
        db)) /\
    (forall user,
       Verification.lookup token now db = Some user ->
       let result := Verification.verifyEmail token now db in
       fst result <>
         Verification.notVerified "An unexpected error occurred during verification. Please try again." /\
       (Verification.truthy (Verification.pendingEmail user) = true ->
        fst result =
          Verification.verified "Your email address has been successfully updated and verified!" /\
        In (Verification.mk (Verification._id user) (Verification.pendingEmail user)
              None true None None)
           (Verification.accounts (snd result))) /\
       (Verification.truthy (Verification.pendingEmail user) = false ->
        Verification.isVerified user = false ->
        fst result =
          Verification.verified "Your email has been successfully verified! You can now log in." /\
        In (Verification.mk (Verification._id user) (Verification.email user)
              (Verification.pendingEmail user) true None None)
           (Verification.accounts (snd result))) /\
       (Verification.truthy (Verification.pendingEmail user) = false ->
        Verification.isVerified user = true ->
        result =
          (Verification.notVerified "Your email address is already verified. No action needed.",
           db))).
Proof.
  intros token now db; split.
  - unfold Verification.lookup, Verification.verifyEmail.
    destruct (find _ (Verification.studentCollection db)); [discriminate|].
    intros ->; reflexivity.
  - intros user Hfound result; subst result.
    assert (Htok : opt_string_eqb (Verification.verificationToken user) token = true).
    { unfold Verification.lookup in Hfound.
      destruct (find _ (Verification.studentCollection db)) as [u|] eqn:Hs.
      - injection Hfound as ->; apply find_some in Hs as [_ H].
        apply andb_prop in H as [H _]; exact H.
      - apply find_some in Hfound as [_ H].
        apply andb_prop in H as [H _]; exact H. }
    unfold Verification.lookup in Hfound; unfold Verification.verifyEmail.
    destruct (find _ (Verification.studentCollection db)) as [u|] eqn:Hs.
    + injection Hfound as ->; pose proof (find_some _ _ Hs) as [Hin _].
      unfold Verification.verifyUser; rewrite Htok, !andb_true_r.
      destruct (Verification.truthy (Verification.pendingEmail user)) eqn:Hp;
        [|destruct (Verification.isVerified user) eqn:Hv]; cbn [negb fst snd];
        (split; [discriminate|]); repeat split; try discriminate; try reflexivity;
        intros; unfold Verification.accounts; cbn; apply in_or_app; left;
        apply (In_replaced _ _ _ user Hin), Nat.eqb_refl.
    + rewrite Hfound; pose proof (find_some _ _ Hfound) as [Hin _].
      unfold Verification.verifyUser; rewrite Htok, !andb_true_r.
      destruct (Verification.truthy (Verification.pendingEmail user)) eqn:Hp;
        [|destruct (Verification.isVerified user) eqn:Hv]; cbn [negb fst snd];
        (split; [discriminate|]); repeat split; try discriminate; try reflexivity;
        intros; unfold Verification.accounts; cbn; apply in_or_app; right;
        apply (In_replaced _ _ _ user Hin), Nat.eqb_refl.
Qed.

(** X23: a verification link works once.  After a verification that found
    the account and verified it ([_id]s distinct within each collection, no
    other account having that token), the same link gives the invalid-link
    page at any later time and changes nothing. *)
Theorem verify_email_once :
  forall token now db user message,
    Verification.lookup token now db = Some user ->
    fst (Verification.verifyEmail token now db) = Verification.verified message ->
    NoDup (map Verification._id (Verification.studentCollection db)) ->
    NoDup (map Verification._id (Verification.teacherCollection db)) ->
    (forall v, In v (Verification.accounts db) ->
               Verification.hasToken token v = true -> v = user) ->
    (In user (Verification.studentCollection db) ->
     In user (Verification.teacherCollection db) -> False) ->
    forall now',
      let db' := snd (Verification.verifyEmail token now db) in
      Verification.lookup token now' db' = None /\
      Verification.verifyEmail token now' db' =
        (Verification.notVerified "The verification link is invalid or has expired. Please try resending the verification email.",
         db').
Proof.
  intros token now db user message Hfound Hok NDs NDt Honly Hone now' db'.
  assert (Hnone : Verification.lookup token now' db' = None).
  2:{ split; [exact Hnone|].
      unfold Verification.lookup in Hnone; unfold Verification.verifyEmail.
      destruct (find _ (Verification.studentCollection db')); [discriminate|].
      rewrite Hnone; reflexivity. }
  assert (Hholds : forall l, (forall v, In v l -> In v (Verification.accounts db)) ->
                     ~ In user l ->
                     find (Verification.holdsToken token now') l = None).
  { intros l Hsub Hnot; apply find_all_false; intros v Hv.
    unfold Verification.holdsToken.
    destruct (opt_string_eqb (Verification.verificationToken v) token) eqn:E;
      [|reflexivity].
    exfalso; apply Hnot; rewrite <- (Honly v (Hsub v Hv) E); exact Hv. }
  assert (Hsaved : forall l d,
            NoDup (map Verification._id l) -> In user l ->
            (forall v, In v l -> In v (Verification.accounts db)) ->
            Verification._id d = Verification._id user ->
            Verification.verificationToken d = None ->
            find (Verification.holdsToken token now') (Verification.saveIn l d) = None).
  { intros l d ND Hin Hsub Hid Htok; unfold Verification.saveIn; rewrite Hid.
    rewrite (find_updated_only_holder Verification._id _ _ user _ ND Hin).
    - unfold Verification.holdsToken; rewrite Htok; reflexivity.
    - intros x Hx Hq; apply andb_prop in Hq as [Hq _].
      rewrite (Honly x (Hsub x Hx) Hq); reflexivity. }
  subst db'; revert Hok; unfold Verification.lookup in *.
  unfold Verification.verifyEmail.
  destruct (find _ (Verification.studentCollection db)) as [u|] eqn:Hs.
  - injection Hfound as ->; pose proof (find_some _ _ Hs) as [Hin _].
    unfold Verification.verifyUser.
    destruct (_ && _); [|destruct (_ && _); [|destruct (Verification.isVerified user)]];
      cbn [fst snd Verification.studentCollection Verification.teacherCollection];
      intros Hok; try discriminate Hok.
    + rewrite Hsaved; auto.
      * apply Hholds; [intros v Hv; apply in_or_app; auto | auto].
      * intros v Hv; apply in_or_app; auto.
    + rewrite Hsaved; auto.
      * apply Hholds; [intros v Hv; apply in_or_app; auto | auto].
      * intros v Hv; apply in_or_app; auto.
  - rewrite Hfound; pose proof (find_some _ _ Hfound) as [Hin _].
    assert (Hstud : find (Verification.holdsToken token now')
                      (Verification.studentCollection db) = None).
    { apply Hholds; [intros v Hv; apply in_or_app; auto | auto]. }
    unfold Verification.verifyUser.
    destruct (_ && _); [|destruct (_ && _); [|destruct (Verification.isVerified user)]];
      cbn [fst snd Verification.studentCollection Verification.teacherCollection];
      intros Hok; try discriminate Hok; rewrite Hstud.
    + apply Hsaved; auto; intros v Hv; apply in_or_app; auto.
    + apply Hsaved; auto; intros v Hv; apply in_or_app; auto.
Qed.

(** ** At most one pending request *)

Section ListFactsRequests.
Context {A : Type}.

Lemma update_all_filter_same (q p : A -> bool) f (l : list A) :
  (forall x, q (f x) = q x) ->
  List.length (filter q (update_all p f l)) = List.length (filter q l).
Proof.
  intros Hq; induction l as [|x r IH]; simpl; [reflexivity|].
  destruct (p x); [rewrite Hq|]; destruct (q x); simpl; rewrite IH; reflexivity.
Qed.

Lemma find_update_preserved (q p : A -> bool) f (l : list A) :
  (forall x, q (f x) = q x) -> find q l <> None ->
  find q (update_first p f l) <> None.
Proof.
  intros Hq; induction l as [|x r IH]; simpl; [tauto|].
  destruct (p x) eqn:E; simpl.
  - rewrite Hq; destruct (q x); [discriminate | auto].
  - destruct (q x); [discriminate | exact IH].
Qed.

Lemma find_app_preserved (q : A -> bool) (l m : list A) :
  find q l <> None -> find q (l ++ m) <> None.
Proof.
  intros H; destruct (find q l) as [x|] eqn:E; [|contradiction].
  rewrite (find_app_found _ _ _ _ E); discriminate.
Qed.

Lemma In_remove_first (p : A -> bool) (l : list A) x :
  In x (remove_first p l) -> In x l.
Proof.
  induction l as [|y r IH]; simpl; [tauto|].
  destruct (p y); simpl; intuition.
Qed.

Lemma filter_remove_first_le (q p : A -> bool) (l : list A) :
  (List.length (filter q (remove_first p l)) <= List.length (filter q l))%nat.
Proof.
  induction l as [|x r IH]; simpl; [lia|].
  destruct (p x); simpl; destruct (q x); simpl; lia.
Qed.

Lemma find_filter_head (q : A -> bool) (l : list A) r :
  find q l = Some r -> exists t, filter q l = r :: t.
Proof.
  induction l as [|x l IH]; simpl; [discriminate|].
  destruct (q x); [intros [= ->]; eauto | exact IH].
Qed.
End ListFactsRequests.

Section RequestRuns.
Variable generateUniqueCode : list ClassJoinCode.t -> string.
Variable joinCodeSchema :
  ClassJoinCode.t -> list ClassJoinCode.t -> option MongoError.
Variable classStudentSchema :
  ClassStudent.t -> list ClassStudent.t -> option MongoError.
Variable joinRequestSchema :
  ClassJoinRequest.t -> list ClassJoinRequest.t -> option MongoError.

Local Abbreviation step :=
  (perform generateUniqueCode joinCodeSchema classStudentSchema joinRequestSchema).
Local Abbreviation runs :=
  (run generateUniqueCode joinCodeSchema classStudentSchema joinRequestSchema).

(** A row of a pair stays a row of the pair. *)
Lemma perform_keeps_rows op db c s :
  hasRow c s db -> hasRow c s (snd (step op db)).
Proof.
  unfold hasRow; intros H.
  destruct (enrollment_effect generateUniqueCode joinCodeSchema classStudentSchema
              joinRequestSchema op db)
    as [[E _] | (cid & sid & now & rows' & E & Hrows & _)];
    cbv zeta in E; rewrite E; [exact H|].
  destruct Hrows as [(e & sn & se & _ & ->) | (row & _ & _ & _ & _ & ->)].
  - apply find_update_preserved; [intros x; reflexivity | exact H].
  - apply find_app_preserved, H.
Qed.

(** Same class, student and [_id]. *)
Local Abbreviation keeps g :=
  (forall x : ClassJoinRequest.t,
     ClassJoinRequest.classId (g x) = ClassJoinRequest.classId x /\
     ClassJoinRequest.studentId (g x) = ClassJoinRequest.studentId x /\
     ClassJoinRequest._id (g x) = ClassJoinRequest._id x).

(** What an operation does to the join requests. *)
Lemma request_effect op db :
  let l := classJoinRequestCollection db in
  let db' := snd (step op db) in
  let l' := classJoinRequestCollection db' in
  l' = l \/
  (exists cls sid g,
     keeps g /\ (forall x, ClassJoinRequest.status (g x) = approved) /\
     hasRow cls sid db' /\
     l' = update_all (openRequestOf cls sid) g l) \/
  (exists cls sid,
     find (enrollmentOf cls sid) (classStudentCollection db) = None /\
     (forall r, find (requestOf cls sid) l = Some r ->
                ClassJoinRequest.status r <> pending) /\
     (l' = requestsBeforeCreate cls sid l \/
      exists new,
        ClassJoinRequest.status new = pending /\
        ClassJoinRequest.classId new = cls /\
        ClassJoinRequest.studentId new = sid /\
        l' = (requestsBeforeCreate cls sid l ++ [new])%list)) \/
  (exists r g,
     In r l /\ keeps g /\
     (ClassJoinRequest.status (g r) = approved ->
      hasRow (ClassJoinRequest.classId r) (ClassJoinRequest.studentId r) db') /\
     l' = update_first (hasId joinRequests (ClassJoinRequest._id r)) g l).
Proof.
  destruct op; cbn [perform];
    unfold generateJoinCode, validateJoinCode, submitJoinRequest,
      createJoinRequest, resolveJoinRequest, finishApproval;
    case_handler; cbv zeta; cbn -[newObjectId]; auto.
  all: try solve
    [ match goal with
      | |- update_all (openRequestOf ?c ?s) ?g _ = _ \/ _ =>
          right; left; exists c, s, g
      end;
      split; [intros x; repeat split|];
      split; [intros x; reflexivity|]; split; [|reflexivity];
      unfold hasRow; cbn [classStudentCollection];
      apply find_update_preserved; [intros x; reflexivity | congruence] ].
  all: try solve
    [ right; right; left; eexists _, _; split; [eassumption|];
      split; [intros r Hr; congruence|];
      unfold requestsBeforeCreate;
      repeat match goal with H : find (requestOf _ _) _ = _ |- _ => rewrite H end;
      repeat match goal with H : ClassJoinRequest.status _ = _ |- _ => rewrite H end;
      first [ left; reflexivity
            | right; refine (ex_intro _ _ (conj _ (conj _ (conj _ eq_refl))));
              reflexivity ] ].
  all: match goal with
    | H : find (pendingRequest _ _) _ = Some ?r
      |- update_first _ ?g _ = _ \/ _ =>
        pose proof (find_some _ _ H) as [Hin Hpr];
        right; right; right; exists r, g
    end;
    split; [exact Hin|]; split; [intros x; repeat split|];
    (split; [|reflexivity]);
    unfold pendingRequest in Hpr;
    apply andb_prop in Hpr as [Hpr _]; apply andb_prop in Hpr as [_ Hpr];
    apply Nat.eqb_eq in Hpr; rewrite Hpr;
    unfold hasRow; cbn -[newObjectId]; intros Hst; try discriminate Hst;
    first [ congruence
          | apply find_update_preserved; [intros x; reflexivity | congruence]
          | eapply find_In_some; [apply in_or_app; right; left; reflexivity|];
            unfold enrollmentOf; cbn; rewrite !Nat.eqb_refl; reflexivity ].
Qed.

Lemma requestOf_eq c s r :
  requestOf c s r = true ->
  ClassJoinRequest.classId r = c /\ ClassJoinRequest.studentId r = s.
Proof.
  unfold requestOf; intros H; apply andb_prop in H as [Hc Hs].
  apply Nat.eqb_eq in Hc, Hs; auto.
Qed.

(** Every operation keeps the requests in order. *)
Lemma perform_requests_in_order op db :
  DistinctIds db -> RequestsInOrder db -> RequestsInOrder (snd (step op db)).
Proof.
  intros (_ & _ & _ & _ & _ & Hd) [H1 H2].
  pose proof (request_effect op db) as He; cbv zeta in He.
  pose proof (perform_keeps_rows op db) as Hrows.
  assert (Hsame : forall g c s, keeps g ->
            forall x, requestOf c s (g x) = requestOf c s x).
  { intros g c s Hk x; unfold requestOf; destruct (Hk x) as (-> & -> & _);
      reflexivity. }
  destruct He as [E | [(cls & sid & g & Hk & Hg & Hrow & E)
                     | [(cls & sid & Hnone & Hst & E)
                       | (r & g & Hin & Hk & Hrow & E)]]];
    unfold RequestsInOrder.
  - rewrite E; split; [exact H1 | intros r Hin Hs; apply Hrows, H2; assumption].
  - rewrite E; split.
    + intros c s; rewrite update_all_filter_same; [apply H1 | apply Hsame, Hk].
    + intros x Hin Hs.
      apply In_update_all in Hin as (y & Hy & [[Hp ->] | [_ ->]]).
      * destruct (Hk y) as (-> & -> & _).
        unfold openRequestOf in Hp; apply andb_prop in Hp as [Hp _].
        apply requestOf_eq in Hp as [-> ->]; exact Hrow.
      * apply Hrows, H2; assumption.
  - set (l := classJoinRequestCollection db) in *.
    assert (Hb1 : forall c s,
              (List.length (filter (requestOf c s) (requestsBeforeCreate cls sid l))
               <= 1)%nat).
    { intros c s; unfold requestsBeforeCreate.
      destruct (find (requestOf cls sid) l) as [r|]; [|apply H1].
      destruct (ClassJoinRequest.status r); try apply H1.
      etransitivity; [apply filter_remove_first_le | apply H1]. }
    assert (Hb2 : forall x, In x (requestsBeforeCreate cls sid l) -> In x l).
    { intros x; unfold requestsBeforeCreate.
      destruct (find (requestOf cls sid) l) as [r|]; [|auto].
      destruct (ClassJoinRequest.status r); auto; apply In_remove_first. }
    assert (Hb3 : filter (requestOf cls sid) (requestsBeforeCreate cls sid l) = []).
    { unfold requestsBeforeCreate.
      destruct (find (requestOf cls sid) l) as [r|] eqn:F;
        [|apply find_none_filter_nil, F].
      destruct (find_some _ _ F) as [Hr Hq].
      destruct (ClassJoinRequest.status r) eqn:S.
      - exfalso; exact (Hst r eq_refl S).
      - exfalso; apply requestOf_eq in Hq as [<- <-].
        exact (H2 r Hr S Hnone).
      - destruct (find_filter_head _ _ _ F) as [t Ht].
        specialize (H1 cls sid); fold l in H1; rewrite Ht in H1.
        destruct t; [|simpl in H1; lia].
        exact (filter_single_remove ClassJoinRequest._id _ _ _ Hd Ht). }
    destruct E as [E | (new & Sn & Cn & Stn & E)]; rewrite E.
    + split; [apply Hb1 | intros x Hin Hs; apply Hrows, H2; auto].
    + split.
      * intros c s; rewrite filter_app, length_app; simpl.
        destruct (requestOf c s new) eqn:Q.
        -- apply requestOf_eq in Q as [<- <-]; rewrite Cn, Stn, Hb3; simpl; lia.
        -- specialize (Hb1 c s); simpl; lia.
      * intros x Hin Hs; apply in_app_or in Hin as [Hin | [<- | []]].
        -- apply Hrows, H2; auto.
        -- congruence.
  - rewrite E; split.
    + intros c s; rewrite update_first_filter_same; [apply H1 | apply Hsame, Hk].
    + intros x Hx Hs.
      apply (In_update_by_key ClassJoinRequest._id) in Hx;
        [|exact Hd | intros y; apply Hk].
      destruct Hx as [(y & Hy & Ey & ->) | [Hx _]].
      * assert (y = r)
          by (eapply (same_key_same_doc ClassJoinRequest._id); eauto).
        subst y; destruct (Hk r) as (-> & -> & _); apply Hrow, Hs.
      * apply Hrows, H2; assumption.
Qed.

(** X24: a class and a student never share two join requests, so never two
    pending ones, whatever requests the enrollment manager served: it holds
    after any sequence of operations on a database where it held, where the
    [_id]s are distinct and every approved request has its enrollment row. *)
Theorem run_one_request_per_pair ops db :
  DistinctIds db -> RequestsInOrder db ->
  RequestsInOrder (runs ops db) /\
  forall classId studentId,
    (List.length (pendingRequests classId studentId (runs ops db)) <= 1)%nat.
Proof.
  intros Hd Hr.
  destruct (run_keeps generateUniqueCode joinCodeSchema classStudentSchema
              joinRequestSchema RequestsInOrder perform_requests_in_order
              ops db Hd Hr) as [_ H].
  split; [exact H|].
  intros c s; destruct H as [H _]; specialize (H c s).
  unfold pendingRequests, pendingRequestOf.
  etransitivity; [|exact H].
  generalize (classJoinRequestCollection (runs ops db)) as l.
  induction l as [|x l IH]; simpl; [lia|].
  destruct (requestOf c s x); simpl;
    [destruct (status_eqb _ _); simpl; lia | exact IH].
Qed.
End RequestRuns.

(** ** The teacher's list of requests *)

Section ListFactsListing.
Context {A : Type}.

Lemma filter_update_one (key : A -> nat) (q : A -> bool) f (l : list A) r :
  NoDup (map key l) -> In r l -> q r = true -> q (f r) = false ->
  S (List.length (filter q (update_first (fun x => (key x =? key r)%nat) f l)))
  = List.length (filter q l).
Proof.
  induction l as [|x l IH]; simpl; intros ND Hin Hq Hf; [contradiction|].
  inversion ND as [|? ? Hnot ND']; subst.
  destruct (Nat.eqb_spec (key x) (key r)) as [E|N].
  - assert (x = r) as ->.
    { destruct Hin as [->|Hin]; [reflexivity|].
      exfalso; apply Hnot; rewrite E; apply in_map, Hin. }
    simpl; rewrite Hf, Hq; reflexivity.
  - destruct Hin as [->|Hin]; [congruence|].
    simpl; destruct (q x); simpl; rewrite <- (IH ND' Hin Hq Hf); reflexivity.
Qed.

Lemma In_update_other (key : A -> nat) k f (l : list A) y :
  In y l -> key y <> k -> In y (update_first (fun x => (key x =? k)%nat) f l).
Proof.
  induction l as [|x l IH]; simpl; [tauto|].
  intros [->|Hin] Hk.
  - destruct (Nat.eqb_spec (key y) k); [contradiction | left; reflexivity].
  - destruct (key x =? k)%nat; right; auto.
Qed.

Lemma find_unique_key (key : A -> nat) (q : A -> bool) (l : list A) r :
  NoDup (map key l) -> In r l -> q r = true ->
  (forall x, q x = true -> key x = key r) ->
  find q l = Some r.
Proof.
  induction l as [|x l IH]; simpl; intros ND Hin Hq Hk; [contradiction|].
  inversion ND as [|? ? Hnot ND']; subst.
  destruct Hin as [->|Hin]; [rewrite Hq; reflexivity|].
  destruct (q x) eqn:E; [|apply IH; assumption].
  exfalso; apply Hnot; rewrite (Hk x E); apply in_map, Hin.
Qed.
End ListFactsListing.

Section ListedRequests.
Variable classStudentSchema :
  ClassStudent.t -> list ClassStudent.t -> option MongoError.
Variable sortByRequestedAt : list ClassJoinRequest.t -> list ClassJoinRequest.t.
Hypothesis sort_permutes : forall l, Permutation (sortByRequestedAt l) l.

Local Abbreviation listing := (getJoinRequests sortByRequestedAt).

(** The listing, branch by branch. *)
Lemma getJoinRequests_eq classId teacherId db :
  listing classId teacherId db =
  match find (ownedClass classId teacherId) (classCollection db) with
  | None => (Refused 404 "Class not found or access denied.", db)
  | Some classDoc =>
      let shown :=
        map formatRequest
          (sortByRequestedAt
             (filter (pendingOf classId) (classJoinRequestCollection db))) in
      (Sent None (mkRequestList shown (List.length shown) (ClassDoc.name classDoc)),
       db)
  end.
Proof.
  unfold getJoinRequests, findSorted; run_handler.
  destruct (find _ (classCollection db)); reflexivity.
Qed.

(** What resolving a pending request of an owned class does. *)
Lemma resolved_effect classId requestId teacherId now db classDoc r action :
  find (ownedClass classId teacherId) (classCollection db) = Some classDoc ->
  find (pendingRequest requestId classId) (classJoinRequestCollection db) = Some r ->
  (forall row, classStudentSchema row (classStudentCollection db) = None) ->
  action = "approve" \/ action = "reject" ->
  let answer :=
    resolveJoinRequest classStudentSchema classId requestId action teacherId now db in
  (forall message, fst answer <> Err 404 message) /\
  find (ownedClass classId teacherId) (classCollection (snd answer)) <> None /\
  exists f,
    (forall x, ClassJoinRequest._id (f x) = ClassJoinRequest._id x) /\
    (forall x, pendingOf classId (f x) = false) /\
    classJoinRequestCollection (snd answer) =
      update_first (hasId joinRequests (ClassJoinRequest._id r)) f
        (classJoinRequestCollection db).
Proof.
  intros Hclass Hreq Hacc Ha answer; subst answer.
  assert (Hkept : forall n,
            find (ownedClass classId teacherId)
              (update_first (hasId classes classId) (set_studentCount n now)
                 (classCollection db)) <> None).
  { intros n; apply find_update_preserved; [intros x; reflexivity|].
    rewrite Hclass; discriminate. }
  assert (Hsame : find (ownedClass classId teacherId) (classCollection db) <> None)
    by (rewrite Hclass; discriminate).
  destruct Ha as [-> | ->].
  - assert (Hf : forall x, pendingOf classId (approvedBy teacherId now x) = false)
      by (intros x; unfold pendingOf; cbn; apply andb_false_r).
    destruct (find (enrollmentOf classId (ClassJoinRequest.studentId r))
                (classStudentCollection db)) as [e|] eqn:He.
    + destruct (ClassStudent.isActive e) eqn:Hact.
      * rewrite (approve_already_enrolled classStudentSchema classId requestId
                   teacherId now db classDoc r Hclass Hreq e He Hact).
        split; [intros m [=]|]; split; [exact Hsame|].
        exists (approvedBy teacherId now); repeat split; auto.
      * rewrite (approve_reactivates classStudentSchema classId requestId
                   teacherId now db classDoc r Hclass Hreq e He Hact).
        split; [intros m [=]|]; split; [apply Hkept|].
        exists (approvedBy teacherId now); repeat split; auto.
    + rewrite (approve_enrolls classStudentSchema classId requestId teacherId
                 now db classDoc r Hclass Hreq He (Hacc _)).
      split; [intros m [=]|]; split; [apply Hkept|].
      exists (approvedBy teacherId now); repeat split; auto.
  - rewrite (reject_eq classStudentSchema classId requestId teacherId now db
               classDoc r Hclass Hreq).
    split; [intros m [=]|]; split; [exact Hsame|].
    eexists; split; [|split; [|reflexivity]]; intros x;
      [reflexivity | unfold pendingOf; cbn; apply andb_false_r].
Qed.

(** X25: a request in the teacher's list can be resolved by that teacher: the
    listing changes nothing, approving or rejecting the listed request is
    not answered with 404, and the next listing shows one request less,
    namely all the others and not this one.  The [_id]s of the requests are
    distinct and the enrollment schema accepts the row of an approval. *)
Theorem listed_request_can_be_resolved :
  forall classId teacherId now action db body v,
    NoDup (map ClassJoinRequest._id (classJoinRequestCollection db)) ->
    (forall row, classStudentSchema row (classStudentCollection db) = None) ->
    action = "approve" \/ action = "reject" ->
    fst (listing classId teacherId db) = Sent None body ->
    In v (list_requests body) ->
    let answer :=
      resolveJoinRequest classStudentSchema classId (view_requestId v) action
        teacherId now db in
    snd (listing classId teacherId db) = db /\
    (forall message, fst answer <> Err 404 message) /\
    exists body',
      listing classId teacherId (snd answer) = (Sent None body', snd answer) /\
      ~ In (view_requestId v) (map view_requestId (list_requests body')) /\
      S (list_totalPending body') = list_totalPending body /\
      forall w, In w (list_requests body) ->
                view_requestId w <> view_requestId v ->
                In w (list_requests body').
Proof.
  intros classId teacherId now action db body v ND Hacc Ha Hsent Hin answer.
  rewrite getJoinRequests_eq in Hsent |- *.
  destruct (find (ownedClass classId teacherId) (classCollection db))
    as [classDoc|] eqn:Hclass; [|discriminate].
  cbn in Hsent; injection Hsent as <-; cbn [list_requests list_totalPending] in *.
  split; [reflexivity|].
  apply in_map_iff in Hin as (r & <- & Hr).
  apply (Permutation_in _ (sort_permutes _)), filter_In in Hr as [Hr Hp].
  cbn [view_requestId formatRequest] in *.
  assert (Hreq : find (pendingRequest (ClassJoinRequest._id r) classId)
                   (classJoinRequestCollection db) = Some r).
  { apply (find_unique_key ClassJoinRequest._id); [exact ND | exact Hr | |].
    - unfold pendingOf in Hp; unfold pendingRequest.
      rewrite Nat.eqb_refl; exact Hp.
    - intros x Hx; unfold pendingRequest in Hx.
      apply andb_prop in Hx as [Hx _]; apply andb_prop in Hx as [Hx _].
      apply Nat.eqb_eq, Hx. }
  destruct (resolved_effect classId (ClassJoinRequest._id r) teacherId now db
              classDoc r action Hclass Hreq Hacc Ha)
    as (H404 & Howned & f & Hid & Hf & El).
  fold answer in H404, Howned, El.
  split; [exact H404|].
  rewrite getJoinRequests_eq.
  destruct (find (ownedClass classId teacherId) (classCollection (snd answer)))
    as [classDoc'|]; [clear Howned | contradiction].
  eexists; split; [reflexivity|]; cbn [list_requests list_totalPending].
  rewrite El, !length_map, !(Permutation_length (sort_permutes _)).
  split; [|split].
  - rewrite map_map; intros Hy; apply in_map_iff in Hy as (y & Ey & Hy).
    cbn [view_requestId formatRequest] in Ey.
    apply (Permutation_in _ (sort_permutes _)), filter_In in Hy as [Hy Hq].
    apply (In_update_by_key ClassJoinRequest._id) in Hy; [|exact ND | exact Hid].
    destruct Hy as [(x & _ & _ & ->) | [_ Hne]]; [|contradiction].
    rewrite Hf in Hq; discriminate.
  - apply (filter_update_one ClassJoinRequest._id); auto.
  - intros w Hw Hne; apply in_map_iff in Hw as (y & <- & Hy).
    apply (Permutation_in _ (sort_permutes _)), filter_In in Hy as [Hy Hq].
    apply in_map, (Permutation_in _ (Permutation_sym (sort_permutes _))), filter_In.
    split; [|exact Hq].
    apply (In_update_other ClassJoinRequest._id); [exact Hy | exact Hne].
Qed.
End ListedRequests.

(** * The further properties at work on the small school *)

Lemma run_within_cap_witness :
  WithinCap
    (run Sample.draw Sample.accept Sample.accept Sample.accept
       [SubmitJoinRequest (Some "ABC123") Sample.annId "Ann" 1000;
        SubmitJoinRequest (Some "ABC123") Sample.bobId "Bob" 2000]
       Sample.lastUse).
Proof.
  apply run_within_cap.
  - unfold DistinctIds; cbn; distinct_ids.
  - intros c Hc; cbn in Hc; destruct Hc as [<-|[]]; cbn; lia.
Defined.

Lemma run_counts_in_sync_witness :
  CountsInSync
    (run Sample.draw Sample.accept Sample.accept Sample.accept
       [SubmitJoinRequest (Some "ABC123") Sample.annId "Ann" 1000;
        ResolveJoinRequest Sample.classId Sample.requestId "approve"
          Sample.teacherId 2000]
       Sample.fresh).
Proof.
  apply run_counts_in_sync.
  - unfold DistinctIds; cbn; distinct_ids.
  - intros c Hc; cbn in Hc; destruct Hc as [<-|[]]; reflexivity.
Defined.

Lemma run_keeps_enrollments_witness :
  let db :=
    run Sample.draw Sample.accept Sample.accept Sample.accept
      [IssueJoinCode Sample.classId Sample.teacherId "Ms T" 1000;
       SubmitJoinRequest (Some "ABC123") Sample.annId "Ann" 2000]
      Sample.annEnrolled in
  OneRowPerPair db /\ enrolled Sample.classId Sample.annId db = true.
Proof.
  destruct (run_keeps_enrollments Sample.draw Sample.accept Sample.accept
              Sample.accept
              [IssueJoinCode Sample.classId Sample.teacherId "Ms T" 1000;
               SubmitJoinRequest (Some "ABC123") Sample.annId "Ann" 2000]
              Sample.annEnrolled) as [Hrows Hkeeps].
  split.
  - apply Hrows; intros c s; cbn.
    destruct (enrollmentOf c s (Sample.row true)); cbn; lia.
  - apply Hkeeps; reflexivity.
Defined.

Lemma not_the_owner_changes_nothing_witness :
  generateJoinCode Sample.draw Sample.accept Sample.classId 6%nat "Mr U" 1000
    Sample.fresh
    = (Err 404 "Class not found or access denied.", Sample.fresh) /\
  resolveJoinRequest Sample.accept Sample.classId Sample.requestId "approve"
    6%nat 1000 Sample.annPending
    = (Err 404 "Class not found or access denied.", Sample.annPending).
Proof.
  split.
  - apply (not_the_owner_changes_nothing Sample.draw Sample.accept Sample.accept
             Sample.classId 6%nat "Mr U" 1000 Sample.fresh eq_refl).
  - apply (not_the_owner_changes_nothing Sample.draw Sample.accept Sample.accept
             Sample.classId 6%nat "Mr U" 1000 Sample.annPending eq_refl).
    left; reflexivity.
Defined.

Lemma failed_issue_leaves_no_active_code_witness :
  activeCodes Sample.classId
    (snd (generateJoinCode Sample.draw (fun _ _ => Some (mkError 121 "refused"))
            Sample.classId Sample.teacherId "Ms T" 1000 Sample.fresh)) = [].
Proof.
  destruct (failed_issue_leaves_no_active_code Sample.draw
              (fun _ _ => Some (mkError 121 "refused"))
              Sample.classId Sample.teacherId "Ms T" 1000 Sample.fresh
              500 _ _ eq_refl) as [[H _] | (_ & _ & H)].
  - discriminate H.
  - exact H.
Defined.

Lemma refused_submit_changes_little_witness :
  classJoinRequestCollection
    (snd (submitJoinRequest (fun _ _ => Some (mkError 121 "refused"))
            (Some "ABC123") Sample.annId "Ann" 1000 Sample.annRejected)) = [] /\
  snd (submitJoinRequest Sample.accept (Some "ABC123") Sample.annId "Ann" 1000
         Sample.usedUp) = Sample.usedUp.
Proof.
  split.
  - destruct (refused_submit_changes_little
                (fun _ _ => Some (mkError 121 "refused"))
                (Some "ABC123") Sample.annId "Ann" 1000 Sample.annRejected
                500 _ _ eq_refl) as [H | (jc & c & r & _ & _ & _ & _ & H)];
      cbn [snd] in H |- *; [discriminate H | reflexivity].
  - destruct (refused_submit_changes_little Sample.accept
                (Some "ABC123") Sample.annId "Ann" 1000 Sample.usedUp
                400 _ _ eq_refl) as [H | (jc & c & r & _ & _ & Hr & _)];
      [reflexivity | discriminate Hr].
Defined.

Lemma resolved_only_once_witness :
  exists message,
    let db' :=
      snd (resolveJoinRequest Sample.accept Sample.classId Sample.requestId
             "reject" Sample.teacherId 1000 Sample.annPending) in
    resolveJoinRequest Sample.accept Sample.classId Sample.requestId "approve"
      Sample.teacherId 2000 db' = (Err 404 message, db').
Proof.
  apply (resolved_only_once Sample.accept Sample.classId Sample.requestId
           Sample.teacherId 1000 Sample.annPending Sample.algebra
           (Sample.request pending) eq_refl eq_refl
           "reject" "approve" Sample.teacherId 2000
           (or_intror eq_refl) (or_introl eq_refl)
           ltac:(distinct_ids) (fun _ => eq_refl)).
Defined.

Lemma reject_then_resubmit_witness :
  exists new db2,
    submitJoinRequest Sample.accept (Some "ABC123") Sample.annId "Ann" 3000
      (snd (resolveJoinRequest Sample.accept Sample.classId Sample.requestId
              "reject" Sample.teacherId 1000 Sample.annPending))
      = (requestSent new (Sample.code 0 50), db2) /\
    ClassJoinRequest.status new = pending /\
    In new (classJoinRequestCollection db2).
Proof.
  destruct (reject_then_resubmit Sample.accept Sample.accept Sample.classId
              Sample.requestId Sample.teacherId 1000 Sample.annPending
              Sample.algebra (Sample.request pending) eq_refl eq_refl
              "ABC123" "Ann" 3000 Sample.ann (Sample.code 0 50)
              ltac:(distinct_ids)) as [_ Hagain].
  destruct (Hagain eq_refl eq_refl eq_refl eq_refl eq_refl eq_refl eq_refl
              eq_refl (fun _ _ => eq_refl))
    as (new & db2 & Hrun & Hst & _ & _ & Hin & _).
  exists new, db2; auto.
Defined.

Lemma validated_code_can_be_submitted_witness :
  exists message payload db',
    submitJoinRequest Sample.accept (Some "ABC123") Sample.annId "Ann" 1000
      Sample.fresh = (Ok message payload, db').
Proof.
  apply (validated_code_can_be_submitted Sample.accept "ABC123" Sample.annId
           "Ann" 1000 Sample.fresh _ _ _ Sample.ann eq_refl eq_refl eq_refl
           (fun _ _ => eq_refl)).
Defined.

Lemma issued_code_is_the_active_code_witness :
  let db1 :=
    snd (generateJoinCode Sample.draw Sample.accept Sample.classId
           Sample.teacherId "Ms T" 0 Sample.fresh) in
  getActiveJoinCode Sample.classId Sample.teacherId 1000 db1
    = (Sent None (ActiveCode "ABC123" 600000 0 50 599), db1) /\
  getActiveJoinCode Sample.classId Sample.teacherId 600000 db1
    = (Sent (Some "No active join code found.") NoActiveCode, db1).
Proof.
  split.
  - apply (issued_code_is_the_active_code Sample.draw Sample.accept
             Sample.classId Sample.teacherId "Ms T" 0 Sample.fresh
             _ _ _ _ _ _ _ _ _ 1000 eq_refl); reflexivity.
  - apply (issued_code_is_the_active_code Sample.draw Sample.accept
             Sample.classId Sample.teacherId "Ms T" 0 Sample.fresh
             _ _ _ _ _ _ _ _ _ 600000 eq_refl); discriminate.
Defined.

Lemma class_access_witness :
  fst (getClass Sample.classId Sample.annId "student" Sample.annEnrolled)
    = Sent None (mkClassView 1%nat "Algebra" "Math" 0) /\
  fst (getClass Sample.classId Sample.bobId "student" Sample.annEnrolled)
    = Refused 403 "Access denied. You are not enrolled in this class." /\
  fst (getClass Sample.classId 6%nat "teacher" Sample.annEnrolled)
    = Refused 403 "Access denied. You do not own this class." /\
  fst (getClass 2%nat Sample.annId "student" Sample.annEnrolled)
    = Refused 404 "Class not found.".
Proof.
  split; [|split; [|split]].
  - destruct (class_access Sample.classId Sample.annId "student"
                Sample.annEnrolled) as (_ & _ & H).
    destruct (H Sample.algebra eq_refl) as (_ & Hs & _); exact (Hs eq_refl).
  - destruct (class_access Sample.classId Sample.bobId "student"
                Sample.annEnrolled) as (_ & _ & H).
    destruct (H Sample.algebra eq_refl) as (_ & Hs & _); exact (Hs eq_refl).
  - destruct (class_access Sample.classId 6%nat "teacher"
                Sample.annEnrolled) as (_ & _ & H).
    destruct (H Sample.algebra eq_refl) as (Ht & _); exact (Ht eq_refl).
  - destruct (class_access 2%nat Sample.annId "student"
                Sample.annEnrolled) as (_ & H & _); exact (H eq_refl).
Defined.

Lemma approved_student_can_open_class_witness :
  let db' :=
    snd (resolveJoinRequest Sample.accept Sample.classId Sample.requestId
           "approve" Sample.teacherId 1000 Sample.annPending) in
  getClass Sample.classId Sample.annId "student" db'
    = (Sent None (mkClassView 1%nat "Algebra" "Math" 1), db').
Proof.
  apply (approved_student_can_open_class Sample.accept Sample.classId
           Sample.requestId Sample.teacherId 1000 Sample.annPending
           Sample.algebra (Sample.request pending) eq_refl eq_refl
           ltac:(intros e H; discriminate H)
           ltac:(distinct_ids) ltac:(distinct_ids) (fun _ => eq_refl)).
Defined.

Lemma create_class_once_per_name_witness :
  exists view db',
    createClass Sample.accept true (fun now => now) (Some " Geometry ")
      (Some "Math") Sample.teacherId 1000 Sample.fresh
      = (Sent (Some "Class created successfully!") view, db') /\
    view_name view = "Geometry" /\
    createClass Sample.accept true (fun now => now) (Some "Geometry")
      (Some "Maths") Sample.teacherId 2000 db'
      = (Refused 400 "You already have a class with this name.", db').
Proof.
  destruct (create_class_once_per_name Sample.accept (fun now => now) None None
              Sample.teacherId 1000 Sample.fresh) as (_ & _ & Hnew).
  destruct (Hnew " Geometry " "Math" eq_refl eq_refl eq_refl (fun _ _ => eq_refl))
    as (view & db' & Hrun & Hname & _ & _ & _ & Hagain).
  exists view, db'; split; [exact Hrun|]; split; [exact Hname|].
  apply Hagain; reflexivity.
Defined.

Ltac no_other_holder :=
  intros v Hv Ht; cbn in Hv;
  repeat (destruct Hv as [<-|Hv]; [first [exact eq_refl | discriminate Ht]|]);
  contradiction.

Lemma login_reads_only_witness :
  snd (fst (login Sample.encode "tulip-42" "student" "" "" false Sample.fresh))
    = None /\
  snd (login Sample.encode "tulip-42" "student" "" "E7" false Sample.fresh)
    = Sample.fresh.
Proof.
  split.
  - destruct (login_reads_only Sample.encode "tulip-42" "student" "" "" false
                Sample.fresh) as (_ & Hnone & Hempty).
    apply Hnone, Hempty; reflexivity.
  - apply (login_reads_only Sample.encode "tulip-42" "student" "" "E7" false
             Sample.fresh).
Defined.

Lemma signup_refuses_known_account_witness :
  snd (signup Sample.encode Sample.accept Sample.accept "teacher" "Ms T"
         "t@school.org" "" "chalk-2" false Sample.fresh) = Sample.fresh /\
  snd (signup Sample.encode Sample.accept Sample.accept "student" "Ann" ""
         "e7" "tulip-43" false Sample.fresh) = Sample.fresh.
Proof.
  split.
  - destruct (signup_refuses_known_account Sample.encode Sample.accept
                Sample.accept "teacher" "Ms T" "t@school.org" "" "chalk-2" false
                Sample.fresh) as [Hteacher _].
    destruct (Hteacher Sample.ms_t eq_refl eq_refl) as [locals ->]; reflexivity.
  - destruct (signup_refuses_known_account Sample.encode Sample.accept
                Sample.accept "student" "Ann" "" "e7" "tulip-43" false
                Sample.fresh) as [_ Hstudent].
    destruct (Hstudent Sample.ann eq_refl eq_refl) as [locals ->]; reflexivity.
Defined.

Lemma signup_then_login_witness :
  let db' :=
    snd (signup Sample.encode Sample.accept Sample.accept "student" "Cy" ""
           "e9" "pw-cy-1" false Sample.fresh) in
  (exists s,
     In s (studentCollection db') /\
     snd (fst (login Sample.encode "pw-cy-1" "student" "" "e9" false db'))
       = Some {| userId := Student._id s; userName := Student.name s;
                 userType := "student" |}) /\
  snd (fst (login Sample.encode "pw-cy-2" "student" "" "e9" false db')) = None.
Proof.
  destruct (signup_then_login Sample.encode Sample.accept Sample.accept "Cy" ""
              "e9" "pw-cy-1" Sample.fresh (fun _ _ => eq_refl)
              (fun _ _ => eq_refl)) as [Hstudent _].
  split.
  - destruct (Hstudent "student" eq_refl ltac:(discriminate) eq_refl false
                "pw-cy-1" "" false) as (s & Hin & _ & Hlogin).
    exists s; split; [exact Hin | exact Hlogin].
  - destruct (Hstudent "student" eq_refl ltac:(discriminate) eq_refl false
                "pw-cy-2" "" false) as (s & _ & _ & Hlogin).
    exact Hlogin.
Defined.

Lemma signup_with_retyped_email_witness :
  let result :=
    signup Sample.encode Sample.accept Sample.accept "teacher" "Mr T"
      "T@School.org" "" "slate-77" false Sample.fresh in
  snd (fst result)
    = Some {| userId := 5%nat; userName := "Ms T"; userType := "teacher" |} /\
  exists t,
    teacherCollection (snd result) = [Sample.ms_t; t] /\
    Teacher.email t = "t@school.org".
Proof.
  destruct (signup_with_retyped_email Sample.encode Sample.accept Sample.accept
              "Mr T" "T@School.org" "" "slate-77" false Sample.fresh Sample.ms_t
              eq_refl eq_refl (fun _ _ => eq_refl))
    as (Hsession & t & Hstored & Hemail & _).
  split; [exact Hsession|].
  exists t; split; [exact Hstored | exact Hemail].
Defined.

Lemma failed_reset_changes_nothing_witness :
  snd (resetPassword "tok" "abc" "abc" 1000 Sample.fresh) = Sample.fresh /\
  snd (resetPassword "tok" "rose-4242" "rose-4242" 5000 Sample.fresh)
    = Sample.fresh /\
  (let sharp_s := String (ascii_of_nat 195) (String (ascii_of_nat 159) "") in
   let o_umlaut := String (ascii_of_nat 195) (String (ascii_of_nat 182) "") in
   let password := "pa" ++ sharp_s ++ "w" ++ o_umlaut in
   String.length password = 7%nat /\
   snd (resetPassword "tok" password password 1000 Sample.fresh) = Sample.fresh).
Proof.
  split; [|split].
  - assert (Hshort : (String.length "abc" < 6)%nat) by (vm_compute; lia).
    destruct (failed_reset_changes_nothing "tok" "abc" "abc" 1000 Sample.fresh
                (or_intror (or_intror (or_intror Hshort)))) as [locals ->].
    reflexivity.
  - destruct (failed_reset_changes_nothing "tok" "rose-4242" "rose-4242" 5000
                Sample.fresh (or_introl eq_refl)) as [locals ->].
    reflexivity.
  - cbv zeta; split; [reflexivity|].
    match goal with
    | |- snd (resetPassword _ ?p _ _ _) = _ =>
        assert (Hshort : (JS.length p < 6)%nat) by (vm_compute; lia);
        destruct (failed_reset_changes_nothing "tok" p p 1000 Sample.fresh
                    (or_intror (or_intror (or_introl Hshort)))) as [locals ->]
    end.
    reflexivity.
Defined.

Lemma reset_token_works_once_witness :
  let db' := snd (resetPassword "tok" "rose-4242" "rose-4242" 1000 Sample.fresh) in
  findByResetToken "tok" 2000 db' = (inr None, db') /\
  snd (fst (login Sample.encode "rose-4242" "student" "" "E7" false db'))
    = Some {| userId := 7%nat; userName := "Ann"; userType := "student" |}.
Proof.
  assert (Hlong : (6 <= JS.length "rose-4242")%nat) by (vm_compute; lia).
  destruct (reset_token_works_once Sample.encode "tok" "rose-4242" 1000
              Sample.fresh (AStudent Sample.ann) eq_refl Hlong
              ltac:(distinct_ids) ltac:(distinct_ids)) as [Honce Hlogin].
  split.
  - apply Honce; no_other_holder.
  - apply (Hlogin "student" "" "E7" "rose-4242" false eq_refl).
Defined.

Lemma forgot_password_effects_witness :
  (exists url,
     forgotPassword Sample.encode "https://quizzie.example" (Some "nobody@school.org")
       1000 "t2" true Sample.fresh = (Redirect url, None, Sample.fresh)) /\
  exists url mail,
    fst (forgotPassword Sample.encode "https://quizzie.example"
           (Some "t@school.org") 1000 "t2" true Sample.fresh)
      = (Redirect url, Some mail) /\
    mail_resetLink mail = "https://quizzie.example/reset-password/t2".
Proof.
  destruct (forgot_password_effects Sample.encode "https://quizzie.example" 1000
              "t2" true Sample.fresh) as [Hnone Hfound].
  split.
  - apply Hnone; right; right; eexists; split; reflexivity.
  - destruct (Hfound "t@school.org" (ATeacher Sample.ms_t) eq_refl eq_refl)
      as (url & mail & Hrun & _ & Hlink & _).
    exists url, mail; rewrite Hrun; split; [reflexivity | exact Hlink].
Defined.

Lemma reset_link_lasts_one_hour_witness :
  let db1 :=
    snd (forgotPassword Sample.encode "https://quizzie.example"
           (Some "t@school.org") 1000 "t2" true Sample.fresh) in
  storedPassword (ATeacher Sample.ms_t)
    (snd (resetPassword "t2" "rose-4242" "rose-4242" 3600999 db1))
    = Some "rose-4242" /\
  snd (resetPassword "t2" "rose-4242" "rose-4242" 3601000 db1) = db1.
Proof.
  split.
  - apply (reset_link_lasts_one_hour Sample.encode "https://quizzie.example"
             "t@school.org" 1000 "t2" true Sample.fresh (ATeacher Sample.ms_t)
             3600999 "rose-4242" eq_refl eq_refl ltac:(distinct_ids)
             ltac:(distinct_ids) ltac:(no_other_holder));
      [reflexivity | vm_compute; lia].
  - apply (reset_link_lasts_one_hour Sample.encode "https://quizzie.example"
             "t@school.org" 1000 "t2" true Sample.fresh (ATeacher Sample.ms_t)
             3601000 "rose-4242" eq_refl eq_refl ltac:(distinct_ids)
             ltac:(distinct_ids) ltac:(no_other_holder)).
    discriminate.
Defined.

Lemma verify_email_outcomes_witness :
  fst (Verification.verifyEmail "t-ann" 1000 Verification.sample)
    = Verification.verified
        "Your email has been successfully verified! You can now log in." /\
  fst (Verification.verifyEmail "t-ms" 1000 Verification.sample)
    = Verification.verified
        "Your email address has been successfully updated and verified!" /\
  Verification.verifyEmail "t-ann" 5000 Verification.sample
    = (Verification.notVerified
         "The verification link is invalid or has expired. Please try resending the verification email.",
       Verification.sample).
Proof.
  split; [|split].
  - destruct (verify_email_outcomes "t-ann" 1000 Verification.sample) as [_ H].
    destruct (H _ eq_refl) as (_ & _ & Hplain & _).
    apply Hplain; reflexivity.
  - destruct (verify_email_outcomes "t-ms" 1000 Verification.sample) as [_ H].
    destruct (H _ eq_refl) as (_ & Hchanged & _).
    apply Hchanged; reflexivity.
  - apply (verify_email_outcomes "t-ann" 5000 Verification.sample); reflexivity.
Defined.

Lemma verify_email_once_witness :
  let db' := snd (Verification.verifyEmail "t-ann" 1000 Verification.sample) in
  Verification.verifyEmail "t-ann" 2000 db'
    = (Verification.notVerified
         "The verification link is invalid or has expired. Please try resending the verification email.",
       db').
Proof.
  apply (verify_email_once "t-ann" 1000 Verification.sample _ _ eq_refl eq_refl
           ltac:(distinct_ids) ltac:(distinct_ids)).
  - intros v Hv Ht; cbn in Hv.
    destruct Hv as [<-|[<-|[]]]; [reflexivity | discriminate Ht].
  - intros _ Hin; cbn in Hin; destruct Hin as [H|[]]; discriminate H.
Defined.

Lemma run_one_request_per_pair_witness :
  (List.length
     (pendingRequests Sample.classId Sample.annId
        (run Sample.draw Sample.accept Sample.accept Sample.accept
           [ResolveJoinRequest Sample.classId Sample.requestId "reject"
              Sample.teacherId 1000%Z;
            SubmitJoinRequest (Some "ABC123") Sample.annId "Ann" 2000%Z;
            SubmitJoinRequest (Some "ABC123") Sample.annId "Ann" 3000%Z]
           Sample.annPending)) <= 1)%nat.
Proof.
  apply run_one_request_per_pair.
  - unfold DistinctIds; cbn; distinct_ids.
  - split.
    + intros c s; cbn.
      destruct (requestOf c s (Sample.request pending)); cbn; lia.
    + intros r Hr Hs; cbn in Hr; destruct Hr as [<-|[]]; discriminate Hs.
Defined.

Lemma listed_request_can_be_resolved_witness :
  let answer :=
    resolveJoinRequest Sample.accept Sample.classId Sample.requestId "approve"
      Sample.teacherId 1000 Sample.annPending in
  exists body',
    getJoinRequests (@rev _) Sample.classId Sample.teacherId (snd answer)
      = (Sent None body', snd answer) /\
    list_totalPending body' = 0%nat.
Proof.
  destruct (listed_request_can_be_resolved Sample.accept (@rev _)
              (fun l => Permutation_sym (Permutation_rev l))
              Sample.classId Sample.teacherId 1000 "approve" Sample.annPending
              _ (mkRequestView 1%nat "Ann" "E7" "ABC123")
              ltac:(distinct_ids) (fun _ => eq_refl) (or_introl eq_refl)
              eq_refl (or_introl eq_refl))
    as (_ & _ & body' & Hrun & _ & Hcount & _).
  exists body'; split; [exact Hrun|].
  cbn in Hcount; injection Hcount as Hcount; exact Hcount.
Defined.
